(** * invest-agents: allocation planning, plan validation, paper execution

    A shallow embedding of the three core files of the repository

      - [orchestrator/main.py]  with [common/risk/risk.py]  (Plan Builder)
      - [run_validate.py]                                   (Plan Validator)
      - [interfaces/broker_adapter/paper.py]                (Paper Execution Engine)

    and of the code around them: the price providers
    ([common/providers/__init__.py], [coingecko_provider.py]) with the file
    cache ([common/cache/cache.py]), the scoring of the equities, fixed-income
    and crypto agents ([agents/*/agent.py]) and the pipeline ([run_all.py]).

    Python floats are read as exact rationals ([Q]); [round(x, 6)] and
    [math.floor] are written out on [Q].  Python dictionaries keep insertion
    order, which decides the order of a plan's entries and of the execution
    records, so they are association lists with the update discipline of
    [dict]: assignment to a present key keeps its place, assignment to a new
    key appends.  What comes from outside (provider answers, the clock,
    random numbers, price histories) is an argument of the function that
    reads it. *)

From Stdlib Require Import List String Ascii Bool ZArith QArith Qround Qabs Lia Lqa.
From Stdlib Require Import Sorted Permutation.
Import ListNotations.
Local Open Scope string_scope.
Local Open Scope Q_scope.

(* ------------------------------------------------------------------------- *)
(** ** Numbers as Python computes them *)

Module PyNum.

(** [max(a, b)]: the first argument wins ties. *)
Definition pymax (a b : Q) : Q := if Qle_bool b a then a else b.

(** [min(a, b)]: the first argument wins ties. *)
Definition pymin (a b : Q) : Q := if Qle_bool a b then a else b.

(** [sum(xs)]: left to right from 0. *)
Definition pysum (xs : list Q) : Q := fold_left Qplus xs 0.

(** Round half to even, the rule of the built-in [round]. *)
Definition round_half_even (q : Q) : Z :=
  let f := Qfloor q in
  match Qcompare (q - inject_Z f) (1 # 2) with
  | Lt => f
  | Gt => (f + 1)%Z
  | Eq => if Z.even f then f else (f + 1)%Z
  end.

(** [round(x, 6)]. *)
Definition round6 (x : Q) : Q :=
  inject_Z (round_half_even (x * 1000000)) / 1000000.

(** [math.floor(x)], as a number again. *)
Definition floorQ (x : Q) : Q := inject_Z (Qfloor x).

Definition Qlt_bool (a b : Q) : bool := negb (Qle_bool b a).

End PyNum.
Export PyNum.

(* ------------------------------------------------------------------------- *)
(** ** Strings: [str.strip] and [str.upper] on ASCII text *)

Module PyStr.

Definition is_space (c : ascii) : bool :=
  let n := nat_of_ascii c in
  ((9 <=? n) && (n <=? 13) || (28 <=? n) && (n <=? 32))%nat.

Definition upper_ascii (c : ascii) : ascii :=
  let n := nat_of_ascii c in
  if ((97 <=? n) && (n <=? 122))%nat then ascii_of_nat (n - 32) else c.

Fixpoint lstrip (l : list ascii) : list ascii :=
  match l with
  | c :: t => if is_space c then lstrip t else l
  | [] => []
  end.

Definition strip (s : string) : string :=
  string_of_list_ascii
    (rev (lstrip (rev (lstrip (list_ascii_of_string s))))).

Definition upper (s : string) : string :=
  string_of_list_ascii (map upper_ascii (list_ascii_of_string s)).

(** [s in {...}] for a set literal of strings. *)
Definition mem (s : string) (l : list string) : bool :=
  existsb (String.eqb s) l.

End PyStr.

(* ------------------------------------------------------------------------- *)
(** ** Insertion-ordered dictionaries *)

Module Dict.

Definition dict (V : Type) : Type := list (string * V).

Section Ops.
Context {V : Type}.

Fixpoint dget (k : string) (d : dict V) : option V :=
  match d with
  | [] => None
  | (k', v) :: t => if String.eqb k k' then Some v else dget k t
  end.

(** [d.get(k, default)]. *)
Definition dget_or (k : string) (d : dict V) (default : V) : V :=
  match dget k d with Some v => v | None => default end.

(** [k in d]. *)
Definition dmem (k : string) (d : dict V) : bool :=
  match dget k d with Some _ => true | None => false end.

(** [d[k] = v]. *)
Fixpoint dset (k : string) (v : V) (d : dict V) : dict V :=
  match d with
  | [] => [(k, v)]
  | (k', v') :: t =>
      if String.eqb k k' then (k, v) :: t else (k', v') :: dset k v t
  end.

(** [d.setdefault(k, v)], for its effect on [d]. *)
Definition setdefault (k : string) (v : V) (d : dict V) : dict V :=
  if dmem k d then d else dset k v d.

Definition keys (d : dict V) : list string := map fst d.
Definition values (d : dict V) : list V := map snd d.

(** [{k: f(v) for k, v in d.items()}]: the keys of a dictionary are
    distinct, so the comprehension inserts each of them once, in order. *)
Definition dmap {W : Type} (f : V -> W) (d : dict V) : dict W :=
  map (fun kv => (fst kv, f (snd kv))) d.

(** [{k: v for k, v in d.items() if p(v)}]. *)
Definition dfilter (p : V -> bool) (d : dict V) : dict V :=
  filter (fun kv => p (snd kv)) d.

End Ops.

(** The invariant of a Python [dict]: no key twice. *)
Definition wf {V : Type} (d : dict V) : Prop := NoDup (keys d).

End Dict.
Export Dict.

(* ------------------------------------------------------------------------- *)
(** ** common/risk/risk.py *)

Module Risk.

Definition cap_position_weights (weights : dict Q) (max_pct : Q) : dict Q :=
  let capped := dmap (fun w => pymin w max_pct) weights in
  let s := pysum (values capped) in
  if Qeq_bool s 0 then capped
  else dmap (fun v => v / s) capped.

Definition within_band (current target band : Q) : bool :=
  Qle_bool (target - band) current && Qle_bool current (target + band).

Definition clamp_to_bands (current target band : Q) : Q :=
  if Qlt_bool current (target - band) then target - band
  else if Qlt_bool (target + band) current then target + band
  else current.

Record Metrics : Type := mkMetrics {
  gross_value : Q;
  hhi : Q
}.

(** [simple_portfolio_metrics]: the sum of the positions and their
    concentration (HHI), 0.0 when the sum is not positive. *)
Definition simple_portfolio_metrics (positions : dict Q) : Metrics :=
  let total := pysum (values positions) in
  mkMetrics total
            (if Qlt_bool 0 total
             then pysum (map (fun v => (v / total) ^ 2) (values positions))
             else 0).

End Risk.

(* ------------------------------------------------------------------------- *)
(** ** orchestrator/main.py *)

Module Orchestrator.

(** A signal record; [confidence] may be absent ([s.get("confidence", 0.5)]). *)
Record Signal : Type := mkSignal {
  instrument_id : string;
  confidence : option Q
}.

(** The strategy policy as the three readers use it.  Every field may be
    absent from the file. *)
Record Strategy : Type := mkStrategy {
  alloc_target : option (dict Q);
  rebalance_bands : option Q;
  position_max_pct : option Q
}.

Inductive Action : Type := INCREASE | HOLD.

(** An order of the plan; [order_instrument] is its ["instrument_id"]. *)
Record Order : Type := mkOrder {
  order_instrument : string;
  action : Action;
  target_weight : Q
  (* max_notional is always None *)
}.

Record Plan : Type := mkPlan {
  classes : dict (dict Q);
  orders : list Order
}.

Definition infer_class (instrument_id : string) : string :=
  if PyStr.mem instrument_id ["VNQ"; "IPRP"; "IWDP"; "PLD"; "O"; "SPG"]
  then "reits"
  else if PyStr.mem instrument_id ["BTC"; "ETH"] then "crypto"
  else if PyStr.mem instrument_id
            ["IEF"; "TLT"; "SHY"; "IEGA"; "IEAC"; "LQD"; "BUND"]
  then "fixed_income"
  else "equities".

(** One turn of the grouping loop (lines 42-47). *)
Definition group_step (by_class : dict (dict Q)) (s : Signal) : dict (dict Q) :=
  let inst := instrument_id s in
  let cls := infer_class inst in
  let conf := match confidence s with Some c => c | None => 0.5 end in
  let by_class := setdefault cls [] by_class in
  let insts := dget_or cls by_class [] in
  dset cls (dset inst (pymax conf (dget_or inst insts 0)) insts) by_class.

Definition group_signals (signals : list Signal) : dict (dict Q) :=
  fold_left group_step signals [].

Definition clamp01 (w : Q) : Q := pymax 0 (pymin 1 w).

(** The class plan of one class (lines 62-69).  The code rounds the double
    product [class_weight * w]; here the exact product is rounded.  The two
    weights agree except when the product lies within the last digits of a
    double of a rounding tie, where they are 1e-6 apart; either is within
    5e-7 of the product. *)
Definition class_plan_of (target_alloc : dict Q) (pos_max : Q)
           (cls : string) (insts : dict Q) : dict Q :=
  let s := pysum (values insts) in
  let intra := dmap (fun v => v / s) insts in
  let intra := Risk.cap_position_weights intra pos_max in
  let class_weight := clamp01 (dget_or cls target_alloc 0) in
  dmap (fun w => round6 (class_weight * w)) intra.

Definition order_of (kv : string * Q) : Order :=
  mkOrder (fst kv)
          (if Qlt_bool 0 (snd kv) then INCREASE else HOLD)
          (snd kv).

(** One turn of the planning loop (lines 54-78). *)
Definition plan_step (target_alloc : dict Q) (pos_max : Q)
           (plan : Plan) (entry : string * dict Q) : Plan :=
  let (cls, insts) := entry in
  match insts with
  | [] => plan
  | _ =>
      let s := pysum (values insts) in
      if Qle_bool s 0 then plan
      else
        let class_plan := class_plan_of target_alloc pos_max cls insts in
        mkPlan (dset cls class_plan (classes plan))
               (orders plan ++ map order_of class_plan)
  end.

(** [strategy.get("alloc_target", {})]. *)
Definition target_alloc_of (strategy : Strategy) : dict Q :=
  match alloc_target strategy with Some d => d | None => [] end.

(** The planning loop over [by_class.items()]. *)
Definition plan_loop (target_alloc : dict Q) (pos_max : Q)
           (by_class : dict (dict Q)) : Plan :=
  fold_left (plan_step target_alloc pos_max) by_class (mkPlan [] []).

(** [build_plan]; [None] stands for the [KeyError] raised when the strategy
    has no [risk_limits.position_max_pct]. *)
Definition build_plan (strategy : Strategy) (signals : list Signal)
  : option Plan :=
  let by_class := group_signals signals in
  let target_alloc := target_alloc_of strategy in
  match position_max_pct strategy with
  | None => None
  | Some pos_max => Some (plan_loop target_alloc pos_max by_class)
  end.

(** The files [main] reads and writes: the strategy ([None] when there is no
    such file), the four signal files in the order [load_signals] reads them
    ([None] for a file that is missing or does not parse) and the plan. *)
Record Files : Type := mkFiles {
  strategy_file : option Strategy;
  signal_files : list (option (list Signal));
  plan_file : option Plan
}.

(** [load_signals]: a missing or broken file contributes no signal. *)
Definition load_signals (files : list (option (list Signal))) : list Signal :=
  flat_map (fun f => match f with Some sigs => sigs | None => [] end) files.

(** [main]; [None] when reading the strategy or building the plan raises. *)
Definition main (fs : Files) : option Files :=
  match strategy_file fs with
  | None => None
  | Some strategy =>
      match build_plan strategy (load_signals (signal_files fs)) with
      | None => None
      | Some plan => Some (mkFiles (strategy_file fs) (signal_files fs) (Some plan))
      end
  end.

End Orchestrator.

(* ------------------------------------------------------------------------- *)
(** ** run_validate.py *)

Module Validate.

Import Orchestrator.

(** The validator's messages.  The text of a message is formatting; what it
    says is kept: which check produced it and the values it prints. *)
Inductive Message : Type :=
| StrategyUnreadable
| AllocTargetMissing
| AllocSumNotPositive
| AllocSumNotOne (s_alloc : Q)
| PlanNotFound
| PlanUnreadable
| PlanNoClasses
| UnknownClasses (unknown_classes : list string)
| MissingClasses (missing_classes : list string)
| ClassOutOfBand (cls : string) (target actual bands : Q)
| ClassOk (cls : string) (target actual bands : Q)
| TotalNotOne (total_weight : Q)
| TotalOk (total_weight : Q)
| PositionAboveLimit (inst cls : string) (w pos_max : Q)
| NoPositionAboveLimit (pos_max : Q).

(** What reading the plan file gave: no file, a file that does not parse, or a
    document whose ["classes"] is a dictionary ([Some]) or not ([None]). *)
Inductive PlanRead : Type :=
| PlanAbsent
| PlanBroken
| PlanLoaded (classes : option (dict (dict Q))).

Inductive Status : Type := OK | FAIL.

Record Report : Type := mkReport {
  status : Status;
  class_sums : dict Q;
  total_weight : Q;
  warnings : list Message;
  errors : list Message;
  notes : list Message
}.

(** The three lists a check appends to. *)
Record Log : Type := mkLog {
  log_errors : list Message;
  log_warnings : list Message;
  log_notes : list Message
}.

Definition log_app (a b : Log) : Log :=
  mkLog (log_errors a ++ log_errors b)
        (log_warnings a ++ log_warnings b)
        (log_notes a ++ log_notes b).

Definition EPS6 : Q := 1 # 1000000.

Fixpoint insert_string (x : string) (l : list string) : list string :=
  match l with
  | [] => [x]
  | y :: t => if String.leb x y then x :: l else y :: insert_string x t
  end.

(** [sorted(...)] on strings. *)
Definition sorted_strings (l : list string) : list string :=
  fold_right insert_string [] l.

(** [sorted(set(a.keys()) - set(b.keys()))]. *)
Definition sorted_key_difference {V W : Type} (a : dict V) (b : dict W)
  : list string :=
  sorted_strings
    (nodup string_dec (filter (fun k => negb (dmem k b)) (keys a))).

(** Lines 30-43: a strategy that cannot be read is an error and counts as
    empty. *)
Definition read_strategy (strategy_read : option Strategy) : Strategy * Log :=
  match strategy_read with
  | Some strategy => (strategy, mkLog [] [] [])
  | None => (mkStrategy None None None, mkLog [StrategyUnreadable] [] [])
  end.

(** Lines 50-58. *)
Definition check_alloc_target (alloc_target : dict Q) : Log :=
  match alloc_target with
  | [] => mkLog [AllocTargetMissing] [] []
  | _ =>
      let s_alloc := pysum (values alloc_target) in
      if Qle_bool s_alloc 0 then mkLog [AllocSumNotPositive] [] []
      else if Qlt_bool EPS6 (Qabs (s_alloc - 1))
           then mkLog [] [AllocSumNotOne s_alloc] []
           else mkLog [] [] []
  end.

(** Lines 61-71. *)
Definition read_plan (plan_read : PlanRead) : dict (dict Q) * Log :=
  match plan_read with
  | PlanAbsent => ([], mkLog [PlanNotFound] [] [])
  | PlanBroken => ([], mkLog [PlanUnreadable] [] [])
  | PlanLoaded (Some classes) => (classes, mkLog [] [] [])
  | PlanLoaded None => ([], mkLog [] [] [])
  end.

(** Lines 74-75. *)
Definition check_structure (classes : dict (dict Q)) : Log :=
  match classes with
  | [] => mkLog [PlanNoClasses] [] []
  | _ => mkLog [] [] []
  end.

(** Lines 78-81. *)
Definition check_unknown (alloc_target : dict Q) (classes : dict (dict Q)) : Log :=
  match sorted_key_difference classes alloc_target with
  | [] => mkLog [] [] []
  | unknown_classes => mkLog [] [UnknownClasses unknown_classes] []
  end.

(** Lines 84-87. *)
Definition check_missing (alloc_target : dict Q) (classes : dict (dict Q)) : Log :=
  match sorted_key_difference alloc_target classes with
  | [] => mkLog [] [] []
  | missing_classes => mkLog [] [MissingClasses missing_classes] []
  end.

(** Lines 90-93. *)
Definition class_sums_of (classes : dict (dict Q)) : dict Q :=
  fold_left (fun sums e => dset (fst e) (pysum (values (snd e))) sums)
            classes [].

(** The test of line 100.  The code compares with the doubles
    [(target - bands) - 1e-6] and [(target + bands) + 1e-6], which are within
    the last digits of a double of the edges written here. *)
Definition out_of_band (target bands actual : Q) : bool :=
  Qlt_bool actual (target - bands - EPS6)
  || Qlt_bool (target + bands + EPS6) actual.

(** One turn of the loop of lines 96-105. *)
Definition check_band (bands : Q) (class_sums : dict Q) (e : string * Q) : Log :=
  let (cls, target) := e in
  let actual := dget_or cls class_sums 0 in
  if out_of_band target bands actual
  then mkLog [ClassOutOfBand cls target actual bands] [] []
  else mkLog [] [] [ClassOk cls target actual bands].

Definition check_bands (alloc_target : dict Q) (bands : Q) (class_sums : dict Q)
  : Log :=
  fold_left (fun log e => log_app log (check_band bands class_sums e))
            alloc_target (mkLog [] [] []).

(** Lines 108-112. *)
Definition check_total (total_weight : Q) : Log :=
  if Qlt_bool (1 # 1000) (Qabs (total_weight - 1))
  then mkLog [TotalNotOne total_weight] [] []
  else mkLog [] [] [TotalOk total_weight].

(** Lines 115-119. *)
Definition violators_of (pos_max : Q) (classes : dict (dict Q))
  : list (string * string * Q) :=
  flat_map
    (fun e =>
       flat_map
         (fun iw =>
            if Qlt_bool (pos_max + (1 # 1000000000)) (snd iw)
            then [(fst iw, fst e, snd iw)] else [])
         (snd e))
    classes.

Fixpoint insert_by_weight (x : string * string * Q)
         (l : list (string * string * Q)) : list (string * string * Q) :=
  match l with
  | [] => [x]
  | y :: t =>
      (* key = -weight, ascending; equal keys keep their order *)
      if Qle_bool (snd y) (snd x) then x :: l else y :: insert_by_weight x t
  end.

(** [sorted(violators, key=lambda x: -x[2])]. *)
Definition sorted_by_weight (l : list (string * string * Q))
  : list (string * string * Q) :=
  fold_right insert_by_weight [] l.

(** Lines 120-124. *)
Definition check_positions (pos_max : Q) (classes : dict (dict Q)) : Log :=
  match violators_of pos_max classes with
  | [] => mkLog [] [] [NoPositionAboveLimit pos_max]
  | violators =>
      mkLog (map (fun v => PositionAboveLimit (fst (fst v)) (snd (fst v))
                                              (snd v) pos_max)
                 (sorted_by_weight violators))
            [] []
  end.

(** [main], up to the report it writes. *)
Definition main (strategy_read : option Strategy) (plan_read : PlanRead)
  : Report :=
  let (strategy, log1) := read_strategy strategy_read in
  let alloc_target := target_alloc_of strategy in
  let bands := match rebalance_bands strategy with Some b => b | None => 0 end in
  let pos_max := match position_max_pct strategy with Some p => p | None => 1 end in
  let log2 := check_alloc_target alloc_target in
  let (classes, log3) := read_plan plan_read in
  let log4 := check_structure classes in
  let log5 := check_unknown alloc_target classes in
  let log6 := check_missing alloc_target classes in
  let class_sums := class_sums_of classes in
  let log7 := check_bands alloc_target bands class_sums in
  let total_weight := pysum (values class_sums) in
  let log8 := check_total total_weight in
  let log9 := check_positions pos_max classes in
  let log :=
    fold_left log_app [log2; log3; log4; log5; log6; log7; log8; log9] log1 in
  mkReport (match log_errors log with [] => OK | _ => FAIL end)
           class_sums total_weight
           (log_warnings log) (log_errors log) (log_notes log).

End Validate.

(* ------------------------------------------------------------------------- *)
(** ** interfaces/broker_adapter/paper.py *)

Module Paper.

Record HistoryEntry : Type := mkHistory {
  event : string;
  nav : Q
  (* ts: the clock *)
}.

(** The portfolio after [setdefault] has filled in what the file lacks. *)
Record Portfolio : Type := mkPortfolio {
  cash_eur : Q;
  positions : dict Q;
  history : list HistoryEntry
}.

(** An entry of the plan's ["orders"] as the engine reads it: either key may
    be absent. *)
Record PlanOrder : Type := mkPlanOrder {
  instrument_id : option string;
  target_weight : option Q
}.

(** An execution record; [order_id] (a fresh uuid) and [timestamp] (the
    clock) are not part of the computation. *)
Record Execution : Type := mkExecution {
  exec_instrument : string;
  avg_fill : Q;
  qty : Q
  (* status = "FILLED", fees = 0.0 *)
}.

(** What a call of [latest_price] gives: a number, [None], or an exception.
    A value that [float] rejects ends in the same [except] branch as an
    exception, and a NaN fails the test [> 0] like [None]. *)
Inductive Quote : Type :=
| Price (p : Q)
| NoPrice
| Raises.

(** The price oracle: the answer of the [n]-th call for a symbol. *)
Definition Oracle : Type := nat -> string -> Quote.

Definition current_nav (port : Portfolio) : Q :=
  cash_eur port + pysum (values (positions port)).

Definition is_crypto (inst : string) : bool :=
  PyStr.mem (PyStr.upper inst) ["BTC"; "ETH"; "SOL"; "ADA"; "DOGE"].

Definition _FALLBACK_PRICE_MAP : dict Q :=
  [ ("BTC", 65000); ("ETH", 3500); ("SOL", 160); ("ADA", 0.42); ("DOGE", 0.15);
    ("VOO", 520); ("QQQ", 470); ("VGK", 70); ("EZU", 55);
    ("AAPL", 230.10); ("MSFT", 415.30); ("NVDA", 122.90); ("GOOGL", 175.10);
    ("AMZN", 190.75);
    ("ASML", 1150); ("LVMH", 730); ("SAP", 200);
    ("IEF", 100); ("TLT", 100); ("SHY", 100); ("IEGA", 100); ("IEAC", 100);
    ("LQD", 100);
    ("VNQ", 90); ("IPRP", 6); ("PLD", 120); ("O", 55); ("SPG", 150) ].

Definition get_exec_price (latest_price : string -> Quote) (inst : string) : Q :=
  let sym := PyStr.upper (PyStr.strip inst) in
  let fallback := dget_or sym _FALLBACK_PRICE_MAP 100 in
  match latest_price sym with
  | Price p => if Qlt_bool 0 p then p else fallback
  | NoPrice => fallback
  | Raises => fallback
  end.

(** One turn of the loop of lines 112-118. *)
Definition target_step (target_w : dict Q) (order : PlanOrder) : dict Q :=
  let inst :=
    PyStr.upper (PyStr.strip
      (match instrument_id order with Some s => s | None => "" end)) in
  if String.eqb inst "" then target_w
  else
    let tw := match target_weight order with Some w => w | None => 0 end in
    dset inst (pymax tw (dget_or inst target_w 0)) target_w.

Definition target_weights (orders : list PlanOrder) : dict Q :=
  fold_left target_step orders [].

(** The lot rule: crypto in fractions of six decimals, the rest in whole
    units. *)
Definition lot_qty (inst : string) (units : Q) : Q :=
  if is_crypto inst then round6 units else floorQ units.

(** The locals the two loops update. *)
Record Engine : Type := mkEngine {
  cash : Q;
  held : dict Q;           (* positions *)
  executions : list Execution;
  calls : nat              (* calls of latest_price so far *)
}.

(** One turn of the loop of lines 122-153. *)
Definition liquidate_step (oracle : Oracle) (target_w : dict Q)
           (st : Engine) (inst : string) : Engine :=
  if dmem inst target_w then st
  else
    let cur_mv := dget_or inst (held st) 0 in
    if Qle_bool cur_mv 0 then st
    else
      let price := get_exec_price (oracle (calls st)) inst in
      let st := mkEngine (cash st) (held st) (executions st) (S (calls st)) in
      if Qle_bool price 0 then st
      else
        let qty := lot_qty inst (cur_mv / price) in
        if Qle_bool qty 0 then st
        else
          let exec_value := qty * price in
          mkEngine (cash st + exec_value)
                   (dset inst (pymax 0 (cur_mv - exec_value)) (held st))
                   (executions st
                    ++ [mkExecution inst (round6 price) (round6 (- qty))])
                   (calls st).

(** Phase 1: the loop runs over a copy of the keys. *)
Definition liquidate (oracle : Oracle) (target_w : dict Q) (st : Engine)
  : Engine :=
  fold_left (liquidate_step oracle target_w) (keys (held st)) st.

(** One turn of the loop of lines 162-228. *)
Definition rebalance_step (oracle : Oracle) (nav : Q)
           (st : Engine) (e : string * Q) : Engine :=
  let (inst, tw) := e in
  let price := get_exec_price (oracle (calls st)) inst in
  let st := mkEngine (cash st) (held st) (executions st) (S (calls st)) in
  if Qle_bool price 0 then st
  else
    let desired_mv := nav * tw in
    let cur_mv := dget_or inst (held st) 0 in
    let delta := desired_mv - cur_mv in
    if Qlt_bool (Qabs delta) (1 # 1000000) then st
    else if Qlt_bool 0 delta then
      let buy_amt := pymin delta (cash st) in
      if Qle_bool buy_amt 0 then st
      else
        let qty := lot_qty inst (buy_amt / price) in
        if negb (is_crypto inst) && Qle_bool qty 0 then st
        else
          let exec_value := qty * price in
          mkEngine (cash st - exec_value)
                   (dset inst (cur_mv + exec_value) (held st))
                   (executions st
                    ++ [mkExecution inst (round6 price) (round6 qty)])
                   (calls st)
    else
      let sell_amt := pymin (- delta) cur_mv in
      if Qle_bool sell_amt 0 then st
      else
        let qty := lot_qty inst (sell_amt / price) in
        if negb (is_crypto inst) && Qle_bool qty 0 then st
        else
          let exec_value := qty * price in
          mkEngine (cash st + exec_value)
                   (dset inst (cur_mv - exec_value) (held st))
                   (executions st
                    ++ [mkExecution inst (round6 price) (round6 (- qty))])
                   (calls st).

(** Phase 2. *)
Definition rebalance (oracle : Oracle) (nav : Q) (target_w : dict Q)
           (st : Engine) : Engine :=
  fold_left (rebalance_step oracle nav) target_w st.

(** Lines 231-232. *)
Definition prune (positions : dict Q) : dict Q :=
  dfilter (fun v => Qlt_bool 0 v)
          (dmap (fun v => if Qlt_bool (Qabs v) (1 # 1000000) then 0 else v)
                positions).

(** [main], for a portfolio file and a plan file that exist: the portfolio it
    saves and the execution records it appends to the log. *)
Definition main (oracle : Oracle) (port : Portfolio) (orders : list PlanOrder)
  : Portfolio * list Execution :=
  let target_w := target_weights orders in
  let st := liquidate oracle target_w
                      (mkEngine (cash_eur port) (positions port) [] 0%nat) in
  let nav :=
    current_nav (mkPortfolio (round6 (cash st)) (held st) (history port)) in
  let st := rebalance oracle nav target_w st in
  let positions := prune (held st) in
  let port' := mkPortfolio (round6 (cash st)) positions (history port) in
  let new_nav := current_nav port' in
  (mkPortfolio (cash_eur port') positions
               (history port ++ [mkHistory "rebalance" (round6 new_nav)]),
   executions st).

End Paper.

(* ------------------------------------------------------------------------- *)
(** ** common/providers/__init__.py *)

Module Providers.

Import Paper.

Definition _CRYPTO : list string := ["BTC"; "ETH"; "SOL"; "ADA"; "DOGE"].

Definition _FALLBACK_PRICE_MAP : dict Q :=
  [ ("VOO", 520); ("QQQ", 470); ("VGK", 70); ("EZU", 55);
    ("AAPL", 230.10); ("MSFT", 415.30); ("NVDA", 122.90); ("GOOGL", 175.10);
    ("AMZN", 190.75);
    ("ASML", 1150); ("LVMH", 730); ("SAP", 200);
    ("IEF", 100); ("TLT", 100); ("SHY", 100); ("IEGA", 100); ("IEAC", 100);
    ("LQD", 100);
    ("VNQ", 90); ("IPRP", 6); ("PLD", 120); ("O", 55); ("SPG", 150) ].

(** The table of [mock_price] (common/utils/providers.py, lines 188-194). *)
Definition mock_base : dict Q :=
  [ ("BTC", 50000); ("ETH", 2500); ("SOL", 150); ("ADA", 0.40); ("DOGE", 0.10) ].

(** [mock_price] (common/utils/providers.py, lines 186-195); [u] is what
    [random.random()] returns, a number of [0, 1). *)
Definition mock_price (u : Q) (symbol : string) : Q :=
  round6 (dget_or (PyStr.upper symbol) mock_base 100 * (0.95 + 0.10 * u)).

(** What [latest_price] gets from outside: the answers of the CoinGecko
    provider, of [cg_simple_prices([sym]).get(sym)] and of the Yahoo provider
    for a symbol, and the random number [mock_price] draws. *)
Record Feeds : Type := mkFeeds {
  cg_get_price : string -> Quote;
  cg_simple_prices : string -> Quote;
  yf_get_price : string -> Quote;
  random : Q
}.

(** The test [p and float(p) > 0] inside [try]: a price is used when it is a
    positive number; [None], zero, a negative number and an exception all
    fall through. *)
Definition usable (q : Quote) : option Q :=
  match q with
  | Price p => if Qlt_bool 0 p then Some p else None
  | NoPrice => None
  | Raises => None
  end.

(** [latest_price] (lines 39-79); [None] is Python's [None]. *)
Definition latest_price (feeds : Feeds) (symbol : string) : option Q :=
  if String.eqb symbol "" then None
  else
    let sym := PyStr.upper (PyStr.strip symbol) in
    if PyStr.mem sym _CRYPTO then
      match usable (cg_get_price feeds sym) with
      | Some p => Some p
      | None =>
          match usable (cg_simple_prices feeds sym) with
          | Some v => Some v
          | None => Some (mock_price (random feeds) sym)
          end
      end
    else
      match usable (yf_get_price feeds sym) with
      | Some p => Some p
      | None => Some (dget_or sym _FALLBACK_PRICE_MAP 100)
      end.

End Providers.

(* ------------------------------------------------------------------------- *)
(** ** common/cache/cache.py *)

Module Cache.

Section FileCache.
Context {V : Type}.

(** An entry of the cache file: [{"exp": ..., "val": ...}]. *)
Record Item : Type := mkItem {
  exp : Q;
  val : V
}.

(** The cache file, as [_load] reads it. *)
Definition Db : Type := dict Item.

(** [del db[key]]. *)
Definition del (key : string) (db : Db) : Db :=
  filter (fun kv => negb (String.eqb key (fst kv))) db.

(** [FileCache.get]; [now] is what [time.time()] returns.  The result is the
    value ([None] for a miss) and the file as the call leaves it: an expired
    entry is deleted. *)
Definition get (now : Q) (key : string) (db : Db) : option V * Db :=
  match dget key db with
  | None => (None, db)
  | Some item =>
      if Qlt_bool (exp item) now then (None, del key db)
      else (Some (val item), db)
  end.

(** [FileCache.set]. *)
Definition set (now : Q) (key : string) (value : V) (ttl : Z) (db : Db) : Db :=
  dset key (mkItem (now + inject_Z ttl) value) db.

End FileCache.

Arguments Item : clear implicits.
Arguments Db : clear implicits.

End Cache.

(* ------------------------------------------------------------------------- *)
(** ** common/providers/coingecko_provider.py *)

Module CoinGecko.

Import Paper.

Definition CG_IDS : dict string :=
  [ ("BTC", "bitcoin"); ("ETH", "ethereum"); ("SOL", "solana");
    ("ADA", "cardano"); ("DOGE", "dogecoin") ].

(** What the request to [/simple/price] gives: status 200 with the ["usd"]
    entry of the coin (or without one), another status, or an exception
    ([requests.get] or [r.json()] raising). *)
Inductive Http : Type :=
| Status200 (usd : option Q)
| StatusOther
| HttpRaises.

(** [CoinGeckoProvider.get_price] (lines 11-26).  [now] is the clock when the
    cache is read, [later] the clock when the fetched price is stored, [ttl]
    is [SETTINGS.ttl_price]. *)
Definition get_price (ttl : Z) (now later : Q) (http : Http) (symbol : string)
           (db : Cache.Db Q) : Quote * Cache.Db Q :=
  match dget (PyStr.upper symbol) CG_IDS with
  | None => (NoPrice, db)
  | Some sid =>
      let key := "cg:price:" ++ sid in
      match Cache.get now key db with
      | (Some v, db) => (Price v, db)
      | (None, db) =>
          match http with
          | Status200 (Some p) => (Price p, Cache.set later key p ttl db)
          | Status200 None => (NoPrice, db)
          | StatusOther => (NoPrice, db)
          | HttpRaises => (Raises, db)
          end
      end
  end.

End CoinGecko.

(* ------------------------------------------------------------------------- *)
(** ** agents/*/agent.py: the signals the Orchestrator reads *)

Module Agents.

Inductive Side : Type := BUY | HOLD.

(** A published signal; [rationale], [ttl_days], [collected_at] and the
    crypto agent's [price] are text and bookkeeping. *)
Record AgentSignal : Type := mkAgentSignal {
  instrument_id : string;
  side : Side;
  confidence : Q
}.

(** [round(x, 3)]. *)
Definition round3 (x : Q) : Q :=
  inject_Z (round_half_even (x * 1000)) / 1000.

(** The first and the last close of a price history that has a [Close]
    column: [None] when the column holds no number. *)
Record Closes : Type := mkCloses {
  first_close : option Q;
  last_close : option Q
}.

(** *** agents/equities/agent.py *)
Module Equities.

Definition TICKERS : list string :=
  ["VOO"; "QQQ"; "VGK"; "EZU";
   "AAPL"; "MSFT"; "NVDA"; "GOOGL"; "AMZN";
   "ASML"; "LVMH"; "SAP"].

Definition ETF_SET : list string := ["VOO"; "QQQ"; "VGK"; "EZU"].
Definition ETF_BOOST : Q := 0.06.

Definition _clamp (x lo hi : Q) : Q := pymax lo (pymin hi x).

Definition _val (x : option Q) : Q :=
  match x with None => 0 | Some v => v end.

Definition _cap (x : option Q) (lo hi : Q) : Q :=
  match x with
  | None => 0
  | Some v => pymax lo (pymin hi v)
  end.

(** The fields [score_equity] reads from [fundamentals(ticker) or {}]. *)
Record Fundamentals : Type := mkFundamentals {
  pe : option Q;
  roe : option Q;
  profit_margin : option Q;
  operating_margin : option Q;
  rev_growth : option Q;
  eps_growth : option Q;
  debt_ebitda : option Q
}.

(** Lines 124-129. *)
Definition momentum_12m (h : Closes) : Q :=
  match last_close h, first_close h with
  | Some p_last, Some p_first =>
      if Qle_bool p_first 0 then 0 else p_last / p_first - 1
  | _, _ => 0
  end.

(** Lines 141-155 and 174. *)
Definition positives (h : Closes) (f : Fundamentals) : Q :=
  let mom_cap := _cap (Some (momentum_12m h)) (-0.30) 0.60 * 1.00 in
  let roe_term := 0.5 * pymin (_val (roe f)) 0.50 in
  let opm_term := 0.3 * pymin (_val (operating_margin f)) 0.40 in
  let pm_term := 0.2 * pymin (_val (profit_margin f)) 0.40 in
  let revg_term := 0.4 * _cap (rev_growth f) (-0.20) 0.50 in
  let epsg_term := 0.4 * _cap (eps_growth f) (-0.20) 0.50 in
  mom_cap + roe_term + opm_term + pm_term + revg_term + epsg_term.

(** Lines 157-171 and 175. *)
Definition penalties (f : Fundamentals) : Q :=
  let pe_penalty :=
    match pe f with
    | Some p => if Qlt_bool 0 p then 0.20 * (p / 25) else 0
    | None => 0
    end in
  let debt_penalty :=
    match debt_ebitda f with
    | Some d =>
        if Qlt_bool 2 d then 0.25 * pymax 0 (pymin 1 ((d - 2) / 4)) else 0
    | None => 0
    end in
  pe_penalty + debt_penalty.

(** [score_equity]; [hist] is [None] for a history that is missing, empty or
    without a [Close] column. *)
Definition score_equity (ticker : string) (hist : option Closes)
           (f : Fundamentals) : AgentSignal :=
  match hist with
  | None => mkAgentSignal ticker HOLD 0.50
  | Some h =>
      let raw := positives h f - penalties f in
      let score := _clamp (0.5 + raw) 0 1 in
      let score :=
        if PyStr.mem ticker ETF_SET then _clamp (score + ETF_BOOST) 0 1
        else score in
      mkAgentSignal ticker
                    (if Qlt_bool 0.55 score then BUY else HOLD)
                    (round3 score)
  end.

Definition main (hist : string -> option Closes)
           (fundamentals : string -> Fundamentals) : list AgentSignal :=
  map (fun t => score_equity t (hist t) (fundamentals t)) TICKERS.

End Equities.

(** *** agents/fixed_income/agent.py *)
Module FixedIncome.

Definition BOND_ETFS : list string :=
  ["IEF"; "TLT"; "SHY"; "LQD"; "IEAC"; "IEGA"].

Definition DUR : dict Q :=
  [ ("IEF", 7.5); ("TLT", 18); ("SHY", 2); ("LQD", 8.5); ("IEAC", 6);
    ("IEGA", 7) ].

Definition TARGET_DUR : Q := 6.

Definition clamp (x lo hi : Q) : Q := pymax lo (pymin hi x).

(** [fred_yield_pct] and [fred_spread_pct]: the last value of the series,
    a percentage, as a fraction; [None] when the series gives no value. *)
Definition fred_yield_pct (fred_last : option Q) : option Q :=
  match fred_last with
  | None => None
  | Some v => Some (v / 100)
  end.

Definition fred_spread_pct (fred_last : option Q) : option Q :=
  match fred_last with
  | None => None
  | Some v => Some (v / 100)
  end.

(** [etf_yield_proxy_12m]; [hist] is [None] for a history that is missing or
    empty. *)
Definition etf_yield_proxy_12m (hist : option Closes) : Q :=
  match hist with
  | None => 0.03
  | Some h =>
      match first_close h, last_close h with
      | Some p0, Some p1 =>
          if Qle_bool p0 0 then 0.03
          else
            let ret_12m := p1 / p0 - 1 in
            pymax 0 (pymin 0.08 (0.03 + ret_12m / 3))
      | _, _ => 0.03
      end
  end.

(** Lines 158-168. *)
Definition approx_yield (dgs10 hy_oas : option Q) (hist : option Closes) : Q :=
  let y_rf := match fred_yield_pct dgs10 with Some y => y | None => 0.04 end in
  let hy_oas :=
    match fred_spread_pct hy_oas with Some y => y | None => 0.02 end in
  let y_etf := etf_yield_proxy_12m hist in
  y_etf + 0.5 * y_rf - 0.3 * hy_oas.

(** Lines 170-172. *)
Definition dur_pen (ticker : string) : Q :=
  let dur := dget_or ticker DUR TARGET_DUR in
  0.015 * (dur - TARGET_DUR) ^ 2.

(** [score_bond_etf]; [dgs10] and [hy_oas] are the last values of the two
    FRED series. *)
Definition score_bond_etf (ticker : string) (dgs10 hy_oas : option Q)
           (hist : option Closes) : AgentSignal :=
  let base := 4 * (approx_yield dgs10 hy_oas hist - 0.03) in
  let raw := base - dur_pen ticker in
  let s := clamp (0.5 + raw) 0 1 in
  mkAgentSignal ticker (if Qle_bool 0.55 s then BUY else HOLD) (round3 s).

Definition main (dgs10 hy_oas : option Q) (hist : string -> option Closes)
  : list AgentSignal :=
  map (fun t => score_bond_etf t dgs10 hy_oas (hist t)) BOND_ETFS.

End FixedIncome.

(** *** agents/crypto/agent.py *)
Module Crypto.

Definition SYMS : list string := ["BTC"; "ETH"; "SOL"; "ADA"; "DOGE"].

(** [series[-window:]], for a series of at least [window] values. *)
Definition tail_of (window : nat) (series : list Q) : list Q :=
  skipn (List.length series - window) series.

Definition mean (series : list Q) : Q :=
  pysum series / inject_Z (Z.of_nat (List.length series)).

Definition _sma (series : list Q) (window : nat) : option Q :=
  if (List.length series <? window)%nat then None
  else Some (mean (tail_of window series)).

(** [_atr_percent] with its window of 14; [mad] is the mean absolute daily
    return of the last 14 days as pandas computes it, [None] when there is
    no daily return. *)
Definition _atr_percent (px : list Q) (mad : option Q) : option Q :=
  if (List.length px <? 14 + 1)%nat then None
  else
    match mad with
    | None => None
    | Some m => Some (m * 1.253)
    end.

(** [a or b] for an optional number: [None] and zero are false. *)
Definition or_else (a : option Q) (b : Q) : Q :=
  match a with
  | Some v => if Qeq_bool v 0 then b else v
  | None => b
  end.

(** [_signal_for_symbol], from the price series [px] on (the history after
    [dropna], the mock history when CoinGecko gave none).  [None] is the
    [TypeError] that formatting the rationale raises when there is no
    ATR. *)
Definition _signal_for_symbol (s : string) (px : list Q) (mad : option Q)
  : option AgentSignal :=
  match px with
  | [] => Some (mkAgentSignal s HOLD 0.3)
  | _ =>
      let ma50 := or_else (_sma px 50) (last px 0) in
      let ma200 := or_else (_sma px 200) (mean px) in
      let price_now := last px 0 in
      let up_trend := Qlt_bool ma50 price_now && Qlt_bool ma200 ma50 in
      let atrp := _atr_percent px mad in
      let vol_penalty :=
        match atrp with
        | Some a =>
            if Qlt_bool 0.08 a then 0.15
            else if Qlt_bool 0.05 a then 0.07 else 0
        | None => 0
        end in
      let side := if up_trend then BUY else HOLD in
      let conf := if up_trend then 0.7 else 0.4 in
      let conf := pymax 0 (pymin 1 (conf - vol_penalty)) in
      match atrp with
      | None => None
      | Some _ => Some (mkAgentSignal s side (round3 conf))
      end
  end.

(** [main]: one signal per symbol; an exception for one symbol ends the run
    before anything is published. *)
Fixpoint signals_for (px : string -> list Q) (mad : string -> option Q)
         (syms : list string) : option (list AgentSignal) :=
  match syms with
  | [] => Some []
  | s :: rest =>
      match _signal_for_symbol s (px s) (mad s) with
      | None => None
      | Some sig =>
          match signals_for px mad rest with
          | None => None
          | Some sigs => Some (sig :: sigs)
          end
      end
  end.

Definition main (px : string -> list Q) (mad : string -> option Q)
  : option (list AgentSignal) :=
  signals_for px mad SYMS.

End Crypto.

End Agents.

(* ------------------------------------------------------------------------- *)
(** ** Concrete policies, signals, plans and portfolios *)

Module Scenarios.

Import Orchestrator.

(** Policy {equities: 0.6, crypto: 0.4}, band 0.05, cap 0.35. *)
Definition policy_60_40 : Strategy :=
  mkStrategy (Some [("equities", 0.6); ("crypto", 0.4)]) (Some 0.05) (Some 0.35).

(** Policy {equities: 0.4, crypto: 0.6}, band 0.05, cap 0.35. *)
Definition policy_40_60 : Strategy :=
  mkStrategy (Some [("equities", 0.4); ("crypto", 0.6)]) (Some 0.05) (Some 0.35).

(** Policy {crypto: 1.0}: no entry for equities. *)
Definition policy_crypto_only : Strategy :=
  mkStrategy (Some [("crypto", 1)]) (Some 0.05) (Some 0.35).

(** Policy {equities: 0.6, crypto: 0.3}: the targets sum to 0.9; band 0.1 and
    no position cap in the file. *)
Definition policy_sum_090 : Strategy :=
  mkStrategy (Some [("equities", 0.6); ("crypto", 0.3)]) (Some 0.1) None.

Definition signals_aapl : list Signal := [mkSignal "AAPL" (Some 0.8)].

Definition signals_three_equities : list Signal :=
  [mkSignal "AAPL" (Some 0.8); mkSignal "MSFT" (Some 0.1);
   mkSignal "NVDA" (Some 0.1)].

Definition signals_aapl_btc : list Signal :=
  [mkSignal "AAPL" (Some 0.8); mkSignal "BTC" (Some 0.6)].

Definition signals_six_equities : list Signal :=
  map (fun i => mkSignal i (Some 0.5))
      ["AAPL"; "MSFT"; "NVDA"; "GOOGL"; "AMZN"; "ASML"].

(** The plan {equities: {AAPL: 0.6}, crypto: {BTC: 0.4}}. *)
Definition classes_60_40 : dict (dict Q) :=
  [("equities", [("AAPL", 0.6)]); ("crypto", [("BTC", 0.4)])].

(** The plan file after [build_plan policy_60_40 signals_aapl]. *)
Definition plan_aapl_060 : Plan :=
  mkPlan [("equities", [("AAPL", 0.600000)])]
         [mkOrder "AAPL" INCREASE 0.600000].

(** The plan file after [build_plan policy_crypto_only signals_aapl]. *)
Definition plan_aapl_zero : Plan :=
  mkPlan [("equities", [("AAPL", 0.000000)])]
         [mkOrder "AAPL" HOLD 0.000000].

(** An oracle that always raises: prices come from the fallback table. *)
Definition oracle_down : Paper.Oracle := fun _ _ => Paper.Raises.

(** An oracle that quotes AAPL at 100 and knows nothing else. *)
Definition oracle_aapl_100 : Paper.Oracle :=
  fun _ sym => if String.eqb sym "AAPL" then Paper.Price 100 else Paper.NoPrice.

Definition portfolio_cash_1000 : Paper.Portfolio :=
  Paper.mkPortfolio 1000 [] [].

Definition portfolio_aapl_500 : Paper.Portfolio :=
  Paper.mkPortfolio 0 [("AAPL", 500)] [].

Definition orders_all_aapl : list Paper.PlanOrder :=
  [Paper.mkPlanOrder (Some "AAPL") (Some 1)].

Definition orders_all_btc : list Paper.PlanOrder :=
  [Paper.mkPlanOrder (Some "BTC") (Some 1)].

(** The plan file after [build_plan policy_60_40 signals_aapl_btc]. *)
Definition plan_aapl_btc : Plan :=
  mkPlan [("equities", [("AAPL", 0.600000)]); ("crypto", [("BTC", 0.400000)])]
         [mkOrder "AAPL" INCREASE 0.600000; mkOrder "BTC" INCREASE 0.400000].

(** One signal of the crypto agent outside BTC and ETH. *)
Definition signals_sol : list Signal := [mkSignal "SOL" (Some 0.4)].

(** The plan file after [build_plan policy_60_40 signals_sol]. *)
Definition plan_sol_060 : Plan :=
  mkPlan [("equities", [("SOL", 0.600000)])]
         [mkOrder "SOL" INCREASE 0.600000].

(** The policy of [policy_60_40] written another way: the classes in another
    order, a class with target 0.0 added, no band. *)
Definition policy_60_40_reordered : Strategy :=
  mkStrategy (Some [("crypto", 0.4); ("reits", 0); ("equities", 0.6)])
             None (Some 0.35).

End Scenarios.

(* ------------------------------------------------------------------------- *)
(** ** Vocabulary of the statements *)

Module Terms.

Import Orchestrator.

(** Every stored confidence is non-negative. *)
Definition nonneg_dict (insts : dict Q) : Prop := Forall (Qle 0) (values insts).

(** A class is planned when it has instruments and a positive confidence
    sum; the planning loop skips the others. *)
Definition plannable (insts : dict Q) : Prop :=
  insts <> [] /\ 0 < pysum (values insts).

(** Where an entry of the plan's classes comes from. *)
Definition planned (target_alloc : dict Q) (pos_max : Q)
           (by_class : dict (dict Q)) (e : string * dict Q) : Prop :=
  exists insts,
    In (fst e, insts) by_class /\ plannable insts
    /\ snd e = class_plan_of target_alloc pos_max (fst e) insts.

(** One order per instrument, class after class. *)
Definition orders_of_classes (classes : dict (dict Q)) : list Order :=
  flat_map (fun e => map order_of (snd e)) classes.

(** The confidence the grouping loop holds for an instrument: it sits in the
    dictionary of the instrument's class. *)
Definition stored_confidence (by_class : dict (dict Q)) (inst : string)
  : option Q :=
  match dget (infer_class inst) by_class with
  | Some insts => dget inst insts
  | None => None
  end.

(** The same confidence read off the signals alone: the running maximum,
    from 0.0, over the signals of the instrument. *)
Definition max_confidence (inst : string) (signals : list Signal) : option Q :=
  fold_left
    (fun acc s =>
       if String.eqb (instrument_id s) inst
       then Some (pymax (match confidence s with Some c => c | None => 0.5 end)
                        (match acc with Some c => c | None => 0 end))
       else acc)
    signals None.

(** The validator's messages of the policy-sum check (lines 50-58). *)
Definition from_policy_check (m : Validate.Message) : bool :=
  match m with
  | Validate.AllocTargetMissing
  | Validate.AllocSumNotPositive
  | Validate.AllocSumNotOne _ => true
  | _ => false
  end.

(** What phase 1 leaves of an off-plan holding worth [mv] sold at [price]
    (lines 133-143): the whole of it when the quantity comes to zero. *)
Definition lot_remainder (inst : string) (mv price : Q) : Q :=
  let qty := Paper.lot_qty inst (mv / price) in
  if Qle_bool qty 0 then mv else pymax 0 (mv - qty * price).

(** What [strip] does after [lstrip]: strip the end of the list of
    characters. *)
Definition rstrip (l : list ascii) : list ascii :=
  rev (PyStr.lstrip (rev l)).

(** An instrument id as the engine reads it: [str(...).strip().upper()]. *)
Definition normalise (s : string) : string := PyStr.upper (PyStr.strip s).

(** The key and the weight the engine reads from an order of the plan. *)
Definition order_key (o : Paper.PlanOrder) : string :=
  normalise (match Paper.instrument_id o with Some s => s | None => "" end).

Definition order_weight (o : Paper.PlanOrder) : Q :=
  match Paper.target_weight o with Some w => w | None => 0 end.

(** An entry of the grouped signals or of a plan's classes holds distinct
    instruments, all of the entry's class. *)
Definition class_tagged (e : string * dict Q) : Prop :=
  wf (snd e) /\ forall i, In i (keys (snd e)) -> infer_class i = fst e.

(** The plan file as the engine reads its orders. *)
Definition plan_file_orders (plan : Plan) : list Paper.PlanOrder :=
  map (fun o => Paper.mkPlanOrder (Some (order_instrument o))
                                  (Some (target_weight o)))
      (orders plan).

(** The value the engine holds at a point of a cycle: the cash (not rounded)
    plus the market values of the positions. *)
Definition engine_nav (st : Paper.Engine) : Q :=
  Paper.cash st + pysum (values (Paper.held st)).

(** The validator's position-limit errors, and the weight such an error
    reports. *)
Definition is_position_error (m : Validate.Message) : bool :=
  match m with Validate.PositionAboveLimit _ _ _ _ => true | _ => false end.

Definition position_error (pos_max : Q) (v : string * string * Q)
  : Validate.Message :=
  Validate.PositionAboveLimit (fst (fst v)) (snd (fst v)) (snd v) pos_max.

(** Heavier first. *)
Definition heavier_first (x y : string * string * Q) : Prop := snd y <= snd x.

(** Alphabetical order, as [sorted] puts strings. *)
Definition string_le (a b : string) : Prop := String.leb a b = true.

(** The engine's price source when it is [latest_price] of the providers
    package. *)
Definition provider_quote (feeds : Providers.Feeds) (sym : string)
  : Paper.Quote :=
  match Providers.latest_price feeds sym with
  | Some p => Paper.Price p
  | None => Paper.NoPrice
  end.

(** All feeds down. *)
Definition feeds_down (u : Q) : Providers.Feeds :=
  Providers.mkFeeds (fun _ => Paper.Raises) (fun _ => Paper.Raises)
                    (fun _ => Paper.Raises) u.

(** A published signal as the Orchestrator reads it: the instrument and the
    confidence; the side is not read. *)
Definition to_signal (a : Agents.AgentSignal) : Signal :=
  mkSignal (Agents.instrument_id a) (Some (Agents.confidence a)).

(** The raw score an equity needs to exceed for a BUY. *)
Definition equity_buy_threshold (ticker : string) : Q :=
  if PyStr.mem ticker Agents.Equities.ETF_SET then -0.01 else 0.05.

(** A margin kept between a quantity and a tolerance of the validator.  The
    code computes in doubles: it rounds the double product of a class weight
    and a share, and compares against the doubles [(target - bands) - 1e-6]
    and the like, while the rationals here are exact.  The two can part only
    in the last digits of a double, far below this margin, so a statement
    that stays this far from every edge holds of both. *)
Definition MARGIN : Q := 1 # 1000000000.

(** The validator's conditions on a policy and the classes of a plan, every
    tolerance widened by [tol] (narrowed when [tol] is negative): class
    targets with a sum above [- tol], a plan with a class, every policy class
    within [bands + 1e-6 + tol] of its target (at 0.0 when the plan lacks
    it), a total within [1e-3 + tol] of 1, no weight above
    [position_max_pct + 1e-9 + tol]. *)
Definition within_tolerances (tol : Q) (strategy : Strategy)
           (classes : dict (dict Q)) : Prop :=
  let targets := target_alloc_of strategy in
  let bands := match rebalance_bands strategy with Some b => b | None => 0 end in
  let pos_max := match position_max_pct strategy with Some p => p | None => 1 end in
  let sums := Validate.class_sums_of classes in
  targets <> []
  /\ - tol < pysum (values targets)
  /\ classes <> []
  /\ (forall cls target,
        In (cls, target) targets ->
        target - bands - (Validate.EPS6 + tol) <= dget_or cls sums 0
        /\ dget_or cls sums 0 <= target + bands + (Validate.EPS6 + tol))
  /\ Qabs (pysum (values sums) - 1) <= (1 # 1000) + tol
  /\ (forall cls items inst w,
        In (cls, items) classes -> In (inst, w) items ->
        w <= pos_max + (1 # 1000000000) + tol).

End Terms.
Export Terms.

(* ------------------------------------------------------------------------- *)
(** ** run_all.py *)

Module RunAll.

Import Orchestrator.

(** The files of a run. *)
Record World : Type := mkWorld {
  strategy : option Strategy;                (* config/strategy.yaml *)
  signals_equities : option (list Signal);   (* out/signals_equities.json *)
  signals_crypto : option (list Signal);
  signals_fixed_income : option (list Signal);
  signals_reits : option (list Signal);
  plan : option Plan;                        (* out/orchestrator_plan.json *)
  portfolio : option Paper.Portfolio;        (* out/portfolio.json *)
  exec_log : list Paper.Execution;           (* out/executions.log *)
  validation : option Validate.Report;       (* out/validation.json *)
  report : bool                              (* out/report.html is of this run *)
}.

(** What the outside decides in a run: the signals each agent publishes
    ([None] when its process fails), the prices the engine gets, and whether
    the report renders. *)
Record Run : Type := mkRun {
  equities : option (list Signal);
  crypto : option (list Signal);
  fixed_income : option (list Signal);
  reits : option (list Signal);
  oracle : Paper.Oracle;
  report_ok : bool
}.

(** A stage: the files it leaves, and whether its process exits with 0. *)
Definition Stage : Type := World -> World * bool.

(** [run] and [run_script] one after the other: with [check=True] the first
    stage that fails raises and ends the run. *)
Fixpoint run_stages (stages : list Stage) (w : World) : World * bool :=
  match stages with
  | [] => (w, true)
  | stage :: rest =>
      let (w', ok) := stage w in
      if ok then run_stages rest w' else (w', false)
  end.

Definition publish_equities (sigs : list Signal) (w : World) : World :=
  mkWorld (strategy w) (Some sigs) (signals_crypto w) (signals_fixed_income w)
          (signals_reits w) (plan w) (portfolio w) (exec_log w) (validation w)
          (report w).

Definition publish_crypto (sigs : list Signal) (w : World) : World :=
  mkWorld (strategy w) (signals_equities w) (Some sigs) (signals_fixed_income w)
          (signals_reits w) (plan w) (portfolio w) (exec_log w) (validation w)
          (report w).

Definition publish_fixed_income (sigs : list Signal) (w : World) : World :=
  mkWorld (strategy w) (signals_equities w) (signals_crypto w) (Some sigs)
          (signals_reits w) (plan w) (portfolio w) (exec_log w) (validation w)
          (report w).

Definition publish_reits (sigs : list Signal) (w : World) : World :=
  mkWorld (strategy w) (signals_equities w) (signals_crypto w)
          (signals_fixed_income w) (Some sigs) (plan w) (portfolio w)
          (exec_log w) (validation w) (report w).

(** An agent: it publishes its signals, or fails before it does. *)
Definition agent (published : option (list Signal))
           (publish : list Signal -> World -> World) : Stage :=
  fun w =>
    match published with
    | Some sigs => (publish sigs w, true)
    | None => (w, false)
    end.

(** [orchestrator.main]. *)
Definition orchestrator : Stage :=
  fun w =>
    match Orchestrator.main
            (mkFiles (strategy w)
                     [signals_equities w; signals_crypto w;
                      signals_fixed_income w; signals_reits w]
                     (plan w)) with
    | Some fs =>
        (mkWorld (strategy w) (signals_equities w) (signals_crypto w)
                 (signals_fixed_income w) (signals_reits w) (plan_file fs)
                 (portfolio w) (exec_log w) (validation w) (report w),
         true)
    | None => (w, false)
    end.

(** [interfaces.broker_adapter.paper]: without a portfolio file or a plan
    file it prints a message and returns. *)
Definition paper (oracle : Paper.Oracle) : Stage :=
  fun w =>
    match portfolio w, plan w with
    | Some port, Some p =>
        let (port', execs) := Paper.main oracle port (plan_file_orders p) in
        (mkWorld (strategy w) (signals_equities w) (signals_crypto w)
                 (signals_fixed_income w) (signals_reits w) (plan w)
                 (Some port') (exec_log w ++ execs) (validation w) (report w),
         true)
    | _, _ => (w, true)
    end.

(** [run_validate.py]: the exit code is 0 for OK and 1 for FAIL. *)
Definition validate : Stage :=
  fun w =>
    let plan_read :=
      match plan w with
      | Some p => Validate.PlanLoaded (Some (classes p))
      | None => Validate.PlanAbsent
      end in
    let rep := Validate.main (strategy w) plan_read in
    (mkWorld (strategy w) (signals_equities w) (signals_crypto w)
             (signals_fixed_income w) (signals_reits w) (plan w)
             (portfolio w) (exec_log w) (Some rep) (report w),
     match Validate.status rep with
     | Validate.OK => true
     | Validate.FAIL => false
     end).

(** [interfaces.reporting.report_html]. *)
Definition reporting (report_ok : bool) : Stage :=
  fun w =>
    if report_ok
    then (mkWorld (strategy w) (signals_equities w) (signals_crypto w)
                  (signals_fixed_income w) (signals_reits w) (plan w)
                  (portfolio w) (exec_log w) (validation w) true,
          true)
    else (w, false).

(** [main]: the files the run leaves, and whether it reached the end. *)
Definition main (r : Run) (w : World) : World * bool :=
  run_stages
    [ agent (equities r) publish_equities;
      agent (crypto r) publish_crypto;
      agent (fixed_income r) publish_fixed_income;
      agent (reits r) publish_reits;
      orchestrator;
      paper (oracle r);
      validate;
      reporting (report_ok r) ]
    w.

End RunAll.

(* ------------------------------------------------------------------------- *)
(** ** Facts about the numeric primitives *)

Section NumFacts.

Lemma pymax_cases (a b : Q) :
  (b <= a /\ pymax a b = a) \/ (a < b /\ pymax a b = b).
Proof.
  unfold pymax. destruct (Qle_bool b a) eqn:E.
  - left. split; [now apply Qle_bool_iff | reflexivity].
  - right. split; [| reflexivity].
    apply Qnot_le_lt. intro H. apply Qle_bool_iff in H. congruence.
Qed.

Lemma pymin_cases (a b : Q) :
  (a <= b /\ pymin a b = a) \/ (b < a /\ pymin a b = b).
Proof.
  unfold pymin. destruct (Qle_bool a b) eqn:E.
  - left. split; [now apply Qle_bool_iff | reflexivity].
  - right. split; [| reflexivity].
    apply Qnot_le_lt. intro H. apply Qle_bool_iff in H. congruence.
Qed.

Lemma Qlt_bool_iff (a b : Q) : Qlt_bool a b = true <-> a < b.
Proof.
  unfold Qlt_bool. rewrite negb_true_iff. split; intro H.
  - apply Qnot_le_lt. intro L. apply Qle_bool_iff in L. congruence.
  - destruct (Qle_bool b a) eqn:E; [| reflexivity].
    apply Qle_bool_iff in E. lra.
Qed.

Lemma fold_plus_acc (xs : list Q) (a : Q) :
  fold_left Qplus xs a == a + fold_left Qplus xs 0.
Proof.
  revert a. induction xs as [| x xs IH]; intro a; simpl.
  - lra.
  - rewrite (IH (a + x)), (IH (0 + x)). lra.
Qed.

Lemma pysum_cons (x : Q) (xs : list Q) : pysum (x :: xs) == x + pysum xs.
Proof. unfold pysum. simpl. rewrite fold_plus_acc. lra. Qed.

Lemma pysum_nil : pysum [] = 0.
Proof. reflexivity. Qed.

Lemma round_half_even_near (q : Q) :
  Qabs (inject_Z (round_half_even q) - q) <= 1 # 2.
Proof.
  unfold round_half_even.
  pose proof (Qfloor_le q) as Hlo. pose proof (Qlt_floor q) as Hhi.
  rewrite inject_Z_plus in Hhi. change (inject_Z 1) with 1 in Hhi.
  apply Qabs_Qle_condition.
  destruct (Qcompare_spec (q - inject_Z (Qfloor q)) (1 # 2)) as [E | L | G].
  - destruct (Z.even (Qfloor q));
      rewrite ?inject_Z_plus; change (inject_Z 1) with 1; lra.
  - lra.
  - rewrite inject_Z_plus. change (inject_Z 1) with 1. lra.
Qed.

(** [round(x, 6)] moves its argument by at most half a unit of the sixth
    decimal. *)
Lemma round6_near (x : Q) : Qabs (round6 x - x) <= 1 # 2000000.
Proof.
  unfold round6.
  pose proof (round_half_even_near (x * 1000000)) as H.
  apply Qabs_Qle_condition in H. apply Qabs_Qle_condition.
  set (r := inject_Z (round_half_even (x * 1000000))) in *.
  assert (E : r / 1000000 == r * (1 # 1000000)) by (field).
  rewrite E. lra.
Qed.

#[global] Instance round_half_even_comp : Proper (Qeq ==> eq) round_half_even.
Proof.
  intros x y E. unfold round_half_even.
  rewrite (Qfloor_comp _ _ E).
  assert (C : Qcompare (x - inject_Z (Qfloor y)) (1 # 2)
              = Qcompare (y - inject_Z (Qfloor y)) (1 # 2)).
  { apply Qcompare_comp; [rewrite E |]; reflexivity. }
  rewrite C. reflexivity.
Qed.

#[global] Instance round6_comp : Proper (Qeq ==> Qeq) round6.
Proof.
  intros x y E. unfold round6.
  assert (H : round_half_even (x * 1000000) = round_half_even (y * 1000000)).
  { apply round_half_even_comp. rewrite E. reflexivity. }
  rewrite H. reflexivity.
Qed.

Lemma round6_zero (x : Q) : x == 0 -> round6 x == 0.
Proof. intro E. rewrite E. reflexivity. Qed.

(** Rounding a non-negative number never yields a negative one. *)
Lemma round6_nonneg (x : Q) : 0 <= x -> 0 <= round6 x.
Proof.
  intro H. unfold round6.
  assert (F : (0 <= Qfloor (x * 1000000))%Z).
  { assert (M : 0 <= x * 1000000) by lra.
    apply Qfloor_resp_le in M. exact M. }
  assert (R : (0 <= round_half_even (x * 1000000))%Z).
  { unfold round_half_even.
    destruct (Qcompare _ _); [destruct (Z.even _) | |]; lia. }
  apply Qle_shift_div_l; [reflexivity |].
  rewrite Qmult_0_l. rewrite Zle_Qle in R. exact R.
Qed.

Lemma floorQ_le (x : Q) : floorQ x <= x.
Proof. apply Qfloor_le. Qed.

Lemma floorQ_gt (x : Q) : x < floorQ x + 1.
Proof.
  unfold floorQ. pose proof (Qlt_floor x) as H.
  rewrite inject_Z_plus in H. exact H.
Qed.

End NumFacts.

(* ------------------------------------------------------------------------- *)
(** ** Facts about dictionaries *)

Section DictFacts.
Context {V : Type}.
Implicit Types (d : dict V) (k : string) (v : V).

Lemma dget_In k v d : dget k d = Some v -> In (k, v) d.
Proof.
  induction d as [| [k' v'] t IH]; simpl; [discriminate |].
  destruct (String.eqb_spec k k') as [-> | N]; intro H.
  - injection H as ->. now left.
  - right. now apply IH.
Qed.

Lemma dget_None_keys k d : dget k d = None <-> ~ In k (keys d).
Proof.
  induction d as [| [k' v'] t IH]; simpl; [tauto |].
  destruct (String.eqb_spec k k') as [-> | N].
  - split; [discriminate | intro H; exfalso; apply H; now left].
  - rewrite IH. split; intros H; [intros [E | I]; auto | tauto].
Qed.

Lemma In_wf_dget k v d : wf d -> In (k, v) d -> dget k d = Some v.
Proof.
  unfold wf. induction d as [| [k' v'] t IH]; simpl; [tauto |].
  intros ND [E | I].
  - injection E as -> ->. now rewrite String.eqb_refl.
  - inversion ND as [| ? ? NI ND']; subst.
    destruct (String.eqb_spec k k') as [-> | N]; [| now apply IH].
    exfalso. apply NI. change (In (fst (k', v)) (map fst t)).
    now apply in_map.
Qed.

Lemma dget_dset_same k v d : dget k (dset k v d) = Some v.
Proof.
  induction d as [| [k' v'] t IH]; simpl.
  - now rewrite String.eqb_refl.
  - destruct (String.eqb_spec k k') as [-> | N]; simpl.
    + now rewrite String.eqb_refl.
    + destruct (String.eqb_spec k k'); [contradiction | exact IH].
Qed.

Lemma dget_dset_other k k' v d :
  k <> k' -> dget k (dset k' v d) = dget k d.
Proof.
  intro N. induction d as [| [k2 v2] t IH]; simpl.
  - destruct (String.eqb_spec k k'); [contradiction | reflexivity].
  - destruct (String.eqb_spec k' k2) as [-> | N2]; simpl.
    + destruct (String.eqb_spec k k2); [contradiction | reflexivity].
    + destruct (String.eqb_spec k k2); [reflexivity | exact IH].
Qed.

Lemma In_dset k v d kv : In kv (dset k v d) -> kv = (k, v) \/ In kv d.
Proof.
  induction d as [| [k' v'] t IH]; simpl.
  - intros [E | []]. now left.
  - destruct (String.eqb_spec k k') as [-> | N]; simpl.
    + intros [E | I]; auto.
    + intros [E | I]; auto. destruct (IH I); auto.
Qed.

Lemma keys_dset_In k v d : forall x, In x (keys (dset k v d)) <-> x = k \/ In x (keys d).
Proof.
  intro x. induction d as [| [k' v'] t IH]; simpl.
  - intuition.
  - destruct (String.eqb_spec k k') as [-> | N]; simpl.
    + intuition.
    + rewrite IH. intuition.
Qed.

Lemma wf_dset k v d : wf d -> wf (dset k v d).
Proof.
  unfold wf. induction d as [| [k' v'] t IH]; simpl; intro ND.
  - constructor; [intros [] | constructor].
  - inversion ND as [| ? ? NI ND']; subst.
    destruct (String.eqb_spec k k') as [-> | N]; simpl.
    + now constructor.
    + constructor; [| now apply IH].
      intro I. apply keys_dset_In in I. destruct I as [E | I]; auto.
Qed.

Lemma dset_new k v d : ~ In k (keys d) -> dset k v d = (d ++ [(k, v)])%list.
Proof.
  induction d as [| [k' v'] t IH]; simpl; intro N; [reflexivity |].
  destruct (String.eqb_spec k k') as [-> | _]; [exfalso; apply N; now left |].
  rewrite IH by tauto. reflexivity.
Qed.

Lemma wf_setdefault k v d : wf d -> wf (setdefault k v d).
Proof.
  unfold setdefault. destruct (dmem k d); [tauto | apply wf_dset].
Qed.

Lemma dmem_true_iff k d : dmem k d = true <-> In k (keys d).
Proof.
  unfold dmem. destruct (dget k d) eqn:E.
  - split; [intros _ | reflexivity].
    apply dget_In in E. change k with (fst (k, v)). now apply in_map.
  - split; [discriminate |]. intro I. apply dget_None_keys in E. contradiction.
Qed.

Lemma values_dmap {W : Type} (f : V -> W) d :
  values (dmap f d) = map f (values d).
Proof.
  unfold values, dmap. rewrite !map_map. reflexivity.
Qed.

Lemma keys_dmap {W : Type} (f : V -> W) d : keys (dmap f d) = keys d.
Proof.
  unfold keys, dmap. rewrite map_map. reflexivity.
Qed.

Lemma length_dmap {W : Type} (f : V -> W) d :
  List.length (dmap f d) = List.length d.
Proof. apply length_map. Qed.

End DictFacts.

(* ------------------------------------------------------------------------- *)
(** ** Facts about sums of weights *)

Section SumFacts.

Lemma pysum_nonneg (xs : list Q) : Forall (Qle 0) xs -> 0 <= pysum xs.
Proof.
  induction 1 as [| x xs Hx _ IH]; [rewrite pysum_nil; lra |].
  rewrite pysum_cons. lra.
Qed.

Lemma pysum_scale (a : Q) (xs : list Q) :
  pysum (map (fun v => a * v) xs) == a * pysum xs.
Proof.
  induction xs as [| x xs IH]; simpl map.
  - rewrite pysum_nil. lra.
  - rewrite !pysum_cons, IH. lra.
Qed.

Lemma pysum_div (s : Q) (xs : list Q) :
  pysum (map (fun v => v / s) xs) == pysum xs / s.
Proof.
  induction xs as [| x xs IH]; simpl map.
  - rewrite pysum_nil. unfold Qdiv. lra.
  - rewrite !pysum_cons, IH. unfold Qdiv. lra.
Qed.

Lemma pysum_div_self (xs : list Q) :
  ~ pysum xs == 0 -> pysum (map (fun v => v / pysum xs) xs) == 1.
Proof.
  intro N. rewrite pysum_div. field. exact N.
Qed.

Lemma Forall_capped_nonneg (pm : Q) (xs : list Q) :
  0 <= pm -> Forall (Qle 0) xs ->
  Forall (Qle 0) (map (fun w => pymin w pm) xs).
Proof.
  intros Hpm H. apply Forall_map. revert H. apply Forall_impl.
  intros x Hx. destruct (pymin_cases x pm) as [[_ ->] | [_ ->]]; assumption.
Qed.

(** Capping non-negative weights at [pm] keeps at least [min(sum, pm)]:
    whatever lies below both the cap and the sum lies below the capped
    sum. *)
Lemma pysum_capped_lower (pm : Q) (xs : list Q) :
  0 <= pm -> Forall (Qle 0) xs ->
  forall m, m <= pm -> m <= pysum xs ->
  m <= pysum (map (fun w => pymin w pm) xs).
Proof.
  intros Hpm. induction 1 as [| x xs Hx Hxs IH]; intros m Hm Hs; simpl map.
  - exact Hs.
  - rewrite pysum_cons in Hs. rewrite pysum_cons.
    destruct (pymin_cases x pm) as [[L ->] | [L ->]].
    + specialize (IH (m - x)). lra.
    + pose proof (pysum_nonneg _ (Forall_capped_nonneg pm xs Hpm Hxs)). lra.
Qed.

Lemma pysum_round6 (xs : list Q) :
  Qabs (pysum (map round6 xs) - pysum xs)
  <= inject_Z (Z.of_nat (List.length xs)) * (1 # 2000000).
Proof.
  induction xs as [| x xs IH]; simpl map.
  - change (Qabs (0 - 0) <= 0 * (1 # 2000000)).
    apply Qabs_Qle_condition. lra.
  - rewrite !pysum_cons.
    change (List.length (x :: xs)) with (S (List.length xs)).
    rewrite Nat2Z.inj_succ, <- Z.add_1_r, inject_Z_plus.
    change (inject_Z 1) with 1.
    pose proof (round6_near x) as Hx.
    apply Qabs_Qle_condition in Hx. apply Qabs_Qle_condition in IH.
    apply Qabs_Qle_condition. lra.
Qed.

End SumFacts.

(* ------------------------------------------------------------------------- *)
(** ** Loop invariants *)

Section Loops.
Context {A B : Type}.

Lemma fold_left_inv (I : A -> Prop) (f : A -> B -> A) (l : list B) :
  (forall a x, In x l -> I a -> I (f a x)) ->
  forall a, I a -> I (fold_left f l a).
Proof.
  induction l as [| x l IH]; simpl; intros Hf a Ha; [exact Ha |].
  apply IH; [| apply Hf; auto].
  intros a' x' Hin. apply Hf. now right.
Qed.

End Loops.

Section DictForall.
Context {V : Type}.

Lemma Forall_dset (P : string * V -> Prop) k v (d : dict V) :
  P (k, v) -> Forall P d -> Forall P (dset k v d).
Proof.
  intros Hkv Hd. apply Forall_forall. intros kv Hin.
  apply In_dset in Hin. destruct Hin as [-> | Hin]; [exact Hkv |].
  rewrite Forall_forall in Hd. now apply Hd.
Qed.

Lemma Forall_setdefault (P : string * V -> Prop) k v (d : dict V) :
  P (k, v) -> Forall P d -> Forall P (setdefault k v d).
Proof.
  intros Hkv Hd. unfold setdefault.
  destruct (dmem k d); [exact Hd | now apply Forall_dset].
Qed.

Lemma Forall_dget (P : string * V -> Prop) k v (d : dict V) :
  Forall P d -> dget k d = Some v -> P (k, v).
Proof.
  intros Hd Hg. rewrite Forall_forall in Hd. apply Hd. now apply dget_In.
Qed.

End DictForall.

(* ------------------------------------------------------------------------- *)
(** ** The Plan Builder: what the grouping loop establishes *)

Import Orchestrator.

Lemma nonneg_dict_nil : nonneg_dict [].
Proof. constructor. Qed.

Lemma nonneg_dict_dset k v (insts : dict Q) :
  0 <= v -> nonneg_dict insts -> nonneg_dict (dset k v insts).
Proof.
  unfold nonneg_dict, values. rewrite !Forall_map. intros Hv Hd.
  now apply Forall_dset.
Qed.

Lemma pymax_nonneg_r (a b : Q) : 0 <= b -> 0 <= pymax a b.
Proof.
  intro H. destruct (pymax_cases a b) as [[L ->] | [L ->]]; lra.
Qed.

(** Every confidence stored by the grouping loop is non-negative: the first
    one of an instrument is taken against the default 0.0, later ones against
    what is stored. *)
Lemma group_step_nonneg (by_class : dict (dict Q)) (s : Signal) :
  Forall (fun e => nonneg_dict (snd e)) by_class ->
  Forall (fun e => nonneg_dict (snd e)) (group_step by_class s).
Proof.
  intro H. unfold group_step.
  set (cls := infer_class (instrument_id s)).
  assert (H' : Forall (fun e => nonneg_dict (snd e)) (setdefault cls [] by_class)).
  { apply Forall_setdefault; [apply nonneg_dict_nil | exact H]. }
  set (bc := setdefault cls [] by_class) in *.
  assert (Hi : nonneg_dict (dget_or cls bc [])).
  { unfold dget_or. destruct (dget cls bc) as [insts |] eqn:E.
    - exact (Forall_dget _ _ _ _ H' E).
    - apply nonneg_dict_nil. }
  apply Forall_dset; [| exact H']. simpl.
  apply nonneg_dict_dset; [| exact Hi].
  apply pymax_nonneg_r.
  set (insts := dget_or cls bc []) in *. unfold dget_or.
  destruct (dget (instrument_id s) insts) as [v |] eqn:E; [| lra].
  apply dget_In in E. unfold nonneg_dict in Hi. rewrite Forall_forall in Hi.
  apply Hi. change v with (snd (instrument_id s, v)). now apply in_map.
Qed.

Lemma group_signals_nonneg (signals : list Signal) :
  Forall (fun e => nonneg_dict (snd e)) (group_signals signals).
Proof.
  unfold group_signals.
  apply (fold_left_inv (fun bc => Forall (fun e => nonneg_dict (snd e)) bc)).
  - intros a x _. apply group_step_nonneg.
  - constructor.
Qed.

Lemma group_step_wf (by_class : dict (dict Q)) (s : Signal) :
  wf by_class -> wf (group_step by_class s).
Proof.
  intro H. unfold group_step. apply wf_dset. now apply wf_setdefault.
Qed.

Lemma group_signals_wf (signals : list Signal) : wf (group_signals signals).
Proof.
  unfold group_signals. apply (fold_left_inv (fun bc => wf bc)).
  - intros a x _. apply group_step_wf.
  - constructor.
Qed.

(* ------------------------------------------------------------------------- *)
(** ** The Plan Builder: the weights of one class *)

Section ClassPlan.
Variables (target_alloc : dict Q) (pos_max : Q) (cls : string) (insts : dict Q).
Hypothesis Hnonneg : nonneg_dict insts.
Hypothesis Hsum : 0 < pysum (values insts).
Hypothesis Hcap : 0 < pos_max.

Let s := pysum (values insts).
Let intra := dmap (fun v => v / s) insts.
Let capped := dmap (fun w => pymin w pos_max) intra.

Lemma intra_nonneg : Forall (Qle 0) (values intra).
Proof.
  unfold intra. rewrite values_dmap. apply Forall_map.
  revert Hnonneg. unfold nonneg_dict. apply Forall_impl.
  intros v Hv. apply Qle_shift_div_l; [exact Hsum | lra].
Qed.

Lemma intra_sum : pysum (values intra) == 1.
Proof.
  unfold intra. rewrite values_dmap. apply pysum_div_self.
  fold s. unfold s. lra.
Qed.

Lemma capped_sum_pos : 0 < pysum (values capped).
Proof.
  unfold capped. rewrite values_dmap.
  destruct (Qlt_le_dec pos_max 1) as [L | L].
  - apply Qlt_le_trans with pos_max; [exact Hcap |].
    apply pysum_capped_lower; [lra | apply intra_nonneg | lra |].
    rewrite intra_sum. lra.
  - apply Qlt_le_trans with 1; [lra |].
    apply pysum_capped_lower; [lra | apply intra_nonneg | lra |].
    rewrite intra_sum. lra.
Qed.

(** With a positive cap the renormalisation branch is taken. *)
Lemma cap_position_weights_renormalises :
  Risk.cap_position_weights intra pos_max
  = dmap (fun v => v / pysum (values capped)) capped.
Proof.
  unfold Risk.cap_position_weights. fold capped.
  destruct (Qeq_bool (pysum (values capped)) 0) eqn:E; [| reflexivity].
  apply Qeq_bool_iff in E. pose proof capped_sum_pos. lra.
Qed.

(** After capping and renormalising, the intra-class weights sum to 1. *)
Lemma cap_position_weights_sum :
  pysum (values (Risk.cap_position_weights intra pos_max)) == 1.
Proof.
  rewrite cap_position_weights_renormalises, values_dmap.
  apply pysum_div_self. pose proof capped_sum_pos. lra.
Qed.

(** The rounded class plan sums to the clamped class target, up to half a
    unit of the sixth decimal per instrument. *)
Lemma class_plan_sum :
  Qabs (pysum (values (class_plan_of target_alloc pos_max cls insts))
        - clamp01 (dget_or cls target_alloc 0))
  <= inject_Z (Z.of_nat (List.length insts)) * (1 # 2000000).
Proof.
  unfold class_plan_of. fold s. fold intra.
  set (cw := clamp01 (dget_or cls target_alloc 0)).
  set (ws := Risk.cap_position_weights intra pos_max).
  rewrite values_dmap.
  assert (L : List.length insts = List.length (map (fun w => cw * w) (values ws))).
  { rewrite length_map. unfold values. rewrite length_map. unfold ws.
    rewrite cap_position_weights_renormalises.
    unfold capped, intra. now rewrite !length_dmap. }
  rewrite L.
  assert (E : map (fun w => round6 (cw * w)) (values ws)
              = map round6 (map (fun w => cw * w) (values ws))).
  { now rewrite map_map. }
  rewrite E.
  pose proof (pysum_round6 (map (fun w => cw * w) (values ws))) as R.
  pose proof (pysum_scale cw (values ws)) as S.
  pose proof cap_position_weights_sum as One. fold ws in One.
  rewrite One in S.
  apply Qabs_Qle_condition in R. apply Qabs_Qle_condition.
  lra.
Qed.

End ClassPlan.

(* ------------------------------------------------------------------------- *)
(** ** The Plan Builder: the planning loop *)

Section PlanLoop.
Variables (target_alloc : dict Q) (pos_max : Q).

Let step := plan_step target_alloc pos_max.

Lemma plan_step_planned plan cls insts :
  plannable insts ->
  step plan (cls, insts)
  = mkPlan (dset cls (class_plan_of target_alloc pos_max cls insts)
                 (classes plan))
           (orders plan
            ++ map order_of (class_plan_of target_alloc pos_max cls insts)).
Proof.
  intros [Hne Hs]. unfold step, plan_step.
  destruct insts as [| e t]; [contradiction |].
  destruct (Qle_bool (pysum (values (e :: t))) 0) eqn:E; [| reflexivity].
  apply Qle_bool_iff in E. lra.
Qed.

Lemma plan_step_cases plan cls insts :
  step plan (cls, insts) = plan \/ plannable insts.
Proof.
  unfold step, plan_step. destruct insts as [| e t]; [now left |].
  destruct (Qle_bool (pysum (values (e :: t))) 0) eqn:E; [now left |].
  right. split; [discriminate |].
  apply Qnot_le_lt. intro L. apply Qle_bool_iff in L. congruence.
Qed.

Lemma plan_loop_planned (by_class : dict (dict Q)) :
  Forall (planned target_alloc pos_max by_class)
         (classes (plan_loop target_alloc pos_max by_class)).
Proof.
  unfold plan_loop.
  apply (fold_left_inv
           (fun p => Forall (planned target_alloc pos_max by_class) (classes p))).
  - intros plan [cls insts] Hin Hinv.
    destruct (plan_step_cases plan cls insts) as [E | Hp].
    + fold step. now rewrite E.
    + fold step. rewrite (plan_step_planned _ _ _ Hp). simpl.
      apply Forall_dset; [| exact Hinv].
      exists insts. simpl. auto.
  - constructor.
Qed.

Lemma fold_step_classes_other (l : dict (dict Q)) cls :
  ~ In cls (keys l) ->
  forall plan, dget cls (classes (fold_left step l plan)) = dget cls (classes plan).
Proof.
  induction l as [| [c insts] l IH]; intros N plan; [reflexivity |].
  simpl in N. cbn [fold_left]. rewrite IH by tauto.
  destruct (plan_step_cases plan c insts) as [E | Hp].
  - now rewrite E.
  - rewrite (plan_step_planned _ _ _ Hp). simpl.
    apply dget_dset_other. intro E. apply N. now left.
Qed.

Lemma fold_step_classes_get (l : dict (dict Q)) cls insts :
  wf l -> In (cls, insts) l -> plannable insts ->
  forall plan,
    dget cls (classes (fold_left step l plan))
    = Some (class_plan_of target_alloc pos_max cls insts).
Proof.
  unfold wf. induction l as [| [c i] l IH]; intros ND Hin Hp plan;
    [contradiction |].
  simpl in ND. inversion ND as [| ? ? NI ND']; subst.
  cbn [fold_left]. destruct Hin as [E | Hin].
  - injection E as -> ->.
    rewrite fold_step_classes_other by exact NI.
    rewrite (plan_step_planned _ _ _ Hp). simpl. apply dget_dset_same.
  - now apply IH.
Qed.

Lemma fold_step_orders_grow (l : dict (dict Q)) o :
  forall plan, In o (orders plan) -> In o (orders (fold_left step l plan)).
Proof.
  induction l as [| [c i] l IH]; intros plan Hin; [exact Hin |].
  cbn [fold_left]. apply IH. destruct (plan_step_cases plan c i) as [E | Hp].
  - now rewrite E.
  - rewrite (plan_step_planned _ _ _ Hp). simpl. apply in_or_app. now left.
Qed.

Lemma fold_step_orders_get (l : dict (dict Q)) cls insts kv :
  In (cls, insts) l -> plannable insts ->
  In kv (class_plan_of target_alloc pos_max cls insts) ->
  forall plan, In (order_of kv) (orders (fold_left step l plan)).
Proof.
  induction l as [| [c i] l IH]; intros Hin Hp Hkv plan;
    [contradiction |].
  cbn [fold_left]. destruct Hin as [E | Hin].
  - injection E as -> ->. apply fold_step_orders_grow.
    rewrite (plan_step_planned _ _ _ Hp). simpl.
    apply in_or_app. right. now apply in_map.
  - now apply IH.
Qed.

Lemma fold_step_orders_follow_classes (l : dict (dict Q)) :
  wf l ->
  forall plan,
    (forall k, In k (keys (classes plan)) -> ~ In k (keys l)) ->
    orders plan = orders_of_classes (classes plan) ->
    orders (fold_left step l plan)
    = orders_of_classes (classes (fold_left step l plan)).
Proof.
  unfold wf. induction l as [| [c i] l IH]; intros ND plan Hfresh Ho;
    [exact Ho |].
  simpl in ND. inversion ND as [| ? ? NI ND']; subst. cbn [fold_left].
  assert (Hc : ~ In c (keys (classes plan))).
  { intro I. apply (Hfresh _ I). now left. }
  destruct (plan_step_cases plan c i) as [E | Hp].
  - rewrite E. apply IH; [exact ND' | | exact Ho].
    intros k I J. apply (Hfresh _ I). now right.
  - rewrite (plan_step_planned _ _ _ Hp). apply IH; [exact ND' | |].
    + cbn [classes]. intros k I J. apply keys_dset_In in I.
      destruct I as [-> | I]; [contradiction |].
      apply (Hfresh _ I). now right.
    + cbn [classes orders]. rewrite (dset_new _ _ _ Hc).
      unfold orders_of_classes. rewrite flat_map_app. cbn [flat_map snd].
      rewrite app_nil_r. now rewrite Ho.
Qed.

End PlanLoop.

(* ------------------------------------------------------------------------- *)
(** ** The Plan Builder: properties of [build_plan] *)

Section BuildPlan.
Import Scenarios.

Lemma plannable_of_sum (insts : dict Q) :
  0 < pysum (values insts) -> plannable insts.
Proof.
  intro H. split; [| exact H]. intros ->. vm_compute in H. discriminate.
Qed.

Lemma keys_cap_position_weights (weights : dict Q) (max_pct : Q) :
  keys (Risk.cap_position_weights weights max_pct) = keys weights.
Proof.
  unfold Risk.cap_position_weights.
  destruct (Qeq_bool _ 0); now rewrite ?keys_dmap.
Qed.

Lemma keys_class_plan_of target_alloc pos_max cls insts :
  keys (class_plan_of target_alloc pos_max cls insts) = keys insts.
Proof.
  unfold class_plan_of.
  now rewrite keys_dmap, keys_cap_position_weights, keys_dmap.
Qed.

(** Without a policy entry the class weight is 0.0 and so is every weight
    of the class plan. *)
Lemma class_plan_of_no_entry target_alloc pos_max cls insts kv :
  dget cls target_alloc = None ->
  In kv (class_plan_of target_alloc pos_max cls insts) ->
  snd kv == 0.
Proof.
  intros Hnone Hin. unfold class_plan_of, dget_or in Hin.
  rewrite Hnone in Hin. unfold dmap at 1 in Hin.
  apply in_map_iff in Hin. destruct Hin as [[k w] [<- _]]. simpl.
  apply round6_zero. change (clamp01 0) with 0. lra.
Qed.

(** X5.  The orders of a plan are its classes read in order: one order per
    instrument of each class plan, INCREASE for a positive weight and HOLD
    otherwise. *)
Theorem orders_follow_classes
        (strategy : Strategy) (signals : list Signal) (plan : Plan) :
  build_plan strategy signals = Some plan ->
  orders plan = orders_of_classes (classes plan).
Proof.
  unfold build_plan. destruct (position_max_pct strategy) as [pos_max |];
    [| discriminate].
  intro H. injection H as <-. unfold plan_loop.
  apply fold_step_orders_follow_classes.
  - apply group_signals_wf.
  - intros k [].
  - reflexivity.
Qed.

Lemma orders_follow_classes_witness :
  build_plan policy_60_40 signals_aapl = Some plan_aapl_060
  /\ orders plan_aapl_060 = orders_of_classes (classes plan_aapl_060).
Proof.
  assert (Hb : build_plan policy_60_40 signals_aapl = Some plan_aapl_060)
    by (vm_compute; reflexivity).
  split; [exact Hb |].
  exact (orders_follow_classes policy_60_40 signals_aapl plan_aapl_060 Hb).
Defined.

Lemma dget_setdefault_nil (by_class : dict (dict Q)) (cls k : string) :
  dget k (setdefault cls [] by_class)
  = if String.eqb k cls
    then Some (dget_or cls by_class [])
    else dget k by_class.
Proof.
  unfold setdefault, dmem, dget_or, dict in *.
  destruct (dget cls by_class) as [insts |] eqn:E.
  - destruct (String.eqb_spec k cls) as [-> | N]; [exact E | reflexivity].
  - destruct (String.eqb_spec k cls) as [-> | N].
    + apply dget_dset_same.
    + now apply dget_dset_other.
Qed.

(** One signal touches the stored confidence of its own instrument only, and
    raises it to the maximum of the new and the stored one. *)
Lemma group_step_stored (by_class : dict (dict Q)) (s : Signal) (inst : string) :
  stored_confidence (group_step by_class s) inst
  = if String.eqb (instrument_id s) inst
    then Some (pymax (match confidence s with Some c => c | None => 0.5 end)
                     (match stored_confidence by_class inst with
                      | Some c => c | None => 0 end))
    else stored_confidence by_class inst.
Proof.
  unfold group_step, stored_confidence.
  set (cls := infer_class (instrument_id s)).
  set (bc := setdefault cls [] by_class).
  assert (Hins : dget_or cls bc [] = dget_or cls by_class []).
  { unfold dget_or at 1. unfold bc. rewrite dget_setdefault_nil.
    now rewrite String.eqb_refl. }
  rewrite Hins.
  destruct (String.eqb_spec (instrument_id s) inst) as [<- | N].
  - fold cls. rewrite dget_dset_same, dget_dset_same.
    unfold dget_or. destruct (dget cls by_class); reflexivity.
  - destruct (String.eqb_spec (infer_class inst) cls) as [E | NE].
    + rewrite E, dget_dset_same.
      rewrite dget_dset_other by (intro H; now apply N).
      unfold dget_or. destruct (dget cls by_class); reflexivity.
    + rewrite dget_dset_other by exact NE.
      unfold bc. rewrite dget_setdefault_nil.
      destruct (String.eqb_spec (infer_class inst) cls); [contradiction |].
      reflexivity.
Qed.

(** X6.  Signals of one instrument are not merged: the grouping loop keeps the
    largest confidence seen for it (and at least 0.0), whatever the other
    instruments and classes. *)
Theorem grouping_keeps_max_confidence (signals : list Signal) (inst : string) :
  stored_confidence (group_signals signals) inst = max_confidence inst signals.
Proof.
  unfold group_signals, max_confidence.
  assert (G : forall by_class acc,
             stored_confidence by_class inst = acc ->
             stored_confidence (fold_left group_step signals by_class) inst
             = fold_left
                 (fun acc s =>
                    if String.eqb (instrument_id s) inst
                    then Some (pymax (match confidence s with
                                      | Some c => c | None => 0.5 end)
                                     (match acc with Some c => c | None => 0 end))
                    else acc)
                 signals acc).
  { induction signals as [| s l IH]; intros by_class acc H; [exact H |].
    cbn [fold_left]. apply IH. rewrite group_step_stored, H. reflexivity. }
  apply G. reflexivity.
Qed.

(** C1, evaluated.  Policy {equities: 0.6, crypto: 0.4} with
    [position_max_pct = 0.35] and three equities with confidences 0.8, 0.1
    and 0.1.  The intra-class weights 0.8, 0.1, 0.1 are capped to 0.35, 0.1,
    0.1 and divided by their sum 0.55, which lifts AAPL to 0.636364 of the
    class; scaled by the class weight 0.6 the plan gives AAPL the target
    weight 0.381818, above the cap by more than 1e-9.  (The weights 0.35,
    0.325, 0.325 of the class would have respected the cap.) *)
Theorem build_plan_weight_exceeds_cap :
  exists plan o,
    build_plan policy_60_40 signals_three_equities = Some plan
    /\ position_max_pct policy_60_40 = Some 0.35
    /\ In o (orders plan)
    /\ order_instrument o = "AAPL"
    /\ target_weight o == 0.381818
    /\ 0.35 + (1 # 1000000000) < target_weight o.
Proof.
  eexists. eexists.
  split; [vm_compute; reflexivity |].
  split; [reflexivity |].
  split; [left; reflexivity |].
  split; [reflexivity |].
  split; reflexivity.
Qed.

(** The same with a single signal: the only intra-class weight 1.0 is capped
    to 0.35 and renormalised back to 1.0, so AAPL gets the whole class weight
    0.6. *)
Lemma build_plan_single_instrument_exceeds_cap :
  exists plan o,
    build_plan policy_60_40 signals_aapl = Some plan
    /\ orders plan = [o]
    /\ target_weight o == 0.6
    /\ 0.35 + (1 # 1000000000) < target_weight o.
Proof.
  eexists. eexists.
  split; [vm_compute; reflexivity |].
  split; [reflexivity |].
  split; reflexivity.
Qed.

(** Scenario A: policy {equities: 0.6, crypto: 0.4} and the signals AAPL
    (0.8) and BTC (0.6) give the plan {equities: {AAPL: 0.6}, crypto:
    {BTC: 0.4}} with one INCREASE order for each. *)
Theorem scenario_a_two_signals :
  exists plan,
    build_plan policy_60_40 signals_aapl_btc = Some plan
    /\ keys (classes plan) = ["equities"; "crypto"]
    /\ map keys (values (classes plan)) = [["AAPL"]; ["BTC"]]
    /\ dget_or "AAPL" (dget_or "equities" (classes plan) []) 0 == 0.6
    /\ dget_or "BTC" (dget_or "crypto" (classes plan) []) 0 == 0.4
    /\ map order_instrument (orders plan) = ["AAPL"; "BTC"]
    /\ map action (orders plan) = [INCREASE; INCREASE].
Proof.
  eexists.
  split; [vm_compute; reflexivity |].
  split; [reflexivity |]. split; [reflexivity |]. split; [reflexivity |].
  split; [reflexivity |]. split; reflexivity.
Qed.

(** Scenario B: with no signals the plan is empty; checked against the policy
    {equities: 0.6, crypto: 0.4} the validator lists both classes as missing,
    finds a total weight of 0 and fails. *)
Theorem scenario_b_empty_signal_store :
  build_plan policy_60_40 [] = Some (mkPlan [] [])
  /\ Validate.status
       (Validate.main (Some policy_60_40) (Validate.PlanLoaded (Some [])))
     = Validate.FAIL
  /\ Validate.total_weight
       (Validate.main (Some policy_60_40) (Validate.PlanLoaded (Some [])))
     = 0
  /\ Validate.warnings
       (Validate.main (Some policy_60_40) (Validate.PlanLoaded (Some [])))
     = [Validate.MissingClasses ["crypto"; "equities"]].
Proof.
  split; [reflexivity |]. split; [reflexivity |]. split; reflexivity.
Qed.

(** C3, as amended.  In a plan built under a positive position cap, every
    class present comes from a class of the signals with a positive confidence
    sum, and its weights sum to the policy's class target clamped to [0,1] up
    to the rounding of each weight to six decimals: at most 5e-7 per
    instrument of the class. *)
Theorem class_weights_sum_to_target_up_to_rounding
        (strategy : Strategy) (signals : list Signal) (plan : Plan)
        (pos_max : Q) (cls : string) (class_plan : dict Q) :
  build_plan strategy signals = Some plan ->
  position_max_pct strategy = Some pos_max ->
  0 < pos_max ->
  dget cls (classes plan) = Some class_plan ->
  (exists insts,
      dget cls (group_signals signals) = Some insts
      /\ 0 < pysum (values insts)
      /\ keys class_plan = keys insts)
  /\ Qabs (pysum (values class_plan)
           - clamp01 (dget_or cls (target_alloc_of strategy) 0))
     <= inject_Z (Z.of_nat (List.length class_plan)) * (1 # 2000000).
Proof.
  intros Hb Hpm Hpos Hget. unfold build_plan in Hb. rewrite Hpm in Hb.
  injection Hb as <-.
  pose proof (plan_loop_planned (target_alloc_of strategy) pos_max
                                (group_signals signals)) as Hinv.
  pose proof (Forall_dget _ _ _ _ Hinv Hget) as [insts [Hin [Hp Hcp]]].
  simpl in Hin, Hcp. subst class_plan.
  assert (Hnn : nonneg_dict insts).
  { pose proof (group_signals_nonneg signals) as H.
    rewrite Forall_forall in H. exact (H _ Hin). }
  split.
  - exists insts. split; [| split].
    + apply In_wf_dget; [apply group_signals_wf | exact Hin].
    + apply Hp.
    + apply keys_class_plan_of.
  - assert (L : List.length (class_plan_of (target_alloc_of strategy) pos_max
                                           cls insts) = List.length insts).
    { rewrite <- (length_map fst), <- (length_map fst insts).
      f_equal. apply keys_class_plan_of. }
    rewrite L. apply class_plan_sum; [exact Hnn | apply Hp | exact Hpos].
Qed.

Lemma class_weights_sum_to_target_up_to_rounding_witness :
  build_plan policy_60_40 signals_aapl = Some plan_aapl_060
  /\ 0 < 0.35
  /\ dget "equities" (classes plan_aapl_060) = Some [("AAPL", 0.600000)]
  /\ Qabs (pysum (values [("AAPL", 0.600000)])
           - clamp01 (dget_or "equities" (target_alloc_of policy_60_40) 0))
     <= inject_Z (Z.of_nat 1) * (1 # 2000000).
Proof.
  assert (Hb : build_plan policy_60_40 signals_aapl = Some plan_aapl_060)
    by (vm_compute; reflexivity).
  assert (Hpos : 0 < 0.35) by reflexivity.
  assert (Hget : dget "equities" (classes plan_aapl_060)
                 = Some [("AAPL", 0.600000)]) by reflexivity.
  split; [exact Hb |]. split; [exact Hpos |]. split; [exact Hget |].
  exact (proj2 (class_weights_sum_to_target_up_to_rounding
                  policy_60_40 signals_aapl plan_aapl_060
                  0.35 "equities" [("AAPL", 0.600000)]
                  Hb eq_refl Hpos Hget)).
Defined.

(** C3 as stated fails.  Policy {equities: 0.4, crypto: 0.6}, cap 0.35, six
    equities of equal confidence 0.5: each gets round(0.4/6, 6) = 0.066667 and
    the class sums to 0.400002, which is 2e-6 away from the target 0.4. *)
Lemma class_sum_off_by_more_than_1e6 :
  exists plan class_plan,
    build_plan policy_40_60 signals_six_equities = Some plan
    /\ position_max_pct policy_40_60 = Some 0.35
    /\ 0 < 0.35
    /\ dget "equities" (classes plan) = Some class_plan
    /\ pysum (values class_plan) == 0.400002
    /\ (1 # 1000000)
       < Qabs (pysum (values class_plan)
               - clamp01 (dget_or "equities" (target_alloc_of policy_40_60) 0)).
Proof.
  eexists. eexists.
  split; [vm_compute; reflexivity |].
  split; [reflexivity |].
  split; [reflexivity |].
  split; [reflexivity |].
  split; reflexivity.
Qed.

(** C5, as amended.  A class whose signals have a positive confidence sum and
    that has no entry in the policy's [alloc_target] is kept in the plan with
    the class weight 0.0: it is a key of [plan.classes], its class plan lists
    the class's instruments in order, each at weight 0, and each of them has
    an order with action HOLD and target weight 0. *)
Theorem class_without_policy_entry_is_planned_at_zero
        (strategy : Strategy) (signals : list Signal) (plan : Plan)
        (cls : string) (insts : dict Q) :
  build_plan strategy signals = Some plan ->
  dget cls (group_signals signals) = Some insts ->
  0 < pysum (values insts) ->
  dget cls (target_alloc_of strategy) = None ->
  exists class_plan,
    dget cls (classes plan) = Some class_plan
    /\ keys class_plan = keys insts
    /\ Forall (fun w => w == 0) (values class_plan)
    /\ forall inst, In inst (keys insts) ->
         exists o, In o (orders plan)
                   /\ order_instrument o = inst
                   /\ action o = HOLD
                   /\ target_weight o == 0.
Proof.
  intros Hb Hget Hsum Hnone. unfold build_plan in Hb.
  destruct (position_max_pct strategy) as [pos_max |]; [| discriminate].
  injection Hb as <-.
  pose proof (plannable_of_sum _ Hsum) as Hp.
  pose proof (dget_In _ _ _ Hget) as Hin.
  exists (class_plan_of (target_alloc_of strategy) pos_max cls insts).
  split; [| split; [| split]].
  - unfold plan_loop.
    apply fold_step_classes_get; [apply group_signals_wf | exact Hin | exact Hp].
  - apply keys_class_plan_of.
  - unfold values. apply Forall_map. apply Forall_forall. intros kv Hkv.
    exact (class_plan_of_no_entry _ _ _ _ _ Hnone Hkv).
  - intros inst Hinst. rewrite <- (keys_class_plan_of (target_alloc_of strategy)
                                                      pos_max cls) in Hinst.
    unfold keys in Hinst. apply in_map_iff in Hinst.
    destruct Hinst as [kv [<- Hkv]].
    exists (order_of kv). split; [| split; [| split]].
    + unfold plan_loop. now apply (fold_step_orders_get _ _ _ cls insts).
    + reflexivity.
    + pose proof (class_plan_of_no_entry _ _ _ _ _ Hnone Hkv) as Z.
      unfold order_of. simpl.
      destruct (Qlt_bool 0 (snd kv)) eqn:E; [| reflexivity].
      apply Qlt_bool_iff in E. lra.
    + exact (class_plan_of_no_entry _ _ _ _ _ Hnone Hkv).
Qed.

Lemma class_without_policy_entry_is_planned_at_zero_witness :
  build_plan policy_crypto_only signals_aapl = Some plan_aapl_zero
  /\ dget "equities" (group_signals signals_aapl) = Some [("AAPL", 0.8)]
  /\ 0 < pysum (values [("AAPL", 0.8)])
  /\ dget "equities" (target_alloc_of policy_crypto_only) = None
  /\ exists class_plan,
       dget "equities" (classes plan_aapl_zero) = Some class_plan
       /\ keys class_plan = ["AAPL"]
       /\ Forall (fun w => w == 0) (values class_plan).
Proof.
  assert (Hb : build_plan policy_crypto_only signals_aapl = Some plan_aapl_zero)
    by (vm_compute; reflexivity).
  assert (Hg : dget "equities" (group_signals signals_aapl)
               = Some [("AAPL", 0.8)]) by (vm_compute; reflexivity).
  assert (Hs : 0 < pysum (values [("AAPL", 0.8)])) by reflexivity.
  assert (Hn : dget "equities" (target_alloc_of policy_crypto_only) = None)
    by reflexivity.
  split; [exact Hb |]. split; [exact Hg |]. split; [exact Hs |].
  split; [exact Hn |].
  destruct (class_without_policy_entry_is_planned_at_zero
              policy_crypto_only signals_aapl plan_aapl_zero
              "equities" [("AAPL", 0.8)] Hb Hg Hs Hn)
    as [class_plan [H1 [H2 [H3 _]]]].
  exists class_plan. auto.
Defined.

(** C5 as stated fails.  Policy {crypto: 1.0} and the single signal AAPL
    (confidence 0.8): equities has a positive confidence sum and no policy
    entry, yet the plan has the class equities, with AAPL at 0, and an order
    for AAPL. *)
Lemma class_without_policy_entry_not_dropped :
  exists plan insts,
    build_plan policy_crypto_only signals_aapl = Some plan
    /\ dget "equities" (group_signals signals_aapl) = Some insts
    /\ 0 < pysum (values insts)
    /\ dget "equities" (target_alloc_of policy_crypto_only) = None
    /\ dmem "equities" (classes plan) = true
    /\ map order_instrument (orders plan) = ["AAPL"].
Proof.
  eexists. eexists.
  split; [vm_compute; reflexivity |].
  split; [vm_compute; reflexivity |].
  split; [reflexivity |].
  split; [reflexivity |].
  split; reflexivity.
Qed.

End BuildPlan.

(* ------------------------------------------------------------------------- *)
(** ** The Plan Validator *)

Section Validator.
Import Validate Scenarios.

(** The lists of a report, check by check. *)
Lemma main_errors (strategy : Strategy) (plan_read : PlanRead) :
  let alloc_target := target_alloc_of strategy in
  let bands := match rebalance_bands strategy with Some b => b | None => 0 end in
  let pos_max := match position_max_pct strategy with Some p => p | None => 1 end in
  let classes := fst (read_plan plan_read) in
  errors (main (Some strategy) plan_read)
  = (log_errors (check_alloc_target alloc_target)
     ++ log_errors (snd (read_plan plan_read))
     ++ log_errors (check_structure classes)
     ++ log_errors (check_unknown alloc_target classes)
     ++ log_errors (check_missing alloc_target classes)
     ++ log_errors (check_bands alloc_target bands (class_sums_of classes))
     ++ log_errors (check_total (pysum (values (class_sums_of classes))))
     ++ log_errors (check_positions pos_max classes))%list.
Proof.
  unfold main. simpl read_strategy. cbv zeta.
  destruct (read_plan plan_read) as [classes log3]. simpl.
  now rewrite <- !app_assoc.
Qed.

Lemma main_warnings (strategy : Strategy) (plan_read : PlanRead) :
  let alloc_target := target_alloc_of strategy in
  let bands := match rebalance_bands strategy with Some b => b | None => 0 end in
  let pos_max := match position_max_pct strategy with Some p => p | None => 1 end in
  let classes := fst (read_plan plan_read) in
  warnings (main (Some strategy) plan_read)
  = (log_warnings (check_alloc_target alloc_target)
     ++ log_warnings (snd (read_plan plan_read))
     ++ log_warnings (check_structure classes)
     ++ log_warnings (check_unknown alloc_target classes)
     ++ log_warnings (check_missing alloc_target classes)
     ++ log_warnings (check_bands alloc_target bands (class_sums_of classes))
     ++ log_warnings (check_total (pysum (values (class_sums_of classes))))
     ++ log_warnings (check_positions pos_max classes))%list.
Proof.
  unfold main. simpl read_strategy. cbv zeta.
  destruct (read_plan plan_read) as [classes log3]. simpl.
  now rewrite <- !app_assoc.
Qed.

Lemma read_plan_errors plan_read m :
  In m (log_errors (snd (read_plan plan_read))) ->
  m = PlanNotFound \/ m = PlanUnreadable.
Proof.
  destruct plan_read as [| | [c |]]; simpl; intuition.
Qed.

Lemma check_structure_errors classes m :
  In m (log_errors (check_structure classes)) -> m = PlanNoClasses.
Proof.
  destruct classes; simpl; intuition.
Qed.

Lemma check_unknown_errors alloc_target classes :
  log_errors (check_unknown alloc_target classes) = [].
Proof.
  unfold check_unknown. now destruct (sorted_key_difference _ _).
Qed.

Lemma check_missing_errors alloc_target classes :
  log_errors (check_missing alloc_target classes) = [].
Proof.
  unfold check_missing. now destruct (sorted_key_difference _ _).
Qed.

Lemma check_total_errors total m :
  In m (log_errors (check_total total)) -> m = TotalNotOne total.
Proof.
  unfold check_total. destruct (Qlt_bool _ _); simpl; intuition.
Qed.

Lemma check_positions_errors pos_max classes m :
  In m (log_errors (check_positions pos_max classes)) ->
  exists inst cls w, m = PositionAboveLimit inst cls w pos_max.
Proof.
  unfold check_positions. destruct (violators_of pos_max classes) as [| v l];
    [intros [] |].
  cbn [log_errors]. intro H. apply in_map_iff in H.
  destruct H as [[[i c] w] [<- _]]. simpl. eauto.
Qed.

Lemma fold_check_band_errors bands class_sums (l : dict Q) (log : Log) :
  log_errors
    (fold_left (fun log e => log_app log (check_band bands class_sums e)) l log)
  = (log_errors log
     ++ flat_map (fun e => log_errors (check_band bands class_sums e)) l)%list.
Proof.
  revert log. induction l as [| e l IH]; intro log; cbn [fold_left flat_map].
  - now rewrite app_nil_r.
  - rewrite IH. cbn [log_app log_errors]. now rewrite app_assoc.
Qed.

(** The band errors: one for each policy class whose plan weight (0.0 when
    the plan lacks the class) is outside the band. *)
Lemma check_bands_errors alloc_target bands class_sums m :
  In m (log_errors (check_bands alloc_target bands class_sums)) <->
  exists cls target,
    In (cls, target) alloc_target
    /\ out_of_band target bands (dget_or cls class_sums 0) = true
    /\ m = ClassOutOfBand cls target (dget_or cls class_sums 0) bands.
Proof.
  unfold check_bands. rewrite fold_check_band_errors. cbn [log_errors app].
  rewrite in_flat_map. split.
  - intros [[cls target] [Hin Hm]]. unfold check_band in Hm.
    destruct (out_of_band target bands (dget_or cls class_sums 0)) eqn:E;
      simpl in Hm; [| contradiction].
    destruct Hm as [<- | []]. eauto.
  - intros [cls [target [Hin [Ho ->]]]]. exists (cls, target).
    split; [exact Hin |]. unfold check_band. rewrite Ho. now left.
Qed.

Lemma keys_fold_class_sums (classes : dict (dict Q)) (sums : dict Q) k :
  In k (keys (fold_left
                (fun sums e => dset (fst e) (pysum (values (snd e))) sums)
                classes sums))
  <-> In k (keys classes) \/ In k (keys sums).
Proof.
  revert sums. induction classes as [| e l IH]; intro sums; cbn [fold_left].
  - simpl. tauto.
  - rewrite IH, keys_dset_In. simpl. intuition.
Qed.

(** A class the plan lacks has no class sum. *)
Lemma class_sums_of_absent (classes : dict (dict Q)) cls :
  dmem cls classes = false -> dget cls (class_sums_of classes) = None.
Proof.
  intro H. apply dget_None_keys. unfold class_sums_of.
  rewrite keys_fold_class_sums. intros [I | []].
  apply dmem_true_iff in I. congruence.
Qed.

Lemma In_insert_string x y l :
  In x (insert_string y l) <-> x = y \/ In x l.
Proof.
  induction l as [| z l IH]; simpl; [intuition |].
  destruct (String.leb y z); simpl; [intuition |].
  rewrite IH. intuition.
Qed.

Lemma In_sorted_strings x l : In x (sorted_strings l) <-> In x l.
Proof.
  induction l as [| y l IH]; simpl; [tauto |].
  rewrite In_insert_string, IH. intuition.
Qed.

Lemma In_sorted_key_difference {V W : Type} (a : dict V) (b : dict W) k :
  In k (sorted_key_difference a b) <-> In k (keys a) /\ dmem k b = false.
Proof.
  unfold sorted_key_difference.
  rewrite In_sorted_strings, nodup_In, filter_In, negb_true_iff. tauto.
Qed.

(** The policy-sum check in isolation: a positive sum away from 1.0 is a
    warning and nothing else. *)
Lemma check_alloc_target_sum_off (alloc_target : dict Q) :
  alloc_target <> [] ->
  0 < pysum (values alloc_target) ->
  EPS6 < Qabs (pysum (values alloc_target) - 1) ->
  check_alloc_target alloc_target
  = mkLog [] [AllocSumNotOne (pysum (values alloc_target))] [].
Proof.
  intros Hne Hpos Hoff. unfold check_alloc_target.
  destruct alloc_target as [| e t]; [contradiction |].
  destruct (Qle_bool (pysum (values (e :: t))) 0) eqn:E.
  - apply Qle_bool_iff in E. lra.
  - apply Qlt_bool_iff in Hoff. now rewrite Hoff.
Qed.

(** C6, as amended.  For a policy whose [alloc_target] is present and has a
    positive sum more than 1e-6 away from 1.0, the validator appends the
    policy-sum message to its warnings, whatever the plan file holds, and no
    entry of its errors comes from the policy-sum check. *)
Theorem policy_sum_off_is_a_warning
        (strategy : Strategy) (plan_read : PlanRead) (targets : dict Q) :
  alloc_target strategy = Some targets ->
  0 < pysum (values targets) ->
  EPS6 < Qabs (pysum (values targets) - 1) ->
  In (AllocSumNotOne (pysum (values targets)))
     (warnings (main (Some strategy) plan_read))
  /\ forall m, In m (errors (main (Some strategy) plan_read)) ->
               from_policy_check m = false.
Proof.
  intros Hat Hpos Hoff.
  assert (Hne : targets <> []).
  { intros ->. vm_compute in Hpos. discriminate. }
  assert (T : target_alloc_of strategy = targets).
  { unfold target_alloc_of. now rewrite Hat. }
  split.
  - rewrite main_warnings. cbv zeta. rewrite T.
    rewrite (check_alloc_target_sum_off _ Hne Hpos Hoff).
    apply in_or_app. left. now left.
  - intros m Hm. rewrite main_errors in Hm. cbv zeta in Hm. rewrite T in Hm.
    rewrite (check_alloc_target_sum_off _ Hne Hpos Hoff) in Hm.
    rewrite check_unknown_errors, check_missing_errors in Hm.
    cbn [log_errors app] in Hm.
    repeat (apply in_app_or in Hm; destruct Hm as [Hm | Hm]).
    + apply read_plan_errors in Hm. destruct Hm as [-> | ->]; reflexivity.
    + apply check_structure_errors in Hm. now subst m.
    + apply check_bands_errors in Hm.
      destruct Hm as [c [t [_ [_ ->]]]]. reflexivity.
    + apply check_total_errors in Hm. now subst m.
    + apply check_positions_errors in Hm.
      destruct Hm as [i [c [w ->]]]. reflexivity.
Qed.

Lemma policy_sum_off_is_a_warning_witness :
  0 < pysum (values [("equities", 0.6); ("crypto", 0.3)])
  /\ EPS6 < Qabs (pysum (values [("equities", 0.6); ("crypto", 0.3)]) - 1)
  /\ In (AllocSumNotOne (pysum (values [("equities", 0.6); ("crypto", 0.3)])))
        (warnings (main (Some policy_sum_090) (PlanLoaded (Some [])))).
Proof.
  assert (Hpos : 0 < pysum (values [("equities", 0.6); ("crypto", 0.3)]))
    by reflexivity.
  assert (Hoff : EPS6 < Qabs (pysum (values [("equities", 0.6); ("crypto", 0.3)])
                              - 1)) by reflexivity.
  split; [exact Hpos |]. split; [exact Hoff |].
  exact (proj1 (policy_sum_off_is_a_warning
                  policy_sum_090 (PlanLoaded (Some []))
                  [("equities", 0.6); ("crypto", 0.3)]
                  eq_refl Hpos Hoff)).
Defined.

(** C6 as stated fails.  Policy {equities: 0.6, crypto: 0.3} (sum 0.9), band
    0.1, checked against the plan {equities: {AAPL: 0.6}, crypto: {BTC: 0.4}}:
    the sum is only warned about, the errors list stays empty and the report
    is OK. *)
Lemma policy_sum_off_without_error :
  alloc_target policy_sum_090 = Some [("equities", 0.6); ("crypto", 0.3)]
  /\ 0 < pysum (values [("equities", 0.6); ("crypto", 0.3)])
  /\ EPS6 < Qabs (pysum (values [("equities", 0.6); ("crypto", 0.3)]) - 1)
  /\ errors (main (Some policy_sum_090) (PlanLoaded (Some classes_60_40))) = []
  /\ status (main (Some policy_sum_090) (PlanLoaded (Some classes_60_40))) = OK.
Proof.
  split; [reflexivity |].
  split; [reflexivity |].
  split; [reflexivity |].
  split; vm_compute; reflexivity.
Qed.

(** C7, as amended.  A policy class that the plan's classes map lacks is
    listed in the validator's missing-classes warning.  The band check runs
    over every policy class and reads the weight of an absent class as 0.0:
    such a class gets a band error exactly when 0.0 lies outside
    [target - band - 1e-6, target + band + 1e-6], and every band error about
    it reports the actual weight 0. *)
Theorem missing_class_is_warned_and_band_checked_at_zero
        (strategy : Strategy) (plan_read : PlanRead)
        (cls : string) (target : Q) :
  let bands := match rebalance_bands strategy with Some b => b | None => 0 end in
  let report := main (Some strategy) plan_read in
  dget cls (target_alloc_of strategy) = Some target ->
  dmem cls (fst (read_plan plan_read)) = false ->
  (exists missing, In (MissingClasses missing) (warnings report)
                   /\ In cls missing)
  /\ (In (ClassOutOfBand cls target 0 bands) (errors report)
      <-> out_of_band target bands 0 = true)
  /\ (forall t a b, In (ClassOutOfBand cls t a b) (errors report) ->
                    a = 0 /\ b = bands
                    /\ In (cls, t) (target_alloc_of strategy)
                    /\ out_of_band t bands 0 = true).
Proof.
  intros bands report Hget Habs. subst report bands.
  pose proof (class_sums_of_absent _ _ Habs) as Hsum.
  assert (Hzero : dget_or cls (class_sums_of (fst (read_plan plan_read))) 0 = 0).
  { unfold dget_or. now rewrite Hsum. }
  set (bands := match rebalance_bands strategy with Some b => b | None => 0 end).
  assert (Hband : forall t a b,
             In (ClassOutOfBand cls t a b)
                (errors (main (Some strategy) plan_read)) ->
             a = 0 /\ b = bands /\ In (cls, t) (target_alloc_of strategy)
             /\ out_of_band t bands 0 = true).
  { intros t a b Hm. rewrite main_errors in Hm. cbv zeta in Hm.
    rewrite check_unknown_errors, check_missing_errors in Hm.
    cbn [app] in Hm.
    repeat (apply in_app_or in Hm; destruct Hm as [Hm | Hm]).
    - unfold check_alloc_target in Hm.
      destruct (target_alloc_of strategy); [destruct Hm as [E | []]; discriminate |].
      destruct (Qle_bool _ 0); [destruct Hm as [E | []]; discriminate |].
      destruct (Qlt_bool _ _); destruct Hm.
    - apply read_plan_errors in Hm. destruct Hm; discriminate.
    - apply check_structure_errors in Hm. discriminate.
    - apply check_bands_errors in Hm.
      destruct Hm as [c [t' [Hin [Ho E]]]].
      injection E as E1 E2 E3 E4. subst c t' a b.
      rewrite Hzero in Ho.
      split; [exact Hzero |]. split; [reflexivity |]. split; [exact Hin | exact Ho].
    - apply check_total_errors in Hm. discriminate.
    - apply check_positions_errors in Hm.
      destruct Hm as [i [c [w E]]]. discriminate. }
  split; [| split].
  - assert (Hin : In cls (sorted_key_difference (target_alloc_of strategy)
                                                (fst (read_plan plan_read)))).
    { apply In_sorted_key_difference. split; [| exact Habs].
      apply dget_In in Hget. change cls with (fst (cls, target)).
      now apply in_map. }
    exists (sorted_key_difference (target_alloc_of strategy)
                                  (fst (read_plan plan_read))).
    split; [| exact Hin].
    rewrite main_warnings. cbv zeta.
    apply in_or_app. right. apply in_or_app. right.
    apply in_or_app. right. apply in_or_app. right.
    apply in_or_app. left.
    unfold check_missing.
    destruct (sorted_key_difference _ _); [destruct Hin | now left].
  - split.
    + intro Hm. now apply Hband in Hm.
    + intro Ho. rewrite main_errors. cbv zeta.
      apply in_or_app. right. apply in_or_app. right.
      apply in_or_app. right. apply in_or_app. right.
      apply in_or_app. right. apply in_or_app. left.
      apply check_bands_errors. exists cls, target.
      try fold bands. rewrite Hzero. split; [now apply dget_In | auto].
  - exact Hband.
Qed.

Lemma missing_class_is_warned_and_band_checked_at_zero_witness :
  dget "crypto" (target_alloc_of policy_60_40) = Some 0.4
  /\ dmem "crypto" (fst (read_plan (PlanLoaded (Some (classes plan_aapl_060)))))
     = false
  /\ exists missing,
       In (MissingClasses missing)
          (warnings (main (Some policy_60_40)
                          (PlanLoaded (Some (classes plan_aapl_060)))))
       /\ In "crypto" missing.
Proof.
  split; [reflexivity |]. split; [reflexivity |].
  exact (proj1 (missing_class_is_warned_and_band_checked_at_zero
                  policy_60_40 (PlanLoaded (Some (classes plan_aapl_060)))
                  "crypto" 0.4 eq_refl eq_refl)).
Defined.

(** C7 as stated fails.  Policy {equities: 0.6, crypto: 0.4} with band 0.05
    against the plan {equities: {AAPL: 0.6}}: crypto is absent from the plan
    and still gets a band error, with actual weight 0. *)
Lemma missing_class_gets_band_error :
  dget "crypto" (target_alloc_of policy_60_40) = Some 0.4
  /\ dmem "crypto" (classes plan_aapl_060) = false
  /\ In (ClassOutOfBand "crypto" 0.4 0 0.05)
        (errors (main (Some policy_60_40)
                      (PlanLoaded (Some (classes plan_aapl_060))))).
Proof.
  split; [reflexivity |]. split; [reflexivity |].
  vm_compute. left. reflexivity.
Qed.

End Validator.

(* ------------------------------------------------------------------------- *)
(** ** The Paper Execution Engine: prices *)

Section Prices.
Import Paper.

Lemma fallback_prices_positive :
  Forall (fun kv => 0 < snd kv) _FALLBACK_PRICE_MAP.
Proof.
  unfold _FALLBACK_PRICE_MAP. repeat constructor.
Qed.

Lemma fallback_price_positive (sym : string) :
  0 < dget_or sym _FALLBACK_PRICE_MAP 100.
Proof.
  unfold dget_or. destruct (dget sym _FALLBACK_PRICE_MAP) as [p |] eqn:E.
  - apply dget_In in E. pose proof fallback_prices_positive as F.
    rewrite Forall_forall in F. exact (F _ E).
  - reflexivity.
Qed.

Lemma exec_price_pos (latest_price : string -> Quote) (inst : string) :
  0 < get_exec_price latest_price inst.
Proof.
  unfold get_exec_price.
  destruct (latest_price _) as [p | |]; try apply fallback_price_positive.
  destruct (Qlt_bool 0 p) eqn:E; [| apply fallback_price_positive].
  now apply Qlt_bool_iff.
Qed.

Lemma exec_price_guard (latest_price : string -> Quote) (inst : string) :
  Qle_bool (get_exec_price latest_price inst) 0 = false.
Proof.
  pose proof (exec_price_pos latest_price inst) as P.
  destruct (Qle_bool _ 0) eqn:E; [| reflexivity].
  apply Qle_bool_iff in E. lra.
Qed.

(** C10.  Whatever [latest_price] does (a number of any sign, [None], an
    exception) [get_exec_price] returns a strictly positive price, so the
    test [price <= 0] that guards both loops of the engine is always false. *)
Theorem get_exec_price_is_positive
        (latest_price : string -> Quote) (inst : string) :
  0 < get_exec_price latest_price inst
  /\ Qle_bool (get_exec_price latest_price inst) 0 = false.
Proof.
  split; [apply exec_price_pos | apply exec_price_guard].
Qed.

End Prices.

(* ------------------------------------------------------------------------- *)
(** ** The Paper Execution Engine: phase 1, off-plan holdings *)

Section Liquidation.
Import Paper Scenarios.

Variables (oracle : Oracle) (target_w : dict Q).

Let step := liquidate_step oracle target_w.

(** A turn of the loop changes the holding of its own instrument only. *)
Lemma liquidate_step_other (st : Engine) (k inst : string) :
  inst <> k -> dget inst (held (step st k)) = dget inst (held st).
Proof.
  intro N. unfold step, liquidate_step.
  destruct (dmem k target_w); [reflexivity |].
  destruct (Qle_bool (dget_or k (held st) 0) 0); [reflexivity |].
  cbn [cash held executions calls].
  destruct (Qle_bool (get_exec_price _ k) 0); [reflexivity |].
  destruct (Qle_bool (lot_qty k _) 0); [reflexivity |].
  cbn [held]. now apply dget_dset_other.
Qed.

(** The turn of an off-plan instrument held at a positive value. *)
Lemma liquidate_step_self (st : Engine) (inst : string) (mv : Q) :
  dmem inst target_w = false ->
  dget inst (held st) = Some mv -> 0 < mv ->
  dget inst (held (step st inst))
  = Some (lot_remainder inst mv (get_exec_price (oracle (calls st)) inst)).
Proof.
  intros Hoff Hget Hpos. unfold step, liquidate_step, lot_remainder.
  rewrite Hoff. unfold dget_or. rewrite Hget.
  destruct (Qle_bool mv 0) eqn:E; [apply Qle_bool_iff in E; lra |].
  cbn [cash held executions calls].
  rewrite exec_price_guard.
  destruct (Qle_bool (lot_qty inst _) 0); [exact Hget |].
  cbn [held]. apply dget_dset_same.
Qed.

Lemma fold_liquidate_other (l : list string) (inst : string) :
  ~ In inst l ->
  forall st, dget inst (held (fold_left step l st)) = dget inst (held st).
Proof.
  induction l as [| k l IH]; intros N st; [reflexivity |].
  cbn [fold_left]. rewrite IH by (intro I; apply N; now right).
  apply liquidate_step_other. intros ->. apply N. now left.
Qed.

Lemma fold_liquidate_self (l : list string) (inst : string) (mv : Q) :
  NoDup l -> In inst l ->
  dmem inst target_w = false -> 0 < mv ->
  forall st,
    dget inst (held st) = Some mv ->
    exists n,
      dget inst (held (fold_left step l st))
      = Some (lot_remainder inst mv (get_exec_price (oracle n) inst)).
Proof.
  intros ND Hin Hoff Hpos.
  induction l as [| k l IH]; intros st Hget; [contradiction |].
  inversion ND as [| ? ? NI ND']; subst. cbn [fold_left].
  destruct (string_dec inst k) as [-> | N].
  - exists (calls st). rewrite fold_liquidate_other by exact NI.
    now apply liquidate_step_self.
  - destruct Hin as [E | Hin]; [congruence |].
    apply IH; [exact ND' | exact Hin |].
    rewrite liquidate_step_other by exact N. exact Hget.
Qed.

(** Whole units leave less than one unit's price; six-decimal fractions
    leave at most half a millionth of a unit's price. *)
Lemma lot_remainder_bounds (inst : string) (mv price : Q) :
  0 < mv -> 0 < price ->
  0 <= lot_remainder inst mv price <= mv
  /\ (is_crypto inst = false -> lot_remainder inst mv price < price)
  /\ (is_crypto inst = true ->
      lot_remainder inst mv price <= price * (1 # 2000000)).
Proof.
  intros Hmv Hp. unfold lot_remainder, lot_qty.
  set (u := mv / price).
  assert (Hu : u * price == mv) by (unfold u; field; lra).
  destruct (is_crypto inst).
  - pose proof (round6_near u) as R. apply Qabs_Qle_condition in R.
    set (q := round6 u) in *.
    destruct (Qle_bool q 0) eqn:E.
    + apply Qle_bool_iff in E.
      split; [lra |]. split; [discriminate |]. intros _.
      rewrite <- Hu. nra.
    + assert (Q0 : 0 < q).
      { apply Qnot_le_lt. intro L. apply Qle_bool_iff in L. congruence. }
      destruct (pymax_cases 0 (mv - q * price)) as [[L ->] | [L ->]].
      * split; [lra |]. split; [discriminate |]. intros _. nra.
      * split; [nra |]. split; [discriminate |]. intros _.
        rewrite <- Hu. nra.
  - pose proof (floorQ_le u) as F1. pose proof (floorQ_gt u) as F2.
    set (q := floorQ u) in *.
    destruct (Qle_bool q 0) eqn:E.
    + apply Qle_bool_iff in E.
      split; [lra |]. split; [| discriminate]. intros _.
      rewrite <- Hu. nra.
    + assert (Q0 : 0 < q).
      { apply Qnot_le_lt. intro L. apply Qle_bool_iff in L. congruence. }
      destruct (pymax_cases 0 (mv - q * price)) as [[L ->] | [L ->]].
      * split; [lra |]. split; [| discriminate]. intros _. lra.
      * split; [nra |]. split; [| discriminate]. intros _.
        rewrite <- Hu. nra.
Qed.

End Liquidation.

Section Engine.
Import Paper Scenarios.

(** C4, as amended.  After phase 1, an instrument held at a positive market
    value [mv] and absent from the target-weight map is left with what the lot
    rule cannot sell at the price quoted for it (always positive): nothing is
    sold when the quantity comes to zero, otherwise the holding drops to
    max(0, mv - qty * price).  The remainder lies in [0, mv]; it is below one
    unit's price for whole-unit instruments and at most 5e-7 of a unit's
    price for crypto. *)
Theorem off_plan_holding_is_sold_down_to_lot_remainder
        (oracle : Oracle) (target_w : dict Q) (st : Engine)
        (inst : string) (mv : Q) :
  wf (held st) ->
  dget inst (held st) = Some mv ->
  0 < mv ->
  dmem inst target_w = false ->
  exists n,
    let price := get_exec_price (oracle n) inst in
    let left_over := lot_remainder inst mv price in
    0 < price
    /\ dget inst (held (liquidate oracle target_w st)) = Some left_over
    /\ 0 <= left_over <= mv
    /\ (is_crypto inst = false -> left_over < price)
    /\ (is_crypto inst = true -> left_over <= price * (1 # 2000000)).
Proof.
  intros Hwf Hget Hpos Hoff.
  assert (Hin : In inst (keys (held st))).
  { apply dget_In in Hget. change inst with (fst (inst, mv)). now apply in_map. }
  destruct (fold_liquidate_self oracle target_w (keys (held st)) inst mv
                                Hwf Hin Hoff Hpos st Hget) as [n Hn].
  exists n. cbv zeta.
  pose proof (exec_price_pos (oracle n) inst) as Hprice.
  split; [exact Hprice |]. split; [exact Hn |].
  now apply lot_remainder_bounds.
Qed.

Lemma off_plan_holding_is_sold_down_to_lot_remainder_witness :
  wf [("AAPL", 500)]
  /\ 0 < 500
  /\ dmem "AAPL" (target_weights []) = false
  /\ exists n,
       dget "AAPL"
            (held (liquidate oracle_down (target_weights [])
                             (mkEngine 0 [("AAPL", 500)] [] 0%nat)))
       = Some (lot_remainder "AAPL" 500 (get_exec_price (oracle_down n) "AAPL")).
Proof.
  assert (Hwf : wf [("AAPL", 500)]).
  { unfold wf. simpl. constructor; [intros [] | constructor]. }
  assert (Hpos : 0 < 500) by reflexivity.
  split; [exact Hwf |]. split; [exact Hpos |]. split; [reflexivity |].
  destruct (off_plan_holding_is_sold_down_to_lot_remainder
              oracle_down (target_weights [])
              (mkEngine 0 [("AAPL", 500)] [] 0%nat) "AAPL" 500
              Hwf eq_refl Hpos eq_refl) as [n [_ [H _]]].
  exists n. exact H.
Defined.

(** C4 as stated fails.  A portfolio holding AAPL worth 500, an empty plan and
    the fallback price 230.10: phase 1 sells floor(500 / 230.10) = 2 units and
    AAPL keeps a market value of 39.80. *)
Lemma off_plan_holding_keeps_value :
  exists left_over,
    dget "AAPL" (positions portfolio_aapl_500) = Some 500
    /\ dmem "AAPL" (target_weights []) = false
    /\ get_exec_price (oracle_down 0%nat) "AAPL" == 230.10
    /\ dget "AAPL"
            (held (liquidate oracle_down (target_weights [])
                             (mkEngine (cash_eur portfolio_aapl_500)
                                       (positions portfolio_aapl_500) [] 0%nat)))
       = Some left_over
    /\ left_over == 39.80
    /\ 0 < left_over.
Proof.
  eexists.
  split; [reflexivity |]. split; [reflexivity |]. split; [reflexivity |].
  split; [vm_compute; reflexivity |].
  split; reflexivity.
Qed.

(** C9.  Scenario C: cash 1000, no positions, the plan {AAPL: 1.0} and AAPL
    quoted at 100.  One cycle buys 10 units: AAPL is the only position, worth
    1000, cash is 0, and the history records a NAV of 1000. *)
Theorem scenario_c_buys_ten_aapl :
  exists port execution,
    main oracle_aapl_100 portfolio_cash_1000 orders_all_aapl
    = (port, [execution])
    /\ keys (positions port) = ["AAPL"]
    /\ dget_or "AAPL" (positions port) 0 == 1000
    /\ cash_eur port == 0
    /\ map event (history port) = ["rebalance"]
    /\ Forall (fun h => nav h == 1000) (history port)
    /\ exec_instrument execution = "AAPL"
    /\ qty execution == 10
    /\ avg_fill execution == 100.
Proof.
  eexists. eexists.
  split; [vm_compute; reflexivity |].
  split; [reflexivity |]. split; [reflexivity |]. split; [reflexivity |].
  split; [reflexivity |].
  split; [repeat constructor |].
  split; [reflexivity |]. split; reflexivity.
Qed.

(** C2, evaluated.  Cash 1000, no positions, the plan {BTC: 1.0} and the
    fallback price 65000: the buy is capped at the cash, 1000, but the
    quantity round(1000 / 65000, 6) = 0.015385 rounds up, so 1000.025 is spent
    and the saved portfolio has cash -0.025.  Its recorded NAV still equals
    cash plus positions. *)
Theorem crypto_buy_overdraws_cash :
  exists port execution,
    main oracle_down portfolio_cash_1000 orders_all_btc = (port, [execution])
    /\ 0 <= cash_eur portfolio_cash_1000
    /\ qty execution == 0.015385
    /\ dget_or "BTC" (positions port) 0 == 1000.025
    /\ cash_eur port == - 0.025
    /\ cash_eur port < 0
    /\ Forall (fun h => nav h == cash_eur port + pysum (values (positions port)))
              (history port).
Proof.
  eexists. eexists.
  split; [vm_compute; reflexivity |].
  split; [discriminate |].
  split; [reflexivity |]. split; [reflexivity |]. split; [reflexivity |].
  split; [reflexivity |].
  repeat constructor.
Qed.

End Engine.

(* ------------------------------------------------------------------------- *)
(** ** The Paper Execution Engine: cash, NAV and the frame of phase 1 *)

Section Cycle.
Import Paper.

Variables (oracle : Oracle).

(** Phase 1 only adds to the cash. *)
Lemma liquidate_step_cash (target_w : dict Q) (st : Engine) (k : string) :
  cash st <= cash (liquidate_step oracle target_w st k).
Proof.
  unfold liquidate_step.
  destruct (dmem k target_w); [lra |].
  destruct (Qle_bool (dget_or k (held st) 0) 0); [lra |].
  cbn [cash held executions calls].
  destruct (Qle_bool (get_exec_price _ k) 0); [cbn [cash]; lra |].
  destruct (Qle_bool (lot_qty k _) 0) eqn:E; cbn [cash]; [lra |].
  assert (Q0 : 0 < lot_qty k (dget_or k (held st) 0
                              / get_exec_price (oracle (calls st)) k)).
  { apply Qnot_le_lt. intro L. apply Qle_bool_iff in L. congruence. }
  pose proof (exec_price_pos (oracle (calls st)) k) as P.
  nra.
Qed.

Lemma liquidate_cash (target_w : dict Q) (st : Engine) :
  cash st <= cash (liquidate oracle target_w st).
Proof.
  unfold liquidate.
  apply (fold_left_inv (fun st' => cash st <= cash st')); [| lra].
  intros st' k _ H. pose proof (liquidate_step_cash target_w st' k). lra.
Qed.

Lemma liquidate_step_on_plan (target_w : dict Q) (st : Engine) (k inst : string) :
  dmem inst target_w = true ->
  dget inst (held (liquidate_step oracle target_w st k)) = dget inst (held st).
Proof.
  intro Hon. destruct (string_dec inst k) as [-> | N].
  - unfold liquidate_step. now rewrite Hon.
  - now apply liquidate_step_other.
Qed.

(** X3.  Phase 1 is a frame for the plan's instruments: whatever is held of an
    instrument with a target weight is the same after the liquidation loop. *)
Theorem liquidate_keeps_on_plan_holdings
        (target_w : dict Q) (st : Engine) (inst : string) :
  dmem inst target_w = true ->
  dget inst (held (liquidate oracle target_w st)) = dget inst (held st).
Proof.
  intro Hon. unfold liquidate.
  apply (fold_left_inv
           (fun st' => dget inst (held st') = dget inst (held st)));
    [| reflexivity].
  intros st' k _ H. now rewrite liquidate_step_on_plan.
Qed.

(** A whole-unit trade in phase 2 never spends more than the cash. *)
Lemma rebalance_step_cash (nav : Q) (st : Engine) (inst : string) (tw : Q) :
  is_crypto inst = false ->
  0 <= cash st ->
  0 <= cash (rebalance_step oracle nav st (inst, tw)).
Proof.
  intros Hnc Hcash. unfold rebalance_step.
  cbn [cash held executions calls].
  pose proof (exec_price_pos (oracle (calls st)) inst) as P.
  set (price := get_exec_price (oracle (calls st)) inst) in *.
  destruct (Qle_bool price 0); [exact Hcash |].
  set (delta := nav * tw - dget_or inst (held st) 0).
  destruct (Qlt_bool (Qabs delta) (1 # 1000000)); [exact Hcash |].
  unfold lot_qty. rewrite Hnc. cbn [negb andb].
  destruct (Qlt_bool 0 delta).
  - set (buy_amt := pymin delta (cash st)).
    destruct (Qle_bool buy_amt 0); [exact Hcash |].
    destruct (Qle_bool (floorQ (buy_amt / price)) 0); [exact Hcash |].
    cbn [cash].
    assert (B : buy_amt <= cash st).
    { unfold buy_amt.
      destruct (pymin_cases delta (cash st)) as [[L ->] | [L ->]]; lra. }
    pose proof (floorQ_le (buy_amt / price)) as F.
    assert (U : buy_amt / price * price == buy_amt) by (field; lra).
    set (u := buy_amt / price) in *. nra.
  - set (sell_amt := pymin (- delta) (dget_or inst (held st) 0)).
    destruct (Qle_bool sell_amt 0); [exact Hcash |].
    destruct (Qle_bool (floorQ (sell_amt / price)) 0) eqn:E; [exact Hcash |].
    cbn [cash].
    assert (Q0 : 0 < floorQ (sell_amt / price)).
    { apply Qnot_le_lt. intro L. apply Qle_bool_iff in L. congruence. }
    nra.
Qed.

Lemma rebalance_cash (nav : Q) (target_w : dict Q) (st : Engine) :
  Forall (fun e => is_crypto (fst e) = false) target_w ->
  0 <= cash st ->
  0 <= cash (rebalance oracle nav target_w st).
Proof.
  intros Hnc Hcash. unfold rebalance.
  apply (fold_left_inv (fun st' => 0 <= cash st')); [| exact Hcash].
  intros st' [inst tw] Hin H. rewrite Forall_forall in Hnc.
  apply rebalance_step_cash; [exact (Hnc _ Hin) | exact H].
Qed.

(** X1.  When no target of the plan is a crypto instrument, a cycle that starts
    with non-negative cash ends with non-negative cash. *)
Theorem cash_stays_nonnegative_without_fractional_lots
        (port : Portfolio) (orders : list PlanOrder) :
  0 <= cash_eur port ->
  Forall (fun e => is_crypto (fst e) = false) (target_weights orders) ->
  0 <= cash_eur (fst (main oracle port orders)).
Proof.
  intros Hcash Hnc. unfold main. cbn [fst cash_eur].
  apply round6_nonneg. apply rebalance_cash; [exact Hnc |].
  pose proof (liquidate_cash (target_weights orders)
                (mkEngine (cash_eur port) (positions port) [] 0%nat)) as H.
  cbn [cash] in H. lra.
Qed.

End Cycle.

Section CycleWitnesses.
Import Paper.

Lemma cash_stays_nonnegative_without_fractional_lots_witness :
  0 <= cash_eur Scenarios.portfolio_cash_1000
  /\ Forall (fun e => is_crypto (fst e) = false)
            (target_weights Scenarios.orders_all_aapl)
  /\ 0 <= cash_eur (fst (main Scenarios.oracle_aapl_100
                              Scenarios.portfolio_cash_1000
                              Scenarios.orders_all_aapl)).
Proof.
  assert (Hcash : 0 <= cash_eur Scenarios.portfolio_cash_1000) by discriminate.
  assert (Hnc : Forall (fun e => is_crypto (fst e) = false)
                       (target_weights Scenarios.orders_all_aapl))
    by (repeat constructor).
  split; [exact Hcash |]. split; [exact Hnc |].
  exact (cash_stays_nonnegative_without_fractional_lots
           Scenarios.oracle_aapl_100 Scenarios.portfolio_cash_1000
           Scenarios.orders_all_aapl Hcash Hnc).
Defined.

Lemma liquidate_keeps_on_plan_holdings_witness :
  dmem "AAPL" (target_weights Scenarios.orders_all_aapl) = true
  /\ dget "AAPL"
          (held (liquidate Scenarios.oracle_down
                           (target_weights Scenarios.orders_all_aapl)
                           (mkEngine 0 [("AAPL", 500)] [] 0%nat)))
     = Some 500.
Proof.
  split; [reflexivity |].
  exact (liquidate_keeps_on_plan_holdings
           Scenarios.oracle_down (target_weights Scenarios.orders_all_aapl)
           (mkEngine 0 [("AAPL", 500)] [] 0%nat) "AAPL" eq_refl).
Defined.

End CycleWitnesses.

(* ------------------------------------------------------------------------- *)
(** ** common/risk/risk.py: bands and concentration *)

Section RiskFacts.
Import Risk.

Lemma within_band_iff (current target band : Q) :
  within_band current target band = true
  <-> target - band <= current /\ current <= target + band.
Proof.
  unfold within_band. rewrite andb_true_iff, !Qle_bool_iff. tauto.
Qed.

Lemma Qlt_bool_false_iff (a b : Q) : Qlt_bool a b = false <-> b <= a.
Proof.
  unfold Qlt_bool. rewrite negb_false_iff. apply Qle_bool_iff.
Qed.

(** X4.  For a band that is not negative, [clamp_to_bands] returns the point
    of [target - band, target + band] nearest to [current]: the result is
    within the band, it is [current] itself when [current] is within the
    band, and no value within the band is closer to [current]. *)
Theorem clamp_to_bands_is_nearest_in_band (current target band : Q) :
  0 <= band ->
  within_band (clamp_to_bands current target band) target band = true
  /\ (within_band current target band = true ->
      clamp_to_bands current target band = current)
  /\ forall x, within_band x target band = true ->
               Qabs (clamp_to_bands current target band - current)
               <= Qabs (x - current).
Proof.
  intro Hb. unfold clamp_to_bands.
  destruct (Qlt_bool current (target - band)) eqn:E1.
  - apply Qlt_bool_iff in E1. split; [| split].
    + apply within_band_iff. lra.
    + intro W. apply within_band_iff in W. lra.
    + intros x W. apply within_band_iff in W.
      rewrite !Qabs_pos by lra. lra.
  - apply Qlt_bool_false_iff in E1.
    destruct (Qlt_bool (target + band) current) eqn:E2.
    + apply Qlt_bool_iff in E2. split; [| split].
      * apply within_band_iff. lra.
      * intro W. apply within_band_iff in W. lra.
      * intros x W. apply within_band_iff in W.
        rewrite !Qabs_neg by lra. lra.
    + apply Qlt_bool_false_iff in E2. split; [| split].
      * apply within_band_iff. lra.
      * reflexivity.
      * intros x _. setoid_replace (current - current) with 0 by ring.
        apply Qabs_nonneg.
Qed.

Lemma clamp_to_bands_is_nearest_in_band_witness :
  0 <= 0.05
  /\ within_band (clamp_to_bands 0.7 0.6 0.05) 0.6 0.05 = true.
Proof.
  assert (Hb : 0 <= 0.05) by discriminate.
  split; [exact Hb |].
  exact (proj1 (clamp_to_bands_is_nearest_in_band 0.7 0.6 0.05 Hb)).
Defined.

Lemma sq_pow (x : Q) : x ^ 2 == x * x.
Proof. reflexivity. Qed.

(** Sums of squares of shares, written on the list of values. *)
Lemma pysum_map_ext (f g : Q -> Q) (xs : list Q) :
  (forall x, f x == g x) ->
  pysum (map f xs) == pysum (map g xs).
Proof.
  intro H. induction xs as [| x xs IH]; [reflexivity |].
  simpl map. rewrite !pysum_cons, IH, H. reflexivity.
Qed.

Lemma pysum_sq_shift (a : Q) (xs : list Q) :
  pysum (map (fun x => (x - a) * (x - a)) xs)
  == pysum (map (fun x => x * x) xs) - 2 * a * pysum xs
     + inject_Z (Z.of_nat (List.length xs)) * (a * a).
Proof.
  induction xs as [| x xs IH].
  - change (0 == 0 - 2 * a * 0 + 0 * (a * a)). ring.
  - simpl map. rewrite !pysum_cons, IH.
    change (List.length (x :: xs)) with (S (List.length xs)).
    rewrite Nat2Z.inj_succ, <- Z.add_1_r, inject_Z_plus.
    change (inject_Z 1) with 1. ring.
Qed.

Lemma pysum_sq_nonneg (f : Q -> Q) (xs : list Q) :
  0 <= pysum (map (fun x => f x * f x) xs).
Proof.
  induction xs as [| x xs IH]; [discriminate |].
  simpl map. rewrite pysum_cons. set (y := f x). nra.
Qed.

(** Shares that are non-negative and sum to 1 have squares that sum to at
    most 1. *)
Lemma pysum_sq_le_sum (xs : list Q) :
  Forall (Qle 0) xs ->
  pysum (map (fun x => x * x) xs) <= pysum xs * pysum xs.
Proof.
  induction 1 as [| x xs Hx Hxs IH]; [discriminate |].
  simpl map. rewrite !pysum_cons. pose proof (pysum_nonneg xs Hxs) as S.
  nra.
Qed.

(** X7.  The concentration index of [simple_portfolio_metrics]: for
    positions worth a positive total it is at least 1/n for n positions, and
    at most 1 when no position is negative; for a total that is not positive
    it is 0.0.  The gross value is the sum of the positions. *)
Theorem hhi_bounds (positions : dict Q) :
  let m := simple_portfolio_metrics positions in
  gross_value m = pysum (values positions)
  /\ (gross_value m <= 0 -> hhi m = 0)
  /\ (0 < gross_value m ->
      1 <= inject_Z (Z.of_nat (List.length positions)) * hhi m
      /\ (Forall (Qle 0) (values positions) -> hhi m <= 1)).
Proof.
  cbv zeta. unfold simple_portfolio_metrics. cbn [gross_value hhi].
  set (total := pysum (values positions)).
  split; [reflexivity |]. split.
  - intro H. apply Qlt_bool_false_iff in H. now rewrite H.
  - intro Hpos. pose proof Hpos as Hb. apply Qlt_bool_iff in Hb. rewrite Hb.
    set (shares := map (fun v => v / total) (values positions)).
    assert (Hsq : pysum (map (fun v => (v / total) ^ 2) (values positions))
                  == pysum (map (fun x => x * x) shares)).
    { unfold shares. rewrite map_map. apply pysum_map_ext.
      intro x. apply sq_pow. }
    assert (Hone : pysum shares == 1).
    { unfold shares, total. apply pysum_div_self. fold total. lra. }
    assert (Hlen : List.length shares = List.length positions).
    { unfold shares, values. now rewrite !length_map. }
    rewrite Hsq. split.
    + set (n := inject_Z (Z.of_nat (List.length positions))).
      assert (Hn : 1 <= n \/ List.length positions = 0%nat).
      { destruct positions as [| e t]; [now right | left].
        unfold n. change 1 with (inject_Z 1). rewrite <- Zle_Qle.
        simpl List.length. lia. }
      destruct Hn as [Hn | Hn].
      * pose proof (pysum_sq_shift (/ n) shares) as Sh.
        pose proof (pysum_sq_nonneg (fun x => x - / n) shares) as Nn.
        rewrite Sh, Hone, Hlen in Nn. fold n in Nn.
        assert (Hinv : n * / n == 1) by (field; lra).
        set (q := pysum (map (fun x => x * x) shares)) in *.
        set (i := / n) in *. nra.
      * exfalso. destruct positions; [| discriminate].
        unfold total in Hpos. vm_compute in Hpos. discriminate.
    + intro Hnn.
      assert (Hs : Forall (Qle 0) shares).
      { unfold shares. apply Forall_map. revert Hnn. apply Forall_impl.
        intros v Hv. apply Qle_shift_div_l; [exact Hpos | lra]. }
      pose proof (pysum_sq_le_sum shares Hs) as L. rewrite Hone in L. lra.
Qed.

End RiskFacts.

(* ------------------------------------------------------------------------- *)
(** ** Instrument ids: [strip] and [upper] *)

Section StringFacts.
Import PyStr.

Lemma upper_ascii_idem (c : ascii) : upper_ascii (upper_ascii c) = upper_ascii c.
Proof. destruct c as [[] [] [] [] [] [] [] []]; reflexivity. Qed.

Lemma is_space_upper_ascii (c : ascii) : is_space (upper_ascii c) = is_space c.
Proof. destruct c as [[] [] [] [] [] [] [] []]; reflexivity. Qed.

Lemma lstrip_map_upper (l : list ascii) :
  lstrip (map upper_ascii l) = map upper_ascii (lstrip l).
Proof.
  induction l as [| c l IH]; [reflexivity |].
  simpl. rewrite is_space_upper_ascii. destruct (is_space c); [exact IH |].
  reflexivity.
Qed.

Lemma lstrip_idem (l : list ascii) : lstrip (lstrip l) = lstrip l.
Proof.
  induction l as [| c l IH]; [reflexivity |].
  simpl. destruct (is_space c) eqn:E; [exact IH |].
  simpl. now rewrite E.
Qed.

Lemma lstrip_snoc (l : list ascii) (c : ascii) :
  is_space c = false -> lstrip (l ++ [c]) = (lstrip l ++ [c])%list.
Proof.
  intro N. induction l as [| d l IH]; simpl.
  - now rewrite N.
  - destruct (is_space d); [exact IH | reflexivity].
Qed.

Lemma rstrip_idem (l : list ascii) : rstrip (rstrip l) = rstrip l.
Proof.
  unfold rstrip. now rewrite rev_involutive, lstrip_idem.
Qed.

Lemma rstrip_cons_nonspace (c : ascii) (t : list ascii) :
  is_space c = false -> rstrip (c :: t) = c :: rstrip t.
Proof.
  intro N. unfold rstrip. simpl rev. rewrite (lstrip_snoc _ _ N).
  rewrite rev_app_distr. reflexivity.
Qed.

Lemma lstrip_rstrip_lstrip (l : list ascii) :
  lstrip (rstrip (lstrip l)) = rstrip (lstrip l).
Proof.
  induction l as [| c l IH]; [reflexivity |].
  simpl lstrip at 2 3. destruct (is_space c) eqn:E; [exact IH |].
  rewrite (rstrip_cons_nonspace _ _ E). simpl. now rewrite E.
Qed.

Lemma strip_list (s : string) :
  list_ascii_of_string (strip s)
  = rstrip (lstrip (list_ascii_of_string s)).
Proof.
  unfold strip. now rewrite list_ascii_of_string_of_list_ascii.
Qed.

Lemma strip_idem (s : string) : strip (strip s) = strip s.
Proof.
  unfold strip at 1. rewrite strip_list.
  fold (rstrip (lstrip (rstrip (lstrip (list_ascii_of_string s))))).
  rewrite lstrip_rstrip_lstrip, rstrip_idem. reflexivity.
Qed.

Lemma upper_idem (s : string) : upper (upper s) = upper s.
Proof.
  unfold upper. rewrite list_ascii_of_string_of_list_ascii, map_map.
  f_equal. apply map_ext. intro c. apply upper_ascii_idem.
Qed.

Lemma strip_upper (s : string) : strip (upper s) = upper (strip s).
Proof.
  unfold strip, upper. rewrite !list_ascii_of_string_of_list_ascii.
  f_equal. rewrite lstrip_map_upper, <- map_rev, lstrip_map_upper, map_rev.
  reflexivity.
Qed.

(** Normalising an instrument id twice is normalising it once. *)
Lemma normalise_idem (s : string) :
  upper (strip (upper (strip s))) = upper (strip s).
Proof.
  now rewrite strip_upper, upper_idem, strip_idem.
Qed.

End StringFacts.

(* ------------------------------------------------------------------------- *)
(** ** The Paper Execution Engine: the target-weight map *)

Section TargetWeights.
Import Paper.

Lemma target_step_skip (d : dict Q) (o : PlanOrder) :
  order_key o = "" -> target_step d o = d.
Proof.
  intro E. unfold target_step. fold (normalise
    (match instrument_id o with Some s => s | None => "" end)).
  fold (order_key o). now rewrite E.
Qed.

Lemma target_step_set (d : dict Q) (o : PlanOrder) :
  order_key o <> "" ->
  target_step d o
  = dset (order_key o)
         (pymax (order_weight o) (dget_or (order_key o) d 0)) d.
Proof.
  intro N. unfold target_step. fold (normalise
    (match instrument_id o with Some s => s | None => "" end)).
  fold (order_key o). fold (order_weight o).
  destruct (String.eqb_spec (order_key o) ""); [contradiction | reflexivity].
Qed.

Lemma target_weights_snoc (l : list PlanOrder) (o : PlanOrder) :
  target_weights (l ++ [o]) = target_step (target_weights l) o.
Proof.
  unfold target_weights. now rewrite fold_left_app.
Qed.

Lemma order_key_normalised (o : PlanOrder) : normalise (order_key o) = order_key o.
Proof. unfold order_key, normalise. apply normalise_idem. Qed.

(** X8.  The target-weight map the engine builds from the plan's orders.
    Its keys are distinct, non-empty and normalised (stripped, upper case);
    each comes from an order and carries the largest target weight of the
    orders with that key, or 0.0 when they are all negative, so no weight is
    negative; every order with a non-empty key is covered by an entry at least
    as large as its weight.  A holding whose key is not normalised therefore
    never counts as on-plan. *)
Theorem target_weights_are_normalised_maxima (orders : list PlanOrder) :
  wf (target_weights orders)
  /\ (forall k w, dget k (target_weights orders) = Some w ->
        k <> "" /\ normalise k = k /\ 0 <= w
        /\ (exists o, In o orders /\ order_key o = k)
        /\ (w = 0 \/ exists o, In o orders /\ order_key o = k
                                /\ order_weight o = w))
  /\ (forall o, In o orders -> order_key o <> "" ->
        exists w, dget (order_key o) (target_weights orders) = Some w
                  /\ order_weight o <= w)
  /\ (forall inst, normalise inst <> inst ->
        dmem inst (target_weights orders) = false).
Proof.
  assert (Main :
    wf (target_weights orders)
    /\ (forall k w, dget k (target_weights orders) = Some w ->
          k <> "" /\ normalise k = k /\ 0 <= w
          /\ (exists o, In o orders /\ order_key o = k)
          /\ (w = 0 \/ exists o, In o orders /\ order_key o = k
                                  /\ order_weight o = w))
    /\ (forall o, In o orders -> order_key o <> "" ->
          exists w, dget (order_key o) (target_weights orders) = Some w
                    /\ order_weight o <= w)).
  { induction orders as [| o l IH] using rev_ind.
    - split; [constructor |]. split; [discriminate | intros o []].
    - destruct IH as [Hwf [Hent Hcov]]. rewrite target_weights_snoc.
      set (d := target_weights l) in *.
      destruct (string_dec (order_key o) "") as [E | N].
      + rewrite (target_step_skip _ _ E). split; [exact Hwf |]. split.
        * intros k w Hk. destruct (Hent k w Hk) as [A [B [C [[o1 [I1 K1]] D]]]].
          split; [exact A |]. split; [exact B |]. split; [exact C |]. split.
          -- exists o1. split; [apply in_or_app; now left | exact K1].
          -- destruct D as [D | [o2 [I2 [K2 W2]]]]; [now left | right].
             exists o2. split; [apply in_or_app; now left | auto].
        * intros o1 I1 N1. apply in_app_or in I1. destruct I1 as [I1 | [<- | []]].
          -- now apply Hcov.
          -- contradiction.
      + rewrite (target_step_set _ _ N).
        set (old := dget_or (order_key o) d 0).
        assert (Hold : 0 <= old
                       /\ (old = 0 \/ exists o2, In o2 l /\ order_key o2 = order_key o
                                                 /\ order_weight o2 = old)).
        { unfold old, dget_or.
          destruct (dget (order_key o) d) as [w0 |] eqn:G.
          - destruct (Hent _ _ G) as [_ [_ [C [_ D]]]]. auto.
          - split; [discriminate | now left]. }
        destruct Hold as [Hold0 Hold1].
        split; [now apply wf_dset |]. split.
        * intros k w Hk. destruct (string_dec k (order_key o)) as [-> | Nk].
          -- rewrite dget_dset_same in Hk. injection Hk as <-.
             split; [exact N |]. split; [apply order_key_normalised |].
             split; [| split].
             ++ destruct (pymax_cases (order_weight o) old) as [[L ->] | [L ->]]; lra.
             ++ exists o. split; [apply in_or_app; right; now left | reflexivity].
             ++ destruct (pymax_cases (order_weight o) old) as [[L ->] | [L ->]].
                ** right. exists o.
                   split; [apply in_or_app; right; now left | auto].
                ** destruct Hold1 as [Z | [o2 [I2 [K2 W2]]]]; [now left | right].
                   exists o2. split; [apply in_or_app; now left | auto].
          -- rewrite dget_dset_other in Hk by exact Nk.
             destruct (Hent k w Hk) as [A [B [C [[o1 [I1 K1]] D]]]].
             split; [exact A |]. split; [exact B |]. split; [exact C |]. split.
             ++ exists o1. split; [apply in_or_app; now left | exact K1].
             ++ destruct D as [D | [o2 [I2 [K2 W2]]]]; [now left | right].
                exists o2. split; [apply in_or_app; now left | auto].
        * intros o1 I1 N1.
          destruct (string_dec (order_key o1) (order_key o)) as [E1 | N2].
          -- rewrite E1, dget_dset_same. eexists. split; [reflexivity |].
             apply in_app_or in I1. destruct I1 as [I1 | [<- | []]].
             ++ destruct (Hcov o1 I1 N1) as [w1 [G1 L1]]. rewrite E1 in G1.
                assert (Eo : old = w1) by (unfold old, dget_or; now rewrite G1).
                rewrite <- Eo in L1.
                destruct (pymax_cases (order_weight o) old) as [[L ->] | [L ->]]; lra.
             ++ destruct (pymax_cases (order_weight o) old) as [[L ->] | [L ->]]; lra.
          -- rewrite dget_dset_other by exact N2.
             apply in_app_or in I1. destruct I1 as [I1 | [<- | []]].
             ++ now apply Hcov.
             ++ contradiction. }
  destruct Main as [Hwf [Hent Hcov]].
  split; [exact Hwf |]. split; [exact Hent |]. split; [exact Hcov |].
  intros inst Hn. unfold dmem.
  destruct (dget inst (target_weights orders)) as [w |] eqn:G; [| reflexivity].
  destruct (Hent _ _ G) as [_ [B _]]. contradiction.
Qed.

End TargetWeights.

(* ------------------------------------------------------------------------- *)
(** ** The Plan Builder: shape of the plan *)

Section PlanShape.

Lemma round_half_even_le (q : Q) (z : Z) :
  q <= inject_Z z -> (round_half_even q <= z)%Z.
Proof.
  intro H. unfold round_half_even.
  pose proof (Qfloor_resp_le _ _ H) as F. rewrite Qfloor_Z in F.
  destruct (Z.eq_dec (Qfloor q) z) as [E | N].
  - assert (L : q - inject_Z (Qfloor q) < 1 # 2) by (rewrite E; lra).
    destruct (Qcompare_spec (q - inject_Z (Qfloor q)) (1 # 2)) as [C | C | C];
      [lra | lia | lra].
  - destruct (Qcompare _ _); [destruct (Z.even _) | |]; lia.
Qed.

Lemma round6_le_one (x : Q) : x <= 1 -> round6 x <= 1.
Proof.
  intro H. unfold round6.
  assert (R : (round_half_even (x * 1000000) <= 1000000)%Z).
  { apply round_half_even_le. change (inject_Z 1000000) with 1000000. lra. }
  apply Qle_shift_div_r; [reflexivity |].
  rewrite Zle_Qle in R. change (inject_Z 1000000) with 1000000 in R. lra.
Qed.

Lemma pysum_ge_each (xs : list Q) (v : Q) :
  Forall (Qle 0) xs -> In v xs -> v <= pysum xs.
Proof.
  induction 1 as [| x xs Hx Hxs IH]; intros Hin; [contradiction |].
  rewrite pysum_cons. pose proof (pysum_nonneg xs Hxs).
  destruct Hin as [-> | Hin]; [lra | specialize (IH Hin); lra].
Qed.

Lemma pysum_le_each (xs : list Q) (v : Q) :
  Forall (fun x => x <= 0) xs -> In v xs -> pysum xs <= v.
Proof.
  induction 1 as [| x xs Hx Hxs IH]; intros Hin; [contradiction |].
  rewrite pysum_cons.
  assert (S : pysum xs <= 0).
  { clear IH Hin. induction Hxs as [| y ys Hy _ IHy]; [discriminate |].
    rewrite pysum_cons. lra. }
  destruct Hin as [-> | Hin]; [lra | specialize (IH Hin); lra].
Qed.

Lemma ratio_in_unit (v s : Q) :
  (0 <= v /\ v <= s /\ 0 < s) \/ (s <= v /\ v <= 0 /\ s < 0) ->
  0 <= v / s <= 1.
Proof.
  intros [[A [B C]] | [A [B C]]].
  - split; [apply Qle_shift_div_l | apply Qle_shift_div_r]; lra.
  - assert (E : v / s == (- v) / (- s)) by (field; lra).
    rewrite E. split; [apply Qle_shift_div_l | apply Qle_shift_div_r]; lra.
Qed.

(** Whatever the cap, even zero or negative, capping and renormalising
    shares (non-negative, none above 1) gives shares again. *)
Lemma cap_position_weights_unit (weights : dict Q) (max_pct : Q) :
  Forall (fun w => 0 <= w <= 1) (values weights) ->
  Forall (fun w => 0 <= w <= 1)
         (values (Risk.cap_position_weights weights max_pct)).
Proof.
  intro H. unfold Risk.cap_position_weights.
  set (capped := dmap (fun w => pymin w max_pct) weights).
  assert (Hc : values capped = map (fun w => pymin w max_pct) (values weights)).
  { unfold capped. apply values_dmap. }
  destruct (Qlt_le_dec max_pct 0) as [Neg | Pos].
  - (* a negative cap: every capped weight is the cap *)
    assert (All : Forall (fun x => x <= 0) (values capped)).
    { rewrite Hc. apply Forall_map. revert H. apply Forall_impl.
      intros w [Hw _]. destruct (pymin_cases w max_pct) as [[L ->] | [L ->]]; lra. }
    assert (Lt : forall v, In v (values capped) -> v < 0).
    { intros v Hv. rewrite Hc in Hv. apply in_map_iff in Hv.
      destruct Hv as [w [<- Hw]]. rewrite Forall_forall in H.
      destruct (H _ Hw) as [W0 _].
      destruct (pymin_cases w max_pct) as [[L ->] | [L ->]]; lra. }
    destruct (Qeq_bool (pysum (values capped)) 0) eqn:E.
    + apply Qeq_bool_iff in E. apply Forall_forall. intros v Hv. exfalso.
      pose proof (pysum_le_each _ _ All Hv). pose proof (Lt _ Hv). lra.
    + rewrite values_dmap. apply Forall_map. apply Forall_forall.
      intros v Hv. apply ratio_in_unit. right.
      pose proof (pysum_le_each _ _ All Hv). pose proof (Lt _ Hv). lra.
  - assert (All : Forall (Qle 0) (values capped)).
    { rewrite Hc. apply Forall_map. revert H. apply Forall_impl.
      intros w [Hw _]. destruct (pymin_cases w max_pct) as [[L ->] | [L ->]]; lra. }
    destruct (Qeq_bool (pysum (values capped)) 0) eqn:E.
    + rewrite Hc. apply Forall_map. revert H. apply Forall_impl.
      intros w [W0 W1].
      destruct (pymin_cases w max_pct) as [[L ->] | [L ->]]; lra.
    + assert (Ne : ~ pysum (values capped) == 0).
      { intro Z. apply Qeq_bool_iff in Z. congruence. }
      rewrite values_dmap. apply Forall_map. apply Forall_forall.
      intros v Hv. apply ratio_in_unit. left.
      pose proof (pysum_ge_each _ _ All Hv) as G.
      pose proof (pysum_nonneg _ All) as S.
      rewrite Forall_forall in All. pose proof (All _ Hv). lra.
Qed.

Lemma clamp01_unit (w : Q) : 0 <= clamp01 w <= 1.
Proof.
  unfold clamp01.
  destruct (pymin_cases 1 w) as [[L1 E1] | [L1 E1]]; rewrite E1;
    destruct (pymax_cases 0 1) as [[L2 E2] | [L2 E2]];
    destruct (pymax_cases 0 w) as [[L3 E3] | [L3 E3]];
    rewrite ?E2, ?E3; lra.
Qed.

Lemma class_plan_of_unit target_alloc pos_max cls (insts : dict Q) :
  nonneg_dict insts -> 0 < pysum (values insts) ->
  Forall (fun w => 0 <= w <= 1)
         (values (class_plan_of target_alloc pos_max cls insts)).
Proof.
  intros Hnn Hs. unfold class_plan_of. rewrite values_dmap. apply Forall_map.
  set (intra := dmap (fun v => v / pysum (values insts)) insts).
  assert (Hi : Forall (fun w => 0 <= w <= 1) (values intra)).
  { unfold intra. rewrite values_dmap. apply Forall_map. apply Forall_forall.
    intros v Hv. apply ratio_in_unit. left.
    pose proof (pysum_ge_each _ _ Hnn Hv). unfold nonneg_dict in Hnn.
    rewrite Forall_forall in Hnn. pose proof (Hnn _ Hv). lra. }
  pose proof (cap_position_weights_unit intra pos_max Hi) as Hc.
  revert Hc. apply Forall_impl. intros w [W0 W1].
  pose proof (clamp01_unit (dget_or cls target_alloc 0)) as [C0 C1].
  set (cw := clamp01 (dget_or cls target_alloc 0)) in *.
  split; [apply round6_nonneg | apply round6_le_one]; nra.
Qed.

Lemma group_step_tagged (by_class : dict (dict Q)) (s : Signal) :
  Forall class_tagged by_class -> Forall class_tagged (group_step by_class s).
Proof.
  intro H. unfold group_step.
  set (cls := infer_class (instrument_id s)).
  assert (H' : Forall class_tagged (setdefault cls [] by_class)).
  { apply Forall_setdefault; [| exact H]. split; [constructor | intros i []]. }
  set (bc := setdefault cls [] by_class) in *.
  assert (Hi : class_tagged (cls, dget_or cls bc [])).
  { unfold dget_or. destruct (dget cls bc) as [insts |] eqn:E.
    - exact (Forall_dget _ _ _ _ H' E).
    - split; [constructor | intros i []]. }
  apply Forall_dset; [| exact H']. destruct Hi as [W T]. split; cbn [fst snd] in *.
  - now apply wf_dset.
  - intros i Hin. apply keys_dset_In in Hin. destruct Hin as [-> | Hin]; auto.
Qed.

Lemma group_signals_tagged (signals : list Signal) :
  Forall class_tagged (group_signals signals).
Proof.
  unfold group_signals. apply (fold_left_inv (fun bc => Forall class_tagged bc)).
  - intros a x _. apply group_step_tagged.
  - constructor.
Qed.

Lemma plan_loop_wf target_alloc pos_max (by_class : dict (dict Q)) :
  wf (classes (plan_loop target_alloc pos_max by_class)).
Proof.
  unfold plan_loop. apply (fold_left_inv (fun p => wf (classes p))).
  - intros plan [cls insts] _ Hw.
    destruct (plan_step_cases target_alloc pos_max plan cls insts) as [E | Hp].
    + now rewrite E.
    + rewrite (plan_step_planned _ _ _ _ _ Hp). cbn [classes]. now apply wf_dset.
  - constructor.
Qed.

(** Instruments of distinct classes are distinct, so reading class after
    class never meets an instrument twice. *)
Lemma tagged_keys_NoDup (l : dict (dict Q)) :
  wf l -> Forall class_tagged l -> NoDup (flat_map (fun e => keys (snd e)) l).
Proof.
  unfold wf. induction l as [| [c d] l IH]; intros ND T; [constructor |].
  simpl in ND. inversion ND as [| ? ? NI ND']; subst.
  inversion T as [| ? ? [W Tc] T']; subst. cbn [flat_map snd fst] in *.
  apply NoDup_app; [exact W | now apply IH |].
  intros i Hi Hrest. apply in_flat_map in Hrest.
  destruct Hrest as [[c' d'] [He Hi']]. rewrite Forall_forall in T'.
  destruct (T' _ He) as [_ Tc']. cbn [fst snd] in *.
  apply NI. rewrite <- (Tc _ Hi), (Tc' _ Hi').
  change c' with (fst (c', d')). now apply in_map.
Qed.

End PlanShape.

Section PlanTheorems.
Import Scenarios.

Lemma build_plan_inv (strategy : Strategy) (signals : list Signal) (plan : Plan) :
  build_plan strategy signals = Some plan ->
  exists pos_max,
    plan = plan_loop (target_alloc_of strategy) pos_max (group_signals signals).
Proof.
  unfold build_plan. destruct (position_max_pct strategy) as [pos_max |];
    [| discriminate].
  intro H. injection H as <-. now exists pos_max.
Qed.

Lemma plan_loop_orders target_alloc pos_max (by_class : dict (dict Q)) :
  wf by_class ->
  orders (plan_loop target_alloc pos_max by_class)
  = orders_of_classes (classes (plan_loop target_alloc pos_max by_class)).
Proof.
  intro W. unfold plan_loop. apply fold_step_orders_follow_classes.
  - exact W.
  - intros k [].
  - reflexivity.
Qed.

Lemma orders_of_classes_instruments (cl : dict (dict Q)) :
  map order_instrument (orders_of_classes cl)
  = flat_map (fun e => keys (snd e)) cl.
Proof.
  unfold orders_of_classes. induction cl as [| e cl IH]; [reflexivity |].
  cbn [flat_map]. rewrite map_app, IH. f_equal.
  unfold keys. rewrite map_map. reflexivity.
Qed.

Lemma plan_loop_entry target_alloc pos_max (signals : list Signal) cls cp :
  In (cls, cp) (classes (plan_loop target_alloc pos_max (group_signals signals))) ->
  exists insts,
    In (cls, insts) (group_signals signals)
    /\ nonneg_dict insts /\ 0 < pysum (values insts)
    /\ class_tagged (cls, insts)
    /\ cp = class_plan_of target_alloc pos_max cls insts.
Proof.
  intro Hin.
  pose proof (plan_loop_planned target_alloc pos_max (group_signals signals)) as P.
  rewrite Forall_forall in P. destruct (P _ Hin) as [insts [I [[_ S] E]]].
  cbn [fst snd] in *. exists insts.
  pose proof (group_signals_nonneg signals) as N. rewrite Forall_forall in N.
  pose proof (group_signals_tagged signals) as T. rewrite Forall_forall in T.
  split; [exact I |]. split; [exact (N _ I) |]. split; [exact S |].
  split; [exact (T _ I) | exact E].
Qed.

Lemma plan_classes_unit
      (strategy : Strategy) (signals : list Signal) (plan : Plan) :
  build_plan strategy signals = Some plan ->
  forall cls class_plan,
    In (cls, class_plan) (classes plan) ->
    Forall (fun w => 0 <= w <= 1) (values class_plan).
Proof.
  intro Hb. destruct (build_plan_inv _ _ _ Hb) as [pos_max ->].
  intros cls cp Hin.
  destruct (plan_loop_entry _ _ _ _ _ Hin) as [insts [_ [N [S [_ ->]]]]].
  now apply class_plan_of_unit.
Qed.

Lemma plan_orders_unit
      (strategy : Strategy) (signals : list Signal) (plan : Plan) :
  build_plan strategy signals = Some plan ->
  Forall (fun o => 0 <= target_weight o <= 1) (orders plan).
Proof.
  intro Hb. pose proof (plan_classes_unit _ _ _ Hb) as C.
  destruct (build_plan_inv _ _ _ Hb) as [pos_max ->].
  rewrite plan_loop_orders by apply group_signals_wf.
  unfold orders_of_classes. apply Forall_forall. intros o Ho.
  apply in_flat_map in Ho. destruct Ho as [[cls cp] [He Ho]].
  apply in_map_iff in Ho. destruct Ho as [kv [<- Hkv]].
  specialize (C _ _ He). rewrite Forall_forall in C. cbn [snd] in Hkv.
  apply (C (snd kv)). unfold values. now apply in_map.
Qed.

(** X9.  Every weight of a plan is a share: each instrument weight in
    [plan.classes] and each order's target weight lies in [0, 1], whatever
    the policy's targets and position cap (a zero or negative cap
    included). *)
Theorem plan_weights_in_unit_interval
        (strategy : Strategy) (signals : list Signal) (plan : Plan) :
  build_plan strategy signals = Some plan ->
  (forall cls class_plan,
      In (cls, class_plan) (classes plan) ->
      Forall (fun w => 0 <= w <= 1) (values class_plan))
  /\ Forall (fun o => 0 <= target_weight o <= 1) (orders plan).
Proof.
  intro Hb. split; [now apply (plan_classes_unit strategy signals)
                   | now apply (plan_orders_unit strategy signals)].
Qed.

Lemma plan_weights_in_unit_interval_witness :
  build_plan policy_60_40 signals_aapl = Some plan_aapl_060
  /\ Forall (fun o => 0 <= target_weight o <= 1) (orders plan_aapl_060).
Proof.
  assert (Hb : build_plan policy_60_40 signals_aapl = Some plan_aapl_060)
    by (vm_compute; reflexivity).
  split; [exact Hb |].
  exact (proj2 (plan_weights_in_unit_interval _ _ _ Hb)).
Defined.

Lemma plan_classes_tagged
      (strategy : Strategy) (signals : list Signal) (plan : Plan) :
  build_plan strategy signals = Some plan ->
  wf (classes plan) /\ Forall class_tagged (classes plan).
Proof.
  intro Hb. destruct (build_plan_inv _ _ _ Hb) as [pos_max ->].
  split; [apply plan_loop_wf |].
  apply Forall_forall. intros [cls cp] Hin.
  destruct (plan_loop_entry _ _ _ _ _ Hin) as [insts [_ [_ [_ [[Wi Ti] ->]]]]].
  cbn [fst snd] in *. unfold class_tagged. cbn [fst snd].
  unfold wf. rewrite keys_class_plan_of. split; [exact Wi | exact Ti].
Qed.

Lemma plan_orders_NoDup
      (strategy : Strategy) (signals : list Signal) (plan : Plan) :
  build_plan strategy signals = Some plan ->
  NoDup (map order_instrument (orders plan)).
Proof.
  intro Hb. destruct (plan_classes_tagged _ _ _ Hb) as [W T].
  destruct (build_plan_inv _ _ _ Hb) as [pos_max ->].
  rewrite plan_loop_orders by apply group_signals_wf.
  rewrite orders_of_classes_instruments. now apply tagged_keys_NoDup.
Qed.

(** X10.  A plan lists every instrument once: the classes of [plan.classes]
    are distinct, each holds distinct instruments, every instrument sits under
    the class [infer_class] gives it, and no two orders name the same
    instrument. *)
Theorem plan_lists_each_instrument_once
        (strategy : Strategy) (signals : list Signal) (plan : Plan) :
  build_plan strategy signals = Some plan ->
  wf (classes plan)
  /\ Forall class_tagged (classes plan)
  /\ NoDup (map order_instrument (orders plan)).
Proof.
  intro Hb. destruct (plan_classes_tagged _ _ _ Hb) as [W T].
  split; [exact W |]. split; [exact T |].
  now apply (plan_orders_NoDup strategy signals).
Qed.

Lemma plan_lists_each_instrument_once_witness :
  build_plan policy_60_40 signals_aapl_btc
  = Some plan_aapl_btc
  /\ NoDup (map order_instrument (orders plan_aapl_btc)).
Proof.
  assert (Hb : build_plan policy_60_40 signals_aapl_btc = Some plan_aapl_btc)
    by (vm_compute; reflexivity).
  split; [exact Hb |].
  exact (proj2 (proj2 (plan_lists_each_instrument_once _ _ _ Hb))).
Defined.

Lemma group_signals_keys (P : string -> Prop) (signals : list Signal) :
  Forall (fun s => P (instrument_id s)) signals ->
  Forall (fun e => forall i, In i (keys (snd e)) -> P i) (group_signals signals).
Proof.
  intro H. unfold group_signals.
  apply (fold_left_inv
           (fun bc => Forall (fun e => forall i, In i (keys (snd e)) -> P i) bc));
    [| constructor].
  intros bc s Hs Hinv. rewrite Forall_forall in H. pose proof (H _ Hs) as Ps.
  unfold group_step. set (cls := infer_class (instrument_id s)).
  assert (H' : Forall (fun e => forall i, In i (keys (snd e)) -> P i)
                      (setdefault cls [] bc)).
  { apply Forall_setdefault; [intros i [] | exact Hinv]. }
  apply Forall_dset; [| exact H']. cbn [snd]. intros i Hi.
  apply keys_dset_In in Hi. destruct Hi as [-> | Hi]; [exact Ps |].
  unfold dget_or in Hi. destruct (dget cls (setdefault cls [] bc)) eqn:E;
    [| destruct Hi].
  exact (Forall_dget _ _ _ _ H' E i Hi).
Qed.

Lemma plan_orders_keys (P : string -> Prop)
      (strategy : Strategy) (signals : list Signal) (plan : Plan) :
  build_plan strategy signals = Some plan ->
  Forall (fun s => P (instrument_id s)) signals ->
  Forall (fun o => P (order_instrument o)) (orders plan).
Proof.
  intros Hb Hs. destruct (build_plan_inv _ _ _ Hb) as [pos_max ->].
  rewrite plan_loop_orders by apply group_signals_wf.
  pose proof (group_signals_keys P signals Hs) as G. rewrite Forall_forall in G.
  unfold orders_of_classes. apply Forall_forall. intros o Ho.
  apply in_flat_map in Ho. destruct Ho as [[cls cp] [He Ho]].
  apply in_map_iff in Ho. destruct Ho as [kv [<- Hkv]]. cbn [snd] in Hkv.
  destruct (plan_loop_entry _ _ _ _ _ He) as [insts [I [_ [_ [_ ->]]]]].
  apply (G _ I). cbn [snd order_of order_instrument].
  rewrite <- (keys_class_plan_of (target_alloc_of strategy) pos_max cls).
  unfold keys. now apply in_map.
Qed.

Lemma target_weights_fresh (l : list (string * Q)) :
  NoDup (map fst l) ->
  Forall (fun kv => normalise (fst kv) = fst kv /\ fst kv <> ""
                    /\ 0 <= snd kv) l ->
  forall d,
    (forall k, In k (keys d) -> ~ In k (map fst l)) ->
    fold_left Paper.target_step
              (map (fun kv => Paper.mkPlanOrder (Some (fst kv)) (Some (snd kv))) l)
              d
    = (d ++ l)%list.
Proof.
  induction l as [| [k w] l IH]; intros ND F d Hd.
  - cbn. now rewrite app_nil_r.
  - cbn [map fold_left fst snd] in *. inversion ND as [| ? ? NI ND']; subst.
    inversion F as [| ? ? [Hn [He Hw]] F']; subst. cbn [fst snd] in *.
    assert (Hk : ~ In k (keys d)).
    { intro I. apply (Hd _ I). now left. }
    assert (Step : Paper.target_step d (Paper.mkPlanOrder (Some k) (Some w))
                   = (d ++ [(k, w)])%list).
    { unfold Paper.target_step. cbn [Paper.instrument_id Paper.target_weight].
      fold (normalise k). rewrite Hn.
      destruct (String.eqb_spec k ""); [contradiction |].
      assert (G : dget_or k d 0 = 0).
      { unfold dget_or. apply dget_None_keys in Hk. now rewrite Hk. }
      rewrite G.
      assert (M : pymax w 0 = w).
      { unfold pymax. apply Qle_bool_iff in Hw. now rewrite Hw. }
      rewrite M. now apply dset_new. }
    rewrite Step, IH; [now rewrite <- app_assoc | exact ND' | exact F' |].
    intros k' Hk' Hl. unfold keys in Hk'. rewrite map_app in Hk'.
    apply in_app_or in Hk'. destruct Hk' as [Hk' | [<- | []]].
    + apply (Hd _ Hk'). now right.
    + cbn in NI. contradiction.
Qed.

(** X11.  From the Plan Builder to the engine.  When every signal names its
    instrument in normal form (stripped, upper case, not empty), the
    target-weight map the engine builds from a plan's orders is the plan
    itself: one entry per order, in the order of the plan, with the order's
    instrument and target weight. *)
Theorem engine_reads_the_plan_weights
        (strategy : Strategy) (signals : list Signal) (plan : Plan) :
  build_plan strategy signals = Some plan ->
  Forall (fun s => normalise (instrument_id s) = instrument_id s
                   /\ instrument_id s <> "") signals ->
  Paper.target_weights (plan_file_orders plan)
  = map (fun o => (order_instrument o, target_weight o)) (orders plan).
Proof.
  intros Hb Hs.
  pose proof (plan_orders_NoDup _ _ _ Hb) as ND.
  pose proof (plan_orders_unit _ _ _ Hb) as Hw.
  pose proof (plan_orders_keys
                (fun i => normalise i = i /\ i <> "") _ _ _ Hb Hs) as Hk.
  unfold Paper.target_weights, plan_file_orders.
  set (l := map (fun o => (order_instrument o, target_weight o)) (orders plan)).
  assert (E : map (fun o => Paper.mkPlanOrder (Some (order_instrument o))
                                              (Some (target_weight o)))
                  (orders plan)
              = map (fun kv => Paper.mkPlanOrder (Some (fst kv)) (Some (snd kv))) l).
  { unfold l. rewrite map_map. reflexivity. }
  rewrite E, target_weights_fresh; [reflexivity | | | intros k []].
  - unfold l. rewrite map_map. exact ND.
  - unfold l. apply Forall_map. apply Forall_forall. intros o Ho.
    cbn [fst snd]. rewrite Forall_forall in Hw, Hk.
    destruct (Hk _ Ho) as [A B].
    split; [exact A |]. split; [exact B | apply (Hw _ Ho)].
Qed.

Lemma engine_reads_the_plan_weights_witness :
  build_plan policy_60_40 signals_aapl_btc = Some plan_aapl_btc
  /\ Forall (fun s => normalise (instrument_id s) = instrument_id s
                      /\ instrument_id s <> "") signals_aapl_btc
  /\ Paper.target_weights (plan_file_orders plan_aapl_btc)
     = [("AAPL", 0.600000); ("BTC", 0.400000)].
Proof.
  assert (Hb : build_plan policy_60_40 signals_aapl_btc = Some plan_aapl_btc)
    by (vm_compute; reflexivity).
  assert (Hs : Forall (fun s => normalise (instrument_id s) = instrument_id s
                                /\ instrument_id s <> "") signals_aapl_btc).
  { repeat constructor; discriminate. }
  split; [exact Hb |]. split; [exact Hs |].
  exact (engine_reads_the_plan_weights _ _ _ Hb Hs).
Defined.

End PlanTheorems.

(* ------------------------------------------------------------------------- *)
(** ** The Paper Execution Engine: conservation of value *)

Section Conservation.
Import Paper.

Variable oracle : Oracle.

Lemma pysum_values_dset (k : string) (v : Q) (d : dict Q) :
  pysum (values (dset k v d)) == pysum (values d) - dget_or k d 0 + v.
Proof.
  unfold dget_or. induction d as [| [k' v'] t IH]; simpl.
  - change (pysum [v] == pysum [] - 0 + v). rewrite pysum_cons, pysum_nil. ring.
  - destruct (String.eqb_spec k k') as [-> | N]; simpl.
    + change (pysum (v :: values t) == pysum (v' :: values t) - v' + v).
      rewrite !pysum_cons. ring.
    + change (pysum (v' :: values (dset k v t))
              == pysum (v' :: values t)
                 - match dget k t with Some x => x | None => 0 end + v).
      rewrite !pysum_cons, IH. ring.
Qed.

Lemma dget_or_nonneg (k : string) (d : dict Q) :
  nonneg_dict d -> 0 <= dget_or k d 0.
Proof.
  intro H. unfold dget_or. destruct (dget k d) as [v |] eqn:E; [| discriminate].
  apply dget_In in E. unfold nonneg_dict in H. rewrite Forall_forall in H.
  apply H. change v with (snd (k, v)). unfold values. now apply in_map.
Qed.

Lemma length_dset_le (k : string) (v : Q) (d : dict Q) :
  (List.length (dset k v d) <= S (List.length d))%nat.
Proof.
  induction d as [| [k' v'] t IH]; simpl; [lia |].
  destruct (String.eqb k k'); simpl; lia.
Qed.

Lemma length_dset_present (k : string) (v : Q) (d : dict Q) :
  In k (keys d) -> List.length (dset k v d) = List.length d.
Proof.
  induction d as [| [k' v'] t IH]; simpl; [tauto |].
  destruct (String.eqb_spec k k') as [-> | N]; simpl; [reflexivity |].
  intros [E | I]; [congruence | now rewrite IH].
Qed.

(** Phase 2 moves value between cash and positions and nothing else. *)
Lemma rebalance_step_nav (nav : Q) (st : Engine) (e : string * Q) :
  engine_nav (rebalance_step oracle nav st e) == engine_nav st.
Proof.
  destruct e as [inst tw]. unfold rebalance_step, engine_nav.
  cbn [cash held executions calls].
  destruct (Qle_bool (get_exec_price _ inst) 0); [reflexivity |].
  destruct (Qlt_bool (Qabs _) _); [reflexivity |].
  destruct (Qlt_bool 0 _).
  - destruct (Qle_bool (pymin _ _) 0); [reflexivity |].
    destruct (negb (is_crypto inst) && Qle_bool _ 0); [reflexivity |].
    cbn [cash held]. rewrite pysum_values_dset. ring.
  - destruct (Qle_bool (pymin _ _) 0); [reflexivity |].
    destruct (negb (is_crypto inst) && Qle_bool _ 0); [reflexivity |].
    cbn [cash held]. rewrite pysum_values_dset. ring.
Qed.

(** Phase 1 never loses value, and keeps it exactly when the instrument is
    sold in whole units. *)
Lemma liquidate_step_nav (target_w : dict Q) (st : Engine) (k : string) :
  engine_nav st <= engine_nav (liquidate_step oracle target_w st k)
  /\ (is_crypto k = false ->
      engine_nav (liquidate_step oracle target_w st k) == engine_nav st).
Proof.
  unfold liquidate_step, engine_nav.
  destruct (dmem k target_w); [split; [lra | reflexivity] |].
  destruct (Qle_bool (dget_or k (held st) 0) 0) eqn:E0;
    [split; [lra | reflexivity] |].
  cbn [cash held executions calls].
  pose proof (exec_price_pos (oracle (calls st)) k) as P.
  set (price := get_exec_price (oracle (calls st)) k) in *.
  destruct (Qle_bool price 0); [cbn [cash held]; split; [lra | reflexivity] |].
  set (cur := dget_or k (held st) 0) in *.
  destruct (Qle_bool (lot_qty k (cur / price)) 0) eqn:E;
    cbn [cash held]; [split; [lra | reflexivity] |].
  rewrite pysum_values_dset. fold cur.
  set (x := lot_qty k (cur / price) * price).
  destruct (pymax_cases 0 (cur - x)) as [[L ->] | [L ->]].
  - split; [lra |]. intro Hnc. unfold x, lot_qty in *. rewrite Hnc in *.
    pose proof (floorQ_le (cur / price)) as F.
    assert (U : cur / price * price == cur) by (field; lra).
    set (u := cur / price) in *. set (q := floorQ u) in *.
    assert (q * price <= cur) by nra. lra.
  - split; [lra | intros _; lra].
Qed.

Lemma liquidate_nav (target_w : dict Q) (st : Engine) :
  engine_nav st <= engine_nav (liquidate oracle target_w st)
  /\ (Forall (fun k => is_crypto k = false) (keys (held st)) ->
      engine_nav (liquidate oracle target_w st) == engine_nav st).
Proof.
  unfold liquidate. split.
  - apply (fold_left_inv (fun st' => engine_nav st <= engine_nav st')); [| lra].
    intros st' k _ H. pose proof (proj1 (liquidate_step_nav target_w st' k)). lra.
  - intro Hnc.
    apply (fold_left_inv (fun st' => engine_nav st' == engine_nav st));
      [| reflexivity].
    intros st' k Hk H. rewrite Forall_forall in Hnc.
    rewrite (proj2 (liquidate_step_nav target_w st' k) (Hnc _ Hk)). exact H.
Qed.

Lemma rebalance_nav (nav : Q) (target_w : dict Q) (st : Engine) :
  engine_nav (rebalance oracle nav target_w st) == engine_nav st.
Proof.
  unfold rebalance.
  apply (fold_left_inv (fun st' => engine_nav st' == engine_nav st));
    [| reflexivity].
  intros st' e _ H. now rewrite rebalance_step_nav.
Qed.

(** X12.  Value through the two trading phases.  Phase 2 conserves cash plus
    positions exactly, for every plan and every price, crypto included.
    Phase 1 never lowers it, and conserves it when every holding trades in
    whole units. *)
Theorem trading_phases_conserve_value
        (nav : Q) (target_w : dict Q) (st : Engine) :
  engine_nav (rebalance oracle nav target_w st) == engine_nav st
  /\ engine_nav st <= engine_nav (liquidate oracle target_w st)
  /\ (Forall (fun k => is_crypto k = false) (keys (held st)) ->
      engine_nav (liquidate oracle target_w st) == engine_nav st).
Proof.
  split; [apply rebalance_nav | apply liquidate_nav].
Qed.

(** Holdings stay non-negative: phase 1 floors them at 0.0, and a whole-unit
    sale of phase 2 never sells more than is held. *)
Lemma liquidate_step_nonneg (target_w : dict Q) (st : Engine) (k : string) :
  nonneg_dict (held st) ->
  nonneg_dict (held (liquidate_step oracle target_w st k)).
Proof.
  intro H. unfold liquidate_step.
  destruct (dmem k target_w); [exact H |].
  destruct (Qle_bool (dget_or k (held st) 0) 0); [exact H |].
  cbn [cash held executions calls].
  destruct (Qle_bool (get_exec_price _ k) 0); [exact H |].
  destruct (Qle_bool (lot_qty k _) 0); [exact H |].
  cbn [held]. apply nonneg_dict_dset; [| exact H].
  destruct (pymax_cases 0 (dget_or k (held st) 0
                           - lot_qty k (dget_or k (held st) 0
                                        / get_exec_price (oracle (calls st)) k)
                             * get_exec_price (oracle (calls st)) k))
    as [[L ->] | [L ->]]; lra.
Qed.

Lemma liquidate_nonneg (target_w : dict Q) (st : Engine) :
  nonneg_dict (held st) -> nonneg_dict (held (liquidate oracle target_w st)).
Proof.
  intro H. unfold liquidate.
  apply (fold_left_inv (fun st' => nonneg_dict (held st'))); [| exact H].
  intros st' k _. apply liquidate_step_nonneg.
Qed.

Lemma rebalance_step_nonneg (nav : Q) (st : Engine) (inst : string) (tw : Q) :
  is_crypto inst = false ->
  nonneg_dict (held st) ->
  nonneg_dict (held (rebalance_step oracle nav st (inst, tw))).
Proof.
  intros Hnc H. unfold rebalance_step. cbn [cash held executions calls].
  pose proof (exec_price_pos (oracle (calls st)) inst) as P.
  set (price := get_exec_price (oracle (calls st)) inst) in *.
  destruct (Qle_bool price 0); [exact H |].
  pose proof (dget_or_nonneg inst _ H) as C.
  set (cur := dget_or inst (held st) 0) in *.
  destruct (Qlt_bool (Qabs _) _); [exact H |].
  unfold lot_qty. rewrite Hnc. cbn [negb andb].
  destruct (Qlt_bool 0 _).
  - destruct (Qle_bool (pymin _ _) 0); [exact H |].
    destruct (Qle_bool (floorQ _) 0) eqn:E; [exact H |].
    cbn [held]. apply nonneg_dict_dset; [| exact H].
    match goal with |- 0 <= cur + floorQ ?u * price =>
      assert (Q0 : 0 < floorQ u)
        by (apply Qnot_le_lt; intro L; apply Qle_bool_iff in L; congruence);
      set (q := floorQ u) in * end.
    nra.
  - set (sell_amt := pymin (- (nav * tw - cur)) cur).
    destruct (Qle_bool sell_amt 0); [exact H |].
    destruct (Qle_bool (floorQ (sell_amt / price)) 0); [exact H |].
    cbn [held]. apply nonneg_dict_dset; [| exact H].
    assert (B : sell_amt <= cur).
    { unfold sell_amt.
      destruct (pymin_cases (- (nav * tw - cur)) cur) as [[L ->] | [L ->]]; lra. }
    pose proof (floorQ_le (sell_amt / price)) as F.
    assert (U : sell_amt / price * price == sell_amt) by (field; lra).
    set (u := sell_amt / price) in *. set (q := floorQ u) in *. nra.
Qed.

Lemma rebalance_nonneg (nav : Q) (target_w : dict Q) (st : Engine) :
  Forall (fun e => is_crypto (fst e) = false) target_w ->
  nonneg_dict (held st) ->
  nonneg_dict (held (rebalance oracle nav target_w st)).
Proof.
  intros Hnc H. unfold rebalance.
  apply (fold_left_inv (fun st' => nonneg_dict (held st'))); [| exact H].
  intros st' [inst tw] Hin Hst. rewrite Forall_forall in Hnc.
  apply rebalance_step_nonneg; [exact (Hnc _ Hin) | exact Hst].
Qed.

End Conservation.

Section CycleValue.
Import Paper.

Variable oracle : Oracle.

Lemma prune_cons (k : string) (v : Q) (d : dict Q) :
  prune ((k, v) :: d)
  = if Qlt_bool (Qabs v) (1 # 1000000) then prune d
    else if Qlt_bool 0 v then (k, v) :: prune d else prune d.
Proof.
  unfold prune, dmap, dfilter. cbn [map filter fst snd].
  destruct (Qlt_bool (Qabs v) (1 # 1000000)); reflexivity.
Qed.

(** Pruning non-negative positions drops less than 1e-6 per position. *)
Lemma prune_sum (d : dict Q) :
  nonneg_dict d ->
  pysum (values (prune d)) <= pysum (values d)
  /\ pysum (values d) - pysum (values (prune d))
     <= inject_Z (Z.of_nat (List.length d)) * (1 # 1000000).
Proof.
  unfold nonneg_dict. induction d as [| [k v] d IH]; intro H.
  - change (0 <= 0 /\ 0 - 0 <= 0 * (1 # 1000000)). lra.
  - simpl in H. inversion H as [| ? ? Hv Hd]; subst.
    destruct (IH Hd) as [I1 I2]. rewrite prune_cons.
    change (values ((k, v) :: d)) with (v :: values d).
    change (List.length ((k, v) :: d)) with (S (List.length d)).
    rewrite Nat2Z.inj_succ, <- Z.add_1_r, inject_Z_plus.
    change (inject_Z 1) with 1. rewrite pysum_cons.
    destruct (Qlt_bool (Qabs v) (1 # 1000000)) eqn:E.
    + apply Qlt_bool_iff in E. rewrite Qabs_pos in E by exact Hv.
      split; lra.
    + apply Qlt_bool_false_iff in E. rewrite Qabs_pos in E by exact Hv.
      assert (P : Qlt_bool 0 v = true) by (apply Qlt_bool_iff; lra).
      rewrite P. change (values ((k, v) :: prune d)) with (v :: values (prune d)).
      rewrite pysum_cons. split; lra.
Qed.

Lemma liquidate_step_length (target_w : dict Q) (st : Engine) (k : string) :
  List.length (held (liquidate_step oracle target_w st k))
  = List.length (held st).
Proof.
  unfold liquidate_step.
  destruct (dmem k target_w); [reflexivity |].
  destruct (Qle_bool (dget_or k (held st) 0) 0) eqn:E; [reflexivity |].
  cbn [cash held executions calls].
  destruct (Qle_bool (get_exec_price _ k) 0); [reflexivity |].
  destruct (Qle_bool (lot_qty k _) 0); [reflexivity |].
  cbn [held]. apply length_dset_present. apply dmem_true_iff.
  unfold dmem. unfold dget_or in E.
  destruct (dget k (held st)); [reflexivity | discriminate].
Qed.

Lemma liquidate_length (target_w : dict Q) (st : Engine) :
  List.length (held (liquidate oracle target_w st)) = List.length (held st).
Proof.
  unfold liquidate.
  apply (fold_left_inv
           (fun st' => List.length (held st') = List.length (held st)));
    [| reflexivity].
  intros st' k _ H. now rewrite liquidate_step_length.
Qed.

Lemma rebalance_step_length (nav : Q) (st : Engine) (e : string * Q) :
  (List.length (held (rebalance_step oracle nav st e))
   <= S (List.length (held st)))%nat.
Proof.
  destruct e as [inst tw]. unfold rebalance_step.
  cbn [cash held executions calls].
  destruct (Qle_bool (get_exec_price _ inst) 0); [cbn [held]; lia |].
  destruct (Qlt_bool (Qabs _) _); [cbn [held]; lia |].
  destruct (Qlt_bool 0 _).
  - destruct (Qle_bool (pymin _ _) 0); [cbn [held]; lia |].
    destruct (negb (is_crypto inst) && Qle_bool _ 0); cbn [held]; [lia |].
    apply length_dset_le.
  - destruct (Qle_bool (pymin _ _) 0); [cbn [held]; lia |].
    destruct (negb (is_crypto inst) && Qle_bool _ 0); cbn [held]; [lia |].
    apply length_dset_le.
Qed.

Lemma rebalance_length (nav : Q) (target_w : dict Q) (st : Engine) :
  (List.length (held (rebalance oracle nav target_w st))
   <= List.length (held st) + List.length target_w)%nat.
Proof.
  unfold rebalance. revert st.
  induction target_w as [| e l IH]; intro st; cbn [fold_left List.length];
    [lia |].
  specialize (IH (rebalance_step oracle nav st e)).
  pose proof (rebalance_step_length nav st e). lia.
Qed.

Lemma target_weights_length (orders : list PlanOrder) :
  (List.length (target_weights orders) <= List.length orders)%nat.
Proof.
  induction orders as [| o l IH] using rev_ind; [cbn; lia |].
  rewrite target_weights_snoc, length_app. cbn [List.length].
  unfold target_step. destruct (String.eqb _ ""); [lia |].
  pose proof (length_dset_le
                (PyStr.upper (PyStr.strip
                   match instrument_id o with Some s => s | None => "" end))
                (pymax match target_weight o with Some w => w | None => 0 end
                       (dget_or (PyStr.upper (PyStr.strip
                          match instrument_id o with Some s => s | None => "" end))
                          (target_weights l) 0))
                (target_weights l)).
  lia.
Qed.

(** X13.  A cycle without fractional instruments neither creates nor loses
    value.  When no position is negative and neither a holding nor a target of
    the plan is a crypto instrument, the cash plus positions of the saved
    portfolio differ from those of the portfolio read by at most the rounding
    of the cash (5e-7) and 1e-6 for each position or order (the pruning of
    negligible positions). *)
Theorem cycle_conserves_value_up_to_rounding
        (port : Portfolio) (orders : list PlanOrder) :
  nonneg_dict (positions port) ->
  Forall (fun k => is_crypto k = false) (keys (positions port)) ->
  Forall (fun e => is_crypto (fst e) = false) (target_weights orders) ->
  Qabs (current_nav (fst (main oracle port orders)) - current_nav port)
  <= (1 # 2000000)
     + inject_Z (Z.of_nat (List.length (positions port) + List.length orders))
       * (1 # 1000000).
Proof.
  intros Hnn Hh Ht. unfold main, current_nav. cbn [fst cash_eur positions].
  set (tw := target_weights orders) in *.
  set (st0 := mkEngine (cash_eur port) (positions port) [] 0%nat).
  set (st1 := liquidate oracle tw st0).
  set (nav := round6 (cash st1) + pysum (values (held st1))).
  set (st2 := rebalance oracle nav tw st1).
  assert (V : engine_nav st2 == cash_eur port + pysum (values (positions port))).
  { unfold st2. rewrite rebalance_nav. unfold st1.
    rewrite (proj2 (liquidate_nav oracle tw st0) Hh). reflexivity. }
  assert (N2 : nonneg_dict (held st2)).
  { unfold st2. apply rebalance_nonneg; [exact Ht |].
    unfold st1. now apply liquidate_nonneg. }
  destruct (prune_sum _ N2) as [P1 P2].
  assert (L : (List.length (held st2)
               <= List.length (positions port) + List.length orders)%nat).
  { pose proof (rebalance_length nav tw st1) as R. fold st2 in R.
    unfold st1 in R. rewrite liquidate_length in R. cbn [held st0] in R.
    pose proof (target_weights_length orders). fold tw in H. lia. }
  assert (LQ : inject_Z (Z.of_nat (List.length (held st2)))
               <= inject_Z (Z.of_nat (List.length (positions port)
                                      + List.length orders))).
  { rewrite <- Zle_Qle. lia. }
  pose proof (round6_near (cash st2)) as R. apply Qabs_Qle_condition in R.
  unfold engine_nav in V.
  set (n := inject_Z (Z.of_nat (List.length (positions port)
                                + List.length orders))) in *.
  set (m := inject_Z (Z.of_nat (List.length (held st2)))) in *.
  apply Qabs_Qle_condition. split; nra.
Qed.

End CycleValue.

Section CycleValueWitness.
Import Paper.

Lemma cycle_conserves_value_up_to_rounding_witness :
  nonneg_dict (positions Scenarios.portfolio_aapl_500)
  /\ Forall (fun k => is_crypto k = false)
            (keys (positions Scenarios.portfolio_aapl_500))
  /\ Forall (fun e => is_crypto (fst e) = false)
            (target_weights Scenarios.orders_all_aapl)
  /\ Qabs (current_nav (fst (main Scenarios.oracle_aapl_100
                                  Scenarios.portfolio_aapl_500
                                  Scenarios.orders_all_aapl))
           - current_nav Scenarios.portfolio_aapl_500)
     <= (1 # 2000000) + inject_Z 2 * (1 # 1000000).
Proof.
  assert (H1 : nonneg_dict (positions Scenarios.portfolio_aapl_500))
    by (repeat constructor; discriminate).
  assert (H2 : Forall (fun k => is_crypto k = false)
                      (keys (positions Scenarios.portfolio_aapl_500)))
    by (repeat constructor).
  assert (H3 : Forall (fun e => is_crypto (fst e) = false)
                      (target_weights Scenarios.orders_all_aapl))
    by (repeat constructor).
  split; [exact H1 |]. split; [exact H2 |]. split; [exact H3 |].
  exact (cycle_conserves_value_up_to_rounding
           Scenarios.oracle_aapl_100 Scenarios.portfolio_aapl_500
           Scenarios.orders_all_aapl H1 H2 H3).
Defined.

End CycleValueWitness.

(* ------------------------------------------------------------------------- *)
(** ** The Plan Validator: sorted diagnostics *)

Section ValidatorSorting.
Import Validate.

Lemma insert_by_weight_perm x l : Permutation (x :: l) (insert_by_weight x l).
Proof.
  induction l as [| y l IH]; simpl; [apply Permutation_refl |].
  destruct (Qle_bool (snd y) (snd x)); [apply Permutation_refl |].
  eapply perm_trans; [apply perm_swap | now apply perm_skip].
Qed.

Lemma sorted_by_weight_perm l : Permutation l (sorted_by_weight l).
Proof.
  unfold sorted_by_weight. induction l as [| x l IH]; simpl; [constructor |].
  eapply perm_trans; [apply perm_skip, IH | apply insert_by_weight_perm].
Qed.

Lemma insert_by_weight_hd x l a :
  HdRel heavier_first a l -> heavier_first a x ->
  HdRel heavier_first a (insert_by_weight x l).
Proof.
  intros Hl Hx. destruct l as [| y l]; simpl; [now constructor |].
  destruct (Qle_bool (snd y) (snd x)); constructor; [exact Hx |].
  now inversion Hl.
Qed.

Lemma insert_by_weight_sorted x l :
  Sorted heavier_first l -> Sorted heavier_first (insert_by_weight x l).
Proof.
  induction 1 as [| y l Hs IH Hhd]; simpl; [repeat constructor |].
  destruct (Qle_bool (snd y) (snd x)) eqn:E.
  - constructor; [now constructor |]. constructor.
    unfold heavier_first. now apply Qle_bool_iff.
  - constructor; [exact IH |]. apply insert_by_weight_hd; [exact Hhd |].
    unfold heavier_first. apply Qlt_le_weak. apply Qnot_le_lt.
    intro L. apply Qle_bool_iff in L. congruence.
Qed.

Lemma sorted_by_weight_sorted l : Sorted heavier_first (sorted_by_weight l).
Proof.
  unfold sorted_by_weight. induction l as [| x l IH]; simpl; [constructor |].
  now apply insert_by_weight_sorted.
Qed.

Lemma In_violators_of pos_max (classes : dict (dict Q)) inst cls w :
  In (inst, cls, w) (violators_of pos_max classes)
  <-> exists items, In (cls, items) classes /\ In (inst, w) items
                    /\ pos_max + (1 # 1000000000) < w.
Proof.
  unfold violators_of. rewrite in_flat_map. split.
  - intros [[c items] [Hc Hin]]. cbn [fst snd] in Hin.
    apply in_flat_map in Hin. destruct Hin as [[i w'] [Hi Hv]].
    cbn [fst snd] in Hv.
    destruct (Qlt_bool (pos_max + (1 # 1000000000)) w') eqn:E; [| destruct Hv].
    destruct Hv as [Hv | []]. injection Hv as <- <- <-.
    exists items. apply Qlt_bool_iff in E. auto.
  - intros [items [Hc [Hi Hw]]]. exists (cls, items). split; [exact Hc |].
    cbn [fst snd]. apply in_flat_map. exists (inst, w). split; [exact Hi |].
    cbn [fst snd]. apply Qlt_bool_iff in Hw. rewrite Hw. now left.
Qed.

Lemma filter_none {A : Type} (f : A -> bool) (l : list A) :
  (forall x, In x l -> f x = false) -> filter f l = [].
Proof.
  induction l as [| x l IH]; intro H; [reflexivity |].
  simpl. rewrite (H x) by now left. apply IH. intros y Hy. apply H. now right.
Qed.

Lemma filter_all {A : Type} (f : A -> bool) (l : list A) :
  (forall x, In x l -> f x = true) -> filter f l = l.
Proof.
  induction l as [| x l IH]; intro H; [reflexivity |].
  simpl. rewrite (H x) by now left. f_equal. apply IH.
  intros y Hy. apply H. now right.
Qed.

Lemma check_positions_errors_eq pos_max classes :
  log_errors (check_positions pos_max classes)
  = map (position_error pos_max)
        (sorted_by_weight (violators_of pos_max classes)).
Proof.
  unfold check_positions. destruct (violators_of pos_max classes); reflexivity.
Qed.

(** X14.  The position-limit errors of a report.  They are the last errors
    of the report, one for each weight of the plan above
    [position_max_pct + 1e-9] (1.0 when the policy names no cap) and for no
    other, and they come heaviest first. *)
Theorem position_errors_are_the_violators_heaviest_first
        (strategy : Strategy) (plan_read : PlanRead) :
  let pos_max := match position_max_pct strategy with Some p => p | None => 1 end in
  let classes := fst (read_plan plan_read) in
  exists violators,
    filter is_position_error (errors (main (Some strategy) plan_read))
    = map (position_error pos_max) violators
    /\ Sorted heavier_first violators
    /\ Permutation (violators_of pos_max classes) violators
    /\ forall inst cls w,
         In (inst, cls, w) violators
         <-> exists items, In (cls, items) classes /\ In (inst, w) items
                           /\ pos_max + (1 # 1000000000) < w.
Proof.
  cbv zeta.
  set (pos_max := match position_max_pct strategy with Some p => p | None => 1 end).
  set (classes := fst (read_plan plan_read)).
  exists (sorted_by_weight (violators_of pos_max classes)).
  split; [| split; [apply sorted_by_weight_sorted | split;
                    [apply sorted_by_weight_perm |]]].
  - rewrite main_errors. cbv zeta. fold pos_max classes.
    rewrite check_unknown_errors, check_missing_errors, check_positions_errors_eq.
    cbn [app]. rewrite !filter_app.
    rewrite (filter_none _ (log_errors (check_alloc_target _))).
    2:{ intros m Hm. unfold check_alloc_target in Hm.
        destruct (target_alloc_of strategy); [destruct Hm as [<- | []]; reflexivity |].
        destruct (Qle_bool _ 0); [destruct Hm as [<- | []]; reflexivity |].
        destruct (Qlt_bool _ _); destruct Hm. }
    rewrite (filter_none _ (log_errors (snd (read_plan plan_read)))).
    2:{ intros m Hm. apply read_plan_errors in Hm. destruct Hm as [-> | ->];
          reflexivity. }
    rewrite (filter_none _ (log_errors (check_structure classes))).
    2:{ intros m Hm. apply check_structure_errors in Hm. now subst. }
    rewrite (filter_none _ (log_errors (check_bands _ _ _))).
    2:{ intros m Hm. apply check_bands_errors in Hm.
        destruct Hm as [c [t [_ [_ ->]]]]. reflexivity. }
    rewrite (filter_none _ (log_errors (check_total _))).
    2:{ intros m Hm. apply check_total_errors in Hm. now subst. }
    cbn [app]. apply filter_all. intros m Hm. apply in_map_iff in Hm.
    destruct Hm as [v [<- _]]. reflexivity.
  - intros inst cls w. rewrite <- In_violators_of. split; intro H.
    + eapply Permutation_in; [apply Permutation_sym, sorted_by_weight_perm | exact H].
    + eapply Permutation_in; [apply sorted_by_weight_perm | exact H].
Qed.

Lemma In_insert_string_le x l a :
  HdRel string_le a l -> string_le a x -> HdRel string_le a (insert_string x l).
Proof.
  intros Hl Hx. destruct l as [| y l]; simpl; [now constructor |].
  destruct (String.leb x y); constructor; [exact Hx |]. now inversion Hl.
Qed.

Lemma insert_string_sorted x l :
  Sorted string_le l -> Sorted string_le (insert_string x l).
Proof.
  induction 1 as [| y l Hs IH Hhd]; simpl; [repeat constructor |].
  destruct (String.leb x y) eqn:E.
  - constructor; [now constructor |]. now constructor.
  - constructor; [exact IH |]. apply In_insert_string_le; [exact Hhd |].
    unfold string_le. destruct (String.leb_total x y) as [T | T]; congruence.
Qed.

Lemma sorted_strings_sorted l : Sorted string_le (sorted_strings l).
Proof.
  unfold sorted_strings. induction l as [| x l IH]; simpl; [constructor |].
  now apply insert_string_sorted.
Qed.

Lemma insert_string_NoDup x l :
  ~ In x l -> NoDup l -> NoDup (insert_string x l).
Proof.
  induction l as [| y l IH]; simpl; intros N ND.
  - constructor; [intros [] | constructor].
  - destruct (String.leb x y); [now constructor |].
    inversion ND as [| ? ? NI ND']; subst. constructor.
    + intro I. apply In_insert_string in I. destruct I as [-> | I]; [| contradiction].
      apply N. now left.
    + apply IH; [| exact ND']. intro I. apply N. now right.
Qed.

Lemma sorted_strings_NoDup l : NoDup l -> NoDup (sorted_strings l).
Proof.
  induction 1 as [| x l N ND IH]; [constructor |].
  change (sorted_strings (x :: l)) with (insert_string x (sorted_strings l)).
  apply insert_string_NoDup; [rewrite In_sorted_strings; exact N | exact IH].
Qed.

Lemma sorted_key_difference_spec {V W : Type} (a : dict V) (b : dict W) :
  Sorted string_le (sorted_key_difference a b)
  /\ NoDup (sorted_key_difference a b)
  /\ forall k, In k (sorted_key_difference a b)
               <-> In k (keys a) /\ dmem k b = false.
Proof.
  split; [apply sorted_strings_sorted |]. split.
  - apply sorted_strings_NoDup. apply NoDup_nodup.
  - apply In_sorted_key_difference.
Qed.

Lemma check_bands_warnings alloc_target bands class_sums :
  log_warnings (check_bands alloc_target bands class_sums) = [].
Proof.
  unfold check_bands.
  assert (G : forall l log,
             log_warnings log = [] ->
             log_warnings
               (fold_left (fun log e => log_app log (check_band bands class_sums e))
                          l log) = []).
  { induction l as [| e l IH]; intros log H; [exact H |].
    cbn [fold_left]. apply IH. cbn [log_app log_warnings]. rewrite H.
    destruct e as [c t]. unfold check_band.
    now destruct (out_of_band _ _ _). }
  now apply G.
Qed.

Lemma main_warnings_class_lists (strategy : Strategy) (plan_read : PlanRead) m :
  In m (warnings (main (Some strategy) plan_read)) ->
  match m with
  | UnknownClasses l =>
      l = sorted_key_difference (fst (read_plan plan_read))
                                (target_alloc_of strategy)
      /\ l <> []
  | MissingClasses l =>
      l = sorted_key_difference (target_alloc_of strategy)
                                (fst (read_plan plan_read))
      /\ l <> []
  | _ => True
  end.
Proof.
  rewrite main_warnings. cbv zeta. rewrite check_bands_warnings. intro Hm.
  repeat (apply in_app_or in Hm; destruct Hm as [Hm | Hm]).
  - unfold check_alloc_target in Hm.
    destruct (target_alloc_of strategy); [destruct Hm |].
    destruct (Qle_bool _ 0); [destruct Hm |].
    destruct (Qlt_bool _ _); [destruct Hm as [<- | []]; exact I | destruct Hm].
  - destruct plan_read as [| | [c |]]; destruct Hm.
  - destruct (fst (read_plan plan_read)); destruct Hm.
  - unfold check_unknown in Hm.
    destruct (sorted_key_difference _ _) eqn:E; [destruct Hm |].
    destruct Hm as [<- | []]. split; [reflexivity | discriminate].
  - unfold check_missing in Hm.
    destruct (sorted_key_difference _ _) eqn:E; [destruct Hm |].
    destruct Hm as [<- | []]. split; [reflexivity | discriminate].
  - destruct Hm.
  - unfold check_total in Hm. destruct (Qlt_bool _ _); destruct Hm.
  - unfold check_positions in Hm. destruct (violators_of _ _); destruct Hm.
Qed.

Lemma nonempty_has_member {A : Type} (l : list A) : l <> [] -> exists x, In x l.
Proof.
  destruct l as [| x l]; [congruence |]. intros _. exists x. now left.
Qed.

(** X15.  The class lists of the two structural warnings.  A report has an
    unknown-classes warning exactly when some class of the plan has no policy
    entry, and a missing-classes warning exactly when some policy class is
    not in the plan; each warning lists exactly those classes, once each, in
    alphabetical order. *)
Theorem class_warnings_list_the_differences
        (strategy : Strategy) (plan_read : PlanRead) :
  let targets := target_alloc_of strategy in
  let classes := fst (read_plan plan_read) in
  let report := main (Some strategy) plan_read in
  ((exists c, In c (keys classes) /\ dmem c targets = false)
   <-> exists l, In (UnknownClasses l) (warnings report))
  /\ ((exists c, In c (keys targets) /\ dmem c classes = false)
      <-> exists l, In (MissingClasses l) (warnings report))
  /\ (forall l, In (UnknownClasses l) (warnings report) ->
        Sorted string_le l /\ NoDup l
        /\ forall c, In c l <-> In c (keys classes) /\ dmem c targets = false)
  /\ (forall l, In (MissingClasses l) (warnings report) ->
        Sorted string_le l /\ NoDup l
        /\ forall c, In c l <-> In c (keys targets) /\ dmem c classes = false).
Proof.
  cbv zeta.
  set (targets := target_alloc_of strategy).
  set (classes := fst (read_plan plan_read)).
  assert (U : forall l, In (UnknownClasses l)
                           (warnings (main (Some strategy) plan_read)) ->
                        l = sorted_key_difference classes targets /\ l <> []).
  { intros l H. exact (main_warnings_class_lists _ _ _ H). }
  assert (M : forall l, In (MissingClasses l)
                           (warnings (main (Some strategy) plan_read)) ->
                        l = sorted_key_difference targets classes /\ l <> []).
  { intros l H. exact (main_warnings_class_lists _ _ _ H). }
  split; [| split; [| split]].
  - split.
    + intros [c Hc]. apply In_sorted_key_difference in Hc.
      exists (sorted_key_difference classes targets).
      rewrite main_warnings. cbv zeta. fold targets classes.
      apply in_or_app. right. apply in_or_app. right.
      apply in_or_app. right. apply in_or_app. left.
      unfold check_unknown.
      destruct (sorted_key_difference classes targets); [destruct Hc | now left].
    + intros [l H]. destruct (U l H) as [-> N].
      destruct (nonempty_has_member _ N) as [c Hc].
      exists c. now apply In_sorted_key_difference.
  - split.
    + intros [c Hc]. apply In_sorted_key_difference in Hc.
      exists (sorted_key_difference targets classes).
      rewrite main_warnings. cbv zeta. fold targets classes.
      apply in_or_app. right. apply in_or_app. right.
      apply in_or_app. right. apply in_or_app. right.
      apply in_or_app. left.
      unfold check_missing.
      destruct (sorted_key_difference targets classes); [destruct Hc | now left].
    + intros [l H]. destruct (M l H) as [-> N].
      destruct (nonempty_has_member _ N) as [c Hc].
      exists c. now apply In_sorted_key_difference.
  - intros l H. destruct (U l H) as [-> _]. apply sorted_key_difference_spec.
  - intros l H. destruct (M l H) as [-> _]. apply sorted_key_difference_spec.
Qed.

End ValidatorSorting.

(* ------------------------------------------------------------------------- *)
(** ** The Orchestrator's plan under the Plan Validator *)

Section BuilderValidator.
Import Validate Scenarios.

Lemma main_notes (strategy : Strategy) (plan_read : PlanRead) :
  let alloc_target := target_alloc_of strategy in
  let bands := match rebalance_bands strategy with Some b => b | None => 0 end in
  let pos_max := match position_max_pct strategy with Some p => p | None => 1 end in
  let classes := fst (read_plan plan_read) in
  notes (main (Some strategy) plan_read)
  = (log_notes (check_alloc_target alloc_target)
     ++ log_notes (snd (read_plan plan_read))
     ++ log_notes (check_structure classes)
     ++ log_notes (check_unknown alloc_target classes)
     ++ log_notes (check_missing alloc_target classes)
     ++ log_notes (check_bands alloc_target bands (class_sums_of classes))
     ++ log_notes (check_total (pysum (values (class_sums_of classes))))
     ++ log_notes (check_positions pos_max classes))%list.
Proof.
  unfold main. simpl read_strategy. cbv zeta.
  destruct (read_plan plan_read) as [classes log3]. simpl.
  now rewrite <- !app_assoc.
Qed.

Lemma fold_check_band_notes bands class_sums (l : dict Q) (log : Log) :
  log_notes
    (fold_left (fun log e => log_app log (check_band bands class_sums e)) l log)
  = (log_notes log
     ++ flat_map (fun e => log_notes (check_band bands class_sums e)) l)%list.
Proof.
  revert log. induction l as [| e l IH]; intro log; cbn [fold_left flat_map].
  - now rewrite app_nil_r.
  - rewrite IH. cbn [log_app log_notes]. now rewrite app_assoc.
Qed.

(** The band notes: one for each policy class whose plan weight is within
    the band. *)
Lemma check_bands_notes alloc_target bands class_sums m :
  In m (log_notes (check_bands alloc_target bands class_sums)) <->
  exists cls target,
    In (cls, target) alloc_target
    /\ out_of_band target bands (dget_or cls class_sums 0) = false
    /\ m = ClassOk cls target (dget_or cls class_sums 0) bands.
Proof.
  unfold check_bands. rewrite fold_check_band_notes. cbn [log_notes app].
  rewrite in_flat_map. split.
  - intros [[cls target] [Hin Hm]]. unfold check_band in Hm.
    destruct (out_of_band target bands (dget_or cls class_sums 0)) eqn:E;
      simpl in Hm; [contradiction |].
    destruct Hm as [<- | []]. eauto.
  - intros [cls [target [Hin [E ->]]]]. exists (cls, target).
    split; [exact Hin |]. unfold check_band. rewrite E. now left.
Qed.

(** The class sums the validator computes: the sum of each class of the
    plan. *)
Lemma class_sums_of_get (classes : dict (dict Q)) cls class_plan :
  wf classes -> dget cls classes = Some class_plan ->
  dget cls (class_sums_of classes) = Some (pysum (values class_plan)).
Proof.
  intros Hwf Hget.
  assert (Hinv : Forall (fun e => exists cp, In (fst e, cp) classes
                                             /\ snd e = pysum (values cp))
                        (class_sums_of classes)).
  { unfold class_sums_of.
    apply (fold_left_inv
             (Forall (fun e : string * Q =>
                        exists cp, In (fst e, cp) classes
                                   /\ snd e = pysum (values cp)))).
    - intros sums [c cp] Hin Hs. apply Forall_dset; [| exact Hs].
      exists cp. split; [exact Hin | reflexivity].
    - constructor. }
  destruct (dget cls (class_sums_of classes)) as [x |] eqn:E.
  - destruct (Forall_dget _ _ _ _ Hinv E) as [cp [Hin Hx]]. cbn [fst snd] in *.
    apply (In_wf_dget _ _ _ Hwf) in Hin. rewrite Hget in Hin.
    injection Hin as <-. now rewrite Hx.
  - exfalso. apply dget_None_keys in E. apply E. unfold class_sums_of.
    apply keys_fold_class_sums. left. apply dget_In in Hget.
    change cls with (fst (cls, class_plan)). unfold keys. now apply in_map.
Qed.

Lemma clamp01_id (w : Q) : 0 <= w <= 1 -> clamp01 w == w.
Proof.
  intros [L U]. unfold clamp01.
  destruct (pymin_cases 1 w) as [[L1 E1] | [L1 E1]]; rewrite E1.
  - destruct (pymax_cases 0 1) as [[L2 E2] | [L2 E2]]; rewrite E2; lra.
  - destruct (pymax_cases 0 w) as [[L2 E2] | [L2 E2]]; rewrite E2; lra.
Qed.

Lemma planned_class_sum_near_target
      (strategy : Strategy) (signals : list Signal) (pos_max : Q)
      (cls : string) (class_plan : dict Q) :
  0 < pos_max ->
  dget cls (classes (plan_loop (target_alloc_of strategy) pos_max
                               (group_signals signals))) = Some class_plan ->
  Qabs (pysum (values class_plan)
        - clamp01 (dget_or cls (target_alloc_of strategy) 0))
  <= inject_Z (Z.of_nat (List.length class_plan)) * (1 # 2000000).
Proof.
  intros Hpos Hget.
  pose proof (plan_loop_planned (target_alloc_of strategy) pos_max
                                (group_signals signals)) as Hinv.
  pose proof (Forall_dget _ _ _ _ Hinv Hget) as [insts [Hin [Hp Hcp]]].
  simpl in Hin, Hcp. subst class_plan.
  assert (Hnn : nonneg_dict insts).
  { pose proof (group_signals_nonneg signals) as H.
    rewrite Forall_forall in H. exact (H _ Hin). }
  assert (L : List.length (class_plan_of (target_alloc_of strategy) pos_max
                                         cls insts) = List.length insts).
  { rewrite <- (length_map fst), <- (length_map fst insts).
    f_equal. apply keys_class_plan_of. }
  rewrite L. apply class_plan_sum; [exact Hnn | apply Hp | exact Hpos].
Qed.

(** X16.  A class the Orchestrator planned passes the validator's band
    check.  For a policy with distinct classes, a positive position cap and a
    class target within [0,1], the validator run on the plan the Orchestrator
    built notes the class as within its band, with the sum of the class's
    planned weights as its actual weight, and reports no band error for it,
    provided the rounding of the class's weights (5e-7 each) fits, with a
    margin of 1e-9, the band plus the validator's tolerance of 1e-6.  The
    margin leaves out the plans whose class sum falls on the very edge of the
    band, where the last digit of a double decides. *)
Theorem planned_class_passes_band_check
        (strategy : Strategy) (signals : list Signal) (plan : Plan)
        (pos_max target : Q) (cls : string) (class_plan : dict Q) :
  build_plan strategy signals = Some plan ->
  position_max_pct strategy = Some pos_max ->
  0 < pos_max ->
  wf (target_alloc_of strategy) ->
  dget cls (target_alloc_of strategy) = Some target ->
  0 <= target <= 1 ->
  dget cls (classes plan) = Some class_plan ->
  inject_Z (Z.of_nat (List.length class_plan)) * (1 # 2000000) + MARGIN
  <= match rebalance_bands strategy with Some b => b | None => 0 end + EPS6 ->
  In (ClassOk cls target (pysum (values class_plan))
              match rebalance_bands strategy with Some b => b | None => 0 end)
     (notes (main (Some strategy) (PlanLoaded (Some (classes plan)))))
  /\ forall t a b,
       In (ClassOutOfBand cls t a b)
          (errors (main (Some strategy) (PlanLoaded (Some (classes plan)))))
       -> False.
Proof.
  intros Hb Hpm Hpos Hwf Ht Hu Hget Hn.
  unfold build_plan in Hb. rewrite Hpm in Hb. injection Hb as <-.
  set (plan := plan_loop (target_alloc_of strategy) pos_max
                         (group_signals signals)) in *.
  set (bands := match rebalance_bands strategy with Some b => b | None => 0 end)
    in *.
  pose proof (planned_class_sum_near_target strategy signals pos_max cls
                                            class_plan Hpos Hget) as Hnear.
  assert (Ed : dget_or cls (target_alloc_of strategy) 0 = target).
  { unfold dget_or. now rewrite Ht. }
  rewrite Ed in Hnear. rewrite (clamp01_id target Hu) in Hnear.
  assert (Es : dget_or cls (class_sums_of (classes plan)) 0
               = pysum (values class_plan)).
  { unfold dget_or.
    rewrite (class_sums_of_get (classes plan) cls class_plan); [reflexivity | |].
    - apply plan_loop_wf.
    - exact Hget. }
  assert (Hin : out_of_band target bands (pysum (values class_plan)) = false).
  { unfold out_of_band. apply orb_false_iff. unfold MARGIN in Hn.
    apply Qabs_Qle_condition in Hnear. destruct Hnear as [N1 N2].
    split; apply Qlt_bool_false_iff; lra. }
  split.
  - rewrite main_notes. cbv zeta. fold bands. cbn [read_plan fst snd].
    apply in_or_app. right. apply in_or_app. right. apply in_or_app. right.
    apply in_or_app. right. apply in_or_app. right. apply in_or_app. left.
    apply check_bands_notes. exists cls, target.
    rewrite Es. split; [now apply dget_In | split; [exact Hin | reflexivity]].
  - intros t a b H. rewrite main_errors in H. cbv zeta in H.
    fold bands in H. cbn [read_plan fst snd] in H.
    rewrite check_unknown_errors, check_missing_errors in H. cbn [app] in H.
    repeat (apply in_app_or in H; destruct H as [H | H]).
    + unfold check_alloc_target in H.
      destruct (target_alloc_of strategy); [destruct H as [H | []]; discriminate |].
      destruct (Qle_bool _ 0); [destruct H as [H | []]; discriminate |].
      destruct (Qlt_bool _ _); destruct H.
    + destruct H.
    + apply check_structure_errors in H. discriminate.
    + apply check_bands_errors in H. destruct H as [c [t' [Hi [Ho E]]]].
      injection E as Ec Et _ _. subst c t'.
      apply (In_wf_dget _ _ _ Hwf) in Hi. rewrite Ht in Hi. injection Hi as <-.
      rewrite Es in Ho. congruence.
    + apply check_total_errors in H. discriminate.
    + apply check_positions_errors in H. destruct H as [i [c [w E]]].
      discriminate.
Qed.

Lemma planned_class_passes_band_check_witness :
  In (ClassOk "equities" 0.6 (pysum (values [("AAPL", 0.600000)])) 0.05)
     (notes (main (Some policy_60_40)
                  (PlanLoaded (Some (classes plan_aapl_060))))).
Proof.
  refine (proj1 (planned_class_passes_band_check
                   policy_60_40 signals_aapl plan_aapl_060 0.35 0.6 "equities"
                   [("AAPL", 0.600000)] _ _ _ _ _ _ _ _)).
  - vm_compute; reflexivity.
  - reflexivity.
  - reflexivity.
  - unfold wf. vm_compute. repeat constructor; simpl; intuition discriminate.
  - reflexivity.
  - split; vm_compute; discriminate.
  - reflexivity.
  - vm_compute; discriminate.
Defined.

End BuilderValidator.

(* ------------------------------------------------------------------------- *)
(** ** The price providers *)

Section ProviderFacts.
Import Paper.

Lemma provider_fallback_price_positive (sym : string) :
  0 < dget_or sym Providers._FALLBACK_PRICE_MAP 100.
Proof.
  unfold dget_or.
  destruct (dget sym Providers._FALLBACK_PRICE_MAP) as [p |] eqn:E;
    [| reflexivity].
  apply dget_In in E.
  assert (F : Forall (fun kv : string * Q => 0 < snd kv)
                     Providers._FALLBACK_PRICE_MAP)
    by (unfold Providers._FALLBACK_PRICE_MAP; repeat constructor).
  rewrite Forall_forall in F. exact (F _ E).
Qed.

Lemma mock_base_at_least (sym : string) :
  (1 # 10) <= dget_or sym Providers.mock_base 100.
Proof.
  unfold dget_or.
  destruct (dget sym Providers.mock_base) as [p |] eqn:E;
    [| discriminate].
  apply dget_In in E.
  assert (F : Forall (fun kv : string * Q => (1 # 10) <= snd kv)
                     Providers.mock_base).
  { unfold Providers.mock_base. repeat constructor; discriminate. }
  rewrite Forall_forall in F. exact (F _ E).
Qed.

(** A mock price is within 5% of the table's base price, up to the rounding
    to six decimals. *)
Lemma mock_price_range (u : Q) (symbol : string) :
  0 <= u <= 1 ->
  let base := dget_or (PyStr.upper symbol) Providers.mock_base 100 in
  base * 0.95 - (1 # 2000000) <= Providers.mock_price u symbol
  /\ Providers.mock_price u symbol <= base * 1.05 + (1 # 2000000).
Proof.
  intros [L U]. cbv zeta. unfold Providers.mock_price.
  pose proof (mock_base_at_least (PyStr.upper symbol)) as B.
  set (base := dget_or (PyStr.upper symbol) Providers.mock_base 100) in *.
  pose proof (round6_near (base * (0.95 + 0.10 * u))) as R.
  apply Qabs_Qle_condition in R. destruct R as [R1 R2].
  split; nra.
Qed.

Lemma mock_price_pos (u : Q) (symbol : string) :
  0 <= u -> 0 < Providers.mock_price u symbol.
Proof.
  intro L. unfold Providers.mock_price.
  pose proof (mock_base_at_least (PyStr.upper symbol)) as B.
  set (base := dget_or (PyStr.upper symbol) Providers.mock_base 100) in *.
  pose proof (round6_near (base * (0.95 + 0.10 * u))) as R.
  apply Qabs_Qle_condition in R. destruct R as [R1 R2].
  nra.
Qed.

Lemma usable_pos (q : Quote) (p : Q) : Providers.usable q = Some p -> 0 < p.
Proof.
  destruct q as [p' | |]; simpl; try discriminate.
  destruct (Qlt_bool 0 p') eqn:E; [| discriminate].
  intro H. injection H as <-. now apply Qlt_bool_iff.
Qed.

Lemma latest_price_result (feeds : Providers.Feeds) (symbol : string) :
  0 <= Providers.random feeds ->
  (symbol = "" /\ Providers.latest_price feeds symbol = None)
  \/ (symbol <> ""
      /\ exists p, Providers.latest_price feeds symbol = Some p /\ 0 < p).
Proof.
  intro Hu. unfold Providers.latest_price.
  destruct (String.eqb_spec symbol "") as [-> | N]; [now left |].
  right. split; [exact N |].
  destruct (PyStr.mem _ Providers._CRYPTO).
  - destruct (Providers.usable (Providers.cg_get_price feeds _)) as [p |] eqn:E1.
    { exists p. split; [reflexivity | now apply usable_pos in E1]. }
    destruct (Providers.usable (Providers.cg_simple_prices feeds _)) as [v |] eqn:E2.
    { exists v. split; [reflexivity | now apply usable_pos in E2]. }
    eexists. split; [reflexivity | now apply mock_price_pos].
  - destruct (Providers.usable (Providers.yf_get_price feeds _)) as [p |] eqn:E1.
    { exists p. split; [reflexivity | now apply usable_pos in E1]. }
    eexists. split; [reflexivity | apply provider_fallback_price_positive].
Qed.

(** X17.  [latest_price] answers [None] for the empty symbol only; for every
    other symbol, whatever the providers answer (a price, nothing, an
    exception), it returns a positive price.  With every provider down, the
    price of a crypto symbol is a mock price within 5% of its base price (up
    to the rounding to six decimals), and the price of any other symbol is
    its entry of the static table, 100.0 when it has none. *)
Theorem latest_price_is_positive_unless_symbol_empty
        (feeds : Providers.Feeds) (symbol : string) :
  0 <= Providers.random feeds <= 1 ->
  (Providers.latest_price feeds symbol = None <-> symbol = "")
  /\ (forall p, Providers.latest_price feeds symbol = Some p -> 0 < p)
  /\ (symbol <> "" ->
      let sym := PyStr.upper (PyStr.strip symbol) in
      let down := feeds_down (Providers.random feeds) in
      if PyStr.mem sym Providers._CRYPTO
      then exists p,
             Providers.latest_price down symbol = Some p
             /\ dget_or sym Providers.mock_base 100 * 0.95 - (1 # 2000000) <= p
             /\ p <= dget_or sym Providers.mock_base 100 * 1.05 + (1 # 2000000)
      else Providers.latest_price down symbol
           = Some (dget_or sym Providers._FALLBACK_PRICE_MAP 100)).
Proof.
  intros [Hu Hu1].
  destruct (latest_price_result feeds symbol Hu) as [[E H] | [N [p [H P]]]].
  - split; [| split].
    + split; [now intros _ | now intros _].
    + intros p Hp. rewrite H in Hp. discriminate.
    + intro N. contradiction.
  - split; [| split].
    + split; [rewrite H; discriminate | intro E; contradiction].
    + intros p' Hp. rewrite H in Hp. injection Hp as <-. exact P.
    + intros _. cbv zeta. unfold Providers.latest_price.
      destruct (String.eqb_spec symbol "") as [E | _]; [contradiction |].
      destruct (PyStr.mem _ Providers._CRYPTO); cbn; [| reflexivity].
      eexists. split; [reflexivity |].
      pose proof (mock_price_range (Providers.random feeds)
                                   (PyStr.upper (PyStr.strip symbol))
                                   (conj Hu Hu1)) as R.
      cbv zeta in R. rewrite upper_idem in R. exact R.
Qed.

Lemma latest_price_is_positive_unless_symbol_empty_witness :
  0 <= Providers.random (feeds_down 0) <= 1
  /\ Providers.latest_price (feeds_down 0) "AAPL" = Some 230.10.
Proof.
  assert (H : 0 <= Providers.random (feeds_down 0) <= 1)
    by (split; vm_compute; discriminate).
  split; [exact H |].
  refine (proj2 (proj2 (latest_price_is_positive_unless_symbol_empty
                          (feeds_down 0) "AAPL" H)) _).
  discriminate.
Defined.

(** X18.  The engine's price is the providers' price.  When the engine's
    price source is [latest_price], [get_exec_price] returns what
    [latest_price] returns for the normalised instrument name; the engine's
    own fallback table is reached only by a blank instrument name, for which
    the price is 100.0. *)
Theorem engine_price_is_the_provider_price
        (feeds : Providers.Feeds) (inst : string) :
  0 <= Providers.random feeds ->
  let sym := PyStr.upper (PyStr.strip inst) in
  (sym <> "" ->
   Providers.latest_price feeds sym
   = Some (get_exec_price (provider_quote feeds) inst))
  /\ (sym = "" -> get_exec_price (provider_quote feeds) inst = 100).
Proof.
  intro Hu. cbv zeta. unfold get_exec_price, provider_quote. split.
  - intro N.
    destruct (latest_price_result feeds (PyStr.upper (PyStr.strip inst)) Hu)
      as [[E _] | [_ [p [H P]]]]; [contradiction |].
    rewrite H. apply Qlt_bool_iff in P. now rewrite P.
  - intro E. rewrite E. reflexivity.
Qed.

Lemma engine_price_is_the_provider_price_witness :
  get_exec_price (provider_quote (feeds_down 0)) "  " = 100.
Proof.
  refine (proj2 (engine_price_is_the_provider_price (feeds_down 0) "  " _) _).
  - vm_compute; discriminate.
  - reflexivity.
Defined.

End ProviderFacts.

(* ------------------------------------------------------------------------- *)
(** ** A class with one instrument, from the signals to the validator *)

Section LoneInstrument.
Import Validate Scenarios.

Lemma round6_eq (x y : Q) : x == y -> round6 x = round6 y.
Proof.
  intro E. unfold round6.
  rewrite (round_half_even_comp (x * 1000000) (y * 1000000));
    [reflexivity | now rewrite E].
Qed.

(** The class plan of a class with one instrument: the instrument takes the
    class weight, whatever the cap. *)
Lemma class_plan_of_single target_alloc pos_max cls inst conf :
  0 < pos_max -> 0 < conf ->
  class_plan_of target_alloc pos_max cls [(inst, conf)]
  = [(inst, round6 (clamp01 (dget_or cls target_alloc 0)))].
Proof.
  intros Hp Hc. unfold class_plan_of, Risk.cap_position_weights.
  cbn [values dmap map fst snd pysum fold_left].
  set (x := conf / (0 + conf)).
  assert (X : x == 1) by (unfold x; field; lra).
  set (m := pymin x pos_max).
  assert (M : 0 < m).
  { unfold m. destruct (pymin_cases x pos_max) as [[_ ->] | [_ ->]]; lra. }
  destruct (Qeq_bool (0 + m) 0) eqn:E.
  - apply Qeq_bool_iff in E. lra.
  - cbn [dmap map fst snd]. f_equal. f_equal. apply round6_eq. field. lra.
Qed.

Lemma main_status_fail (strategy_read : option Strategy) (plan_read : PlanRead) m :
  In m (errors (main strategy_read plan_read)) ->
  status (main strategy_read plan_read) = FAIL.
Proof.
  unfold main. destruct (read_strategy strategy_read) as [strategy log1].
  cbv zeta. destruct (read_plan plan_read) as [classes log3].
  cbn [errors status].
  destruct (log_errors _); [intros [] | reflexivity].
Qed.

(** X19.  A class with a single instrument defeats the position cap, and the
    validator says so.  When the signals hold one instrument of a class, with
    a positive confidence, the plan gives it the whole class weight (the
    policy's class target clamped to [0,1] and rounded to six decimals),
    whatever the position cap; when that weight is above the cap by more than
    1e-9, the validator run on the plan reports the instrument as above the
    limit and fails. *)
Theorem lone_instrument_takes_class_weight
        (strategy : Strategy) (signals : list Signal) (plan : Plan)
        (pos_max : Q) (cls inst : string) (conf : Q) :
  build_plan strategy signals = Some plan ->
  position_max_pct strategy = Some pos_max ->
  0 < pos_max ->
  dget cls (group_signals signals) = Some [(inst, conf)] ->
  0 < conf ->
  dget cls (classes plan)
  = Some [(inst, round6 (clamp01 (dget_or cls (target_alloc_of strategy) 0)))]
  /\ (pos_max + (1 # 1000000000)
      < round6 (clamp01 (dget_or cls (target_alloc_of strategy) 0)) ->
      In (PositionAboveLimit
            inst cls
            (round6 (clamp01 (dget_or cls (target_alloc_of strategy) 0)))
            pos_max)
         (errors (main (Some strategy) (PlanLoaded (Some (classes plan)))))
      /\ status (main (Some strategy) (PlanLoaded (Some (classes plan)))) = FAIL).
Proof.
  intros Hb Hpm Hpos Hg Hc.
  unfold build_plan in Hb. rewrite Hpm in Hb. injection Hb as <-.
  set (w := round6 (clamp01 (dget_or cls (target_alloc_of strategy) 0))).
  assert (Hget : dget cls (classes (plan_loop (target_alloc_of strategy) pos_max
                                              (group_signals signals)))
                 = Some [(inst, w)]).
  { unfold plan_loop.
    rewrite (fold_step_classes_get (target_alloc_of strategy) pos_max
               (group_signals signals) cls [(inst, conf)]).
    - now rewrite class_plan_of_single.
    - apply group_signals_wf.
    - now apply dget_In.
    - split; [discriminate |]. cbn. lra. }
  split; [exact Hget |]. intro Hw.
  assert (Hin : In (PositionAboveLimit inst cls w pos_max)
                   (errors (main (Some strategy)
                      (PlanLoaded (Some (classes (plan_loop
                         (target_alloc_of strategy) pos_max
                         (group_signals signals)))))))).
  { rewrite main_errors. cbv zeta. rewrite Hpm. cbn [read_plan fst snd].
    apply in_or_app. right. apply in_or_app. right. apply in_or_app. right.
    apply in_or_app. right. apply in_or_app. right. apply in_or_app. right.
    apply in_or_app. right.
    rewrite check_positions_errors_eq.
    change (PositionAboveLimit inst cls w pos_max)
      with (position_error pos_max (inst, cls, w)).
    apply in_map.
    eapply Permutation_in; [apply sorted_by_weight_perm |].
    apply In_violators_of. exists [(inst, w)].
    split; [now apply dget_In | split; [now left | exact Hw]]. }
  split; [exact Hin | exact (main_status_fail _ _ _ Hin)].
Qed.

Lemma lone_instrument_takes_class_weight_witness :
  dget "equities" (classes plan_aapl_060)
  = Some [("AAPL",
           round6 (clamp01 (dget_or "equities" (target_alloc_of policy_60_40) 0)))].
Proof.
  refine (proj1 (lone_instrument_takes_class_weight
                   policy_60_40 signals_aapl plan_aapl_060 0.35 "equities"
                   "AAPL" 0.8 _ _ _ _ _)).
  - vm_compute; reflexivity.
  - reflexivity.
  - reflexivity.
  - reflexivity.
  - reflexivity.
Defined.

End LoneInstrument.

(* ------------------------------------------------------------------------- *)
(** ** The Plan Validator: when a plan passes *)

Section ValidatorVerdict.
Import Validate.

Lemma main_status (strategy_read : option Strategy) (plan_read : PlanRead) :
  status (main strategy_read plan_read) = OK
  <-> errors (main strategy_read plan_read) = [].
Proof.
  unfold main. destruct (read_strategy strategy_read) as [strategy log1].
  cbv zeta. destruct (read_plan plan_read) as [classes log3].
  cbn [errors status].
  destruct (log_errors _); split; intro H; try reflexivity; discriminate.
Qed.

Lemma main_unreadable_strategy (plan_read : PlanRead) :
  In StrategyUnreadable (errors (main None plan_read)).
Proof.
  unfold main. cbn [read_strategy]. cbv zeta.
  destruct (read_plan plan_read) as [classes log3].
  cbn. now left.
Qed.

Lemma check_alloc_target_ok (alloc_target : dict Q) :
  log_errors (check_alloc_target alloc_target) = []
  <-> alloc_target <> [] /\ 0 < pysum (values alloc_target).
Proof.
  unfold check_alloc_target. destruct alloc_target as [| e l].
  - split; [discriminate | intros [N _]; congruence].
  - destruct (Qle_bool (pysum (values (e :: l))) 0) eqn:E.
    + apply Qle_bool_iff in E. split; [discriminate | intros [_ P]; lra].
    + assert (P : 0 < pysum (values (e :: l))).
      { apply Qnot_le_lt. intro L. apply Qle_bool_iff in L. congruence. }
      split; [intros _; split; [discriminate | exact P] |].
      intros _. now destruct (Qlt_bool _ _).
Qed.

Lemma check_bands_ok alloc_target bands class_sums :
  log_errors (check_bands alloc_target bands class_sums) = []
  <-> forall cls target,
        In (cls, target) alloc_target ->
        target - bands - EPS6 <= dget_or cls class_sums 0
        /\ dget_or cls class_sums 0 <= target + bands + EPS6.
Proof.
  split.
  - intros H cls target Hin.
    destruct (out_of_band target bands (dget_or cls class_sums 0)) eqn:E.
    + assert (I : In (ClassOutOfBand cls target (dget_or cls class_sums 0) bands)
                     (log_errors (check_bands alloc_target bands class_sums))).
      { apply check_bands_errors. exists cls, target. auto. }
      rewrite H in I. destruct I.
    + unfold out_of_band in E. apply orb_false_iff in E. destruct E as [E1 E2].
      apply Qlt_bool_false_iff in E1, E2. split; assumption.
  - intro H.
    destruct (log_errors (check_bands alloc_target bands class_sums))
      as [| m l] eqn:E; [reflexivity |].
    assert (I : In m (log_errors (check_bands alloc_target bands class_sums)))
      by (rewrite E; now left).
    apply check_bands_errors in I. destruct I as [cls [target [Hin [Ho _]]]].
    destruct (H cls target Hin) as [L U].
    unfold out_of_band in Ho. apply orb_true_iff in Ho.
    destruct Ho as [Ho | Ho]; apply Qlt_bool_iff in Ho; lra.
Qed.

Lemma check_total_ok total :
  log_errors (check_total total) = [] <-> Qabs (total - 1) <= 1 # 1000.
Proof.
  unfold check_total. destruct (Qlt_bool (1 # 1000) (Qabs (total - 1))) eqn:E.
  - apply Qlt_bool_iff in E. split; [discriminate | intro L; lra].
  - apply Qlt_bool_false_iff in E. split; [now intros _ | reflexivity].
Qed.

Lemma check_positions_ok pos_max (classes : dict (dict Q)) :
  log_errors (check_positions pos_max classes) = []
  <-> forall cls items inst w,
        In (cls, items) classes -> In (inst, w) items ->
        w <= pos_max + (1 # 1000000000).
Proof.
  rewrite check_positions_errors_eq. split.
  - intros H cls items inst w Hc Hi.
    apply Qnot_lt_le. intro L.
    assert (I : In (inst, cls, w)
                   (sorted_by_weight (violators_of pos_max classes))).
    { eapply Permutation_in; [apply sorted_by_weight_perm |].
      apply In_violators_of. exists items. auto. }
    apply (in_map (position_error pos_max)) in I. rewrite H in I. destruct I.
  - intro H.
    destruct (sorted_by_weight (violators_of pos_max classes))
      as [| [[inst cls] w] l] eqn:E; [reflexivity |].
    assert (I : In (inst, cls, w) (violators_of pos_max classes)).
    { eapply Permutation_in;
        [apply Permutation_sym, sorted_by_weight_perm | rewrite E; now left]. }
    apply In_violators_of in I. destruct I as [items [Hc [Hi L]]].
    pose proof (H cls items inst w Hc Hi). lra.
Qed.

(** The verdict on the rationals: the status is OK exactly when every
    condition holds with the tolerances as written. *)
Lemma status_ok_exact
        (strategy_read : option Strategy) (plan_read : PlanRead) :
  status (main strategy_read plan_read) = OK
  <-> exists strategy classes,
        strategy_read = Some strategy
        /\ plan_read = PlanLoaded (Some classes)
        /\ target_alloc_of strategy <> []
        /\ 0 < pysum (values (target_alloc_of strategy))
        /\ classes <> []
        /\ (forall cls target,
              In (cls, target) (target_alloc_of strategy) ->
              target - match rebalance_bands strategy with
                       | Some b => b | None => 0 end - EPS6
              <= dget_or cls (class_sums_of classes) 0
              /\ dget_or cls (class_sums_of classes) 0
                 <= target + match rebalance_bands strategy with
                             | Some b => b | None => 0 end + EPS6)
        /\ Qabs (pysum (values (class_sums_of classes)) - 1) <= 1 # 1000
        /\ (forall cls items inst w,
              In (cls, items) classes -> In (inst, w) items ->
              w <= match position_max_pct strategy with
                   | Some p => p | None => 1 end + (1 # 1000000000)).
Proof.
  rewrite main_status. split.
  - intro H. destruct strategy_read as [strategy |].
    2:{ pose proof (main_unreadable_strategy plan_read) as I.
        rewrite H in I. destruct I. }
    rewrite main_errors in H. cbv zeta in H.
    apply app_eq_nil in H. destruct H as [H1 H].
    apply app_eq_nil in H. destruct H as [H2 H].
    apply app_eq_nil in H. destruct H as [H3 H].
    apply app_eq_nil in H. destruct H as [_ H].
    apply app_eq_nil in H. destruct H as [_ H].
    apply app_eq_nil in H. destruct H as [H6 H].
    apply app_eq_nil in H. destruct H as [H7 H8].
    destruct plan_read as [| | [classes |]]; try discriminate H2;
      cbn [read_plan fst snd] in *; [| discriminate H3].
    exists strategy, classes.
    apply check_alloc_target_ok in H1. destruct H1 as [A1 A2].
    split; [reflexivity |]. split; [reflexivity |].
    split; [exact A1 |]. split; [exact A2 |].
    split; [intro E; rewrite E in H3; discriminate |].
    split; [now apply check_bands_ok |].
    split; [now apply check_total_ok | now apply check_positions_ok].
  - intros [strategy [classes [-> [-> [A1 [A2 [C [B [T P]]]]]]]]].
    rewrite main_errors. cbv zeta. cbn [read_plan fst snd].
    rewrite check_unknown_errors, check_missing_errors.
    rewrite (proj2 (check_alloc_target_ok _) (conj A1 A2)).
    rewrite (proj2 (check_bands_ok _ _ _) B).
    rewrite (proj2 (check_total_ok _) T).
    rewrite (proj2 (check_positions_ok _ _) P).
    destruct classes; [congruence | reflexivity].
Qed.

Lemma within_tolerances_exact (strategy : Strategy) (classes : dict (dict Q)) :
  within_tolerances 0 strategy classes
  <-> target_alloc_of strategy <> []
      /\ 0 < pysum (values (target_alloc_of strategy))
      /\ classes <> []
      /\ (forall cls target,
            In (cls, target) (target_alloc_of strategy) ->
            target - match rebalance_bands strategy with
                     | Some b => b | None => 0 end - EPS6
            <= dget_or cls (class_sums_of classes) 0
            /\ dget_or cls (class_sums_of classes) 0
               <= target + match rebalance_bands strategy with
                           | Some b => b | None => 0 end + EPS6)
      /\ Qabs (pysum (values (class_sums_of classes)) - 1) <= 1 # 1000
      /\ (forall cls items inst w,
            In (cls, items) classes -> In (inst, w) items ->
            w <= match position_max_pct strategy with
                 | Some p => p | None => 1 end + (1 # 1000000000)).
Proof.
  unfold within_tolerances. cbv zeta.
  split; intros [A [S [C [B [T P]]]]].
  - split; [exact A |]. split; [lra |]. split; [exact C |].
    split; [intros cls target Hin; destruct (B cls target Hin); split; lra |].
    split; [lra |].
    intros cls items inst w Hc Hi. pose proof (P cls items inst w Hc Hi). lra.
  - split; [exact A |]. split; [lra |]. split; [exact C |].
    split; [intros cls target Hin; destruct (B cls target Hin); split; lra |].
    split; [lra |].
    intros cls items inst w Hc Hi. pose proof (P cls items inst w Hc Hi). lra.
Qed.

(** Wider tolerances accept more. *)
Lemma within_tolerances_mono (tol tol' : Q) (strategy : Strategy)
      (classes : dict (dict Q)) :
  tol <= tol' ->
  within_tolerances tol strategy classes ->
  within_tolerances tol' strategy classes.
Proof.
  intros L. unfold within_tolerances. cbv zeta.
  intros [A [S [C [B [T P]]]]].
  split; [exact A |]. split; [lra |]. split; [exact C |].
  split; [intros cls target Hin; destruct (B cls target Hin); split; lra |].
  split; [lra |].
  intros cls items inst w Hc Hi. pose proof (P cls items inst w Hc Hi). lra.
Qed.

(** X20.  When the validator passes a plan.  If the strategy and the plan's
    classes could be read and every condition holds with 1e-9 to spare (class
    targets with a sum of at least 1e-9, a plan with a class, every policy
    class within its band plus 1e-6 of its target, at 0.0 when the plan lacks
    the class, a total within 1e-3 of 1, no weight above the position limit),
    the status is OK; and if the status is OK, the strategy and the classes
    were read and every condition holds up to 1e-9 more.  Warnings (a policy
    sum away from 1, unknown or missing classes) do not count.  Between the
    two, within 1e-9 of an edge, the last digit of a double decides. *)
Theorem validator_passes_within_tolerances
        (strategy_read : option Strategy) (plan_read : PlanRead) :
  (forall strategy classes,
      strategy_read = Some strategy ->
      plan_read = PlanLoaded (Some classes) ->
      within_tolerances (- MARGIN) strategy classes ->
      status (main strategy_read plan_read) = OK)
  /\ (status (main strategy_read plan_read) = OK ->
      exists strategy classes,
        strategy_read = Some strategy
        /\ plan_read = PlanLoaded (Some classes)
        /\ within_tolerances MARGIN strategy classes).
Proof.
  split.
  - intros strategy classes Hs Hp H.
    apply status_ok_exact. exists strategy, classes.
    split; [exact Hs |]. split; [exact Hp |].
    apply within_tolerances_exact.
    apply (within_tolerances_mono (- MARGIN)); [discriminate | exact H].
  - intro H. apply status_ok_exact in H.
    destruct H as [strategy [classes [Hs [Hp H]]]].
    exists strategy, classes. split; [exact Hs |]. split; [exact Hp |].
    apply (within_tolerances_mono 0); [discriminate |].
    now apply within_tolerances_exact.
Qed.

End ValidatorVerdict.

(* ------------------------------------------------------------------------- *)
(** ** The file cache *)

Section CacheFacts.
Context {V : Type}.

Lemma dget_del_same (key : string) (db : Cache.Db V) :
  dget key (Cache.del key db) = None.
Proof.
  unfold Cache.del. induction db as [| [k item] db IH]; [reflexivity |].
  cbn [filter fst]. destruct (String.eqb_spec key k) as [E | N]; cbn [negb].
  - exact IH.
  - cbn [dget]. destruct (String.eqb_spec key k); [contradiction | exact IH].
Qed.

Lemma dget_del_other (key key' : string) (db : Cache.Db V) :
  key' <> key -> dget key' (Cache.del key db) = dget key' db.
Proof.
  intro N. unfold Cache.del. induction db as [| [k item] db IH]; [reflexivity |].
  cbn [filter fst]. destruct (String.eqb_spec key k) as [E | N']; cbn [negb].
  - subst k. cbn [dget].
    destruct (String.eqb_spec key' key); [contradiction | exact IH].
  - cbn [dget]. now rewrite IH.
Qed.

Lemma cache_get_fresh (now : Q) (key : string) (db : Cache.Db V) (item : Cache.Item V) :
  dget key db = Some item -> now <= Cache.exp item ->
  Cache.get now key db = (Some (Cache.val item), db).
Proof.
  intros E L. unfold Cache.get. rewrite E.
  apply Qlt_bool_false_iff in L. now rewrite L.
Qed.

Lemma cache_get_set_fresh
      (db : Cache.Db V) (key : string) (value : V) (ttl : Z) (t t' : Q) :
  t' <= t + inject_Z ttl ->
  Cache.get t' key (Cache.set t key value ttl db)
  = (Some value, Cache.set t key value ttl db).
Proof.
  intro L. unfold Cache.set.
  now rewrite (cache_get_fresh t' key _ (Cache.mkItem (t + inject_Z ttl) value)
                               (dget_dset_same _ _ _) L).
Qed.

(** X21.  The file cache gives back what was stored until the entry expires.
    After [set] at time [t] with a time to live [ttl], a [get] of the key at
    any time up to [t + ttl] returns the value and leaves the file alone; a
    [get] after [t + ttl] returns [None] and deletes the entry, so that no
    later [get] finds it; and a [get] of another key answers as it would
    have without the [set]. *)
Theorem cache_get_after_set
        (db : Cache.Db V) (key : string) (value : V) (ttl : Z) (t t' : Q) :
  let db' := Cache.set t key value ttl db in
  (t' <= t + inject_Z ttl -> Cache.get t' key db' = (Some value, db'))
  /\ (t + inject_Z ttl < t' ->
      fst (Cache.get t' key db') = None
      /\ forall t'', Cache.get t'' key (snd (Cache.get t' key db'))
                     = (None, snd (Cache.get t' key db')))
  /\ (forall key', key' <> key ->
        fst (Cache.get t' key' db') = fst (Cache.get t' key' db)).
Proof.
  cbv zeta. split; [apply cache_get_set_fresh |]. unfold Cache.set. split.
  - intro L. unfold Cache.get at 1 3 4. rewrite dget_dset_same. cbn [Cache.exp].
    apply Qlt_bool_iff in L. rewrite L. cbn [fst snd].
    split; [reflexivity |]. intro t''. unfold Cache.get.
    now rewrite dget_del_same.
  - intros key' N. unfold Cache.get. rewrite dget_dset_other by exact N.
    destruct (dget key' db) as [item |]; [| reflexivity].
    now destruct (Qlt_bool _ _).
Qed.

End CacheFacts.

Section CoinGeckoFacts.
Import Paper.

(** X22.  A fetched crypto price is served from the cache until it expires.
    When [get_price] finds no fresh entry for a known symbol and the request
    answers with a price, it returns that price; every call for the symbol
    up to [ttl] seconds after the price was stored returns the same price,
    whatever the request would answer then, and leaves the cache file as it
    is. *)
Theorem fetched_price_is_served_from_cache
        (ttl : Z) (now later : Q) (p : Q) (symbol sid : string)
        (db : Cache.Db Q) :
  dget (PyStr.upper symbol) CoinGecko.CG_IDS = Some sid ->
  fst (Cache.get now ("cg:price:" ++ sid) db) = None ->
  exists db1,
    CoinGecko.get_price ttl now later (CoinGecko.Status200 (Some p)) symbol db
    = (Price p, db1)
    /\ forall now' later' http',
         now' <= later + inject_Z ttl ->
         CoinGecko.get_price ttl now' later' http' symbol db1 = (Price p, db1).
Proof.
  intros Hid Hmiss. unfold CoinGecko.get_price. rewrite Hid. cbv zeta.
  destruct (Cache.get now ("cg:price:" ++ sid) db) as [r db0] eqn:E.
  cbn [fst] in Hmiss. subst r.
  eexists. split; [reflexivity |].
  intros now' later' http' L.
  now rewrite (cache_get_set_fresh db0 ("cg:price:" ++ sid) p ttl later now' L).
Qed.

Lemma fetched_price_is_served_from_cache_witness :
  exists db1,
    CoinGecko.get_price 900 0 1 (CoinGecko.Status200 (Some 65000)) "btc" []
    = (Price 65000, db1)
    /\ forall now' later' http',
         now' <= 1 + inject_Z 900 ->
         CoinGecko.get_price 900 now' later' http' "btc" db1 = (Price 65000, db1).
Proof.
  refine (fetched_price_is_served_from_cache 900 0 1 65000 "btc" "bitcoin" [] _ _);
    reflexivity.
Defined.

End CoinGeckoFacts.

(* ------------------------------------------------------------------------- *)
(** ** The agents' signals *)

Section AgentFacts.
Import Agents.

Lemma round_half_even_ge (q : Q) (z : Z) :
  inject_Z z <= q -> (z <= round_half_even q)%Z.
Proof.
  intro H. unfold round_half_even.
  pose proof (Qfloor_resp_le _ _ H) as F. rewrite Qfloor_Z in F.
  destruct (Qcompare _ _); [destruct (Z.even _) | |]; lia.
Qed.

Lemma round3_le (x : Q) (k : Z) :
  x * 1000 <= inject_Z k -> round3 x <= inject_Z k / 1000.
Proof.
  intro H. unfold round3. apply round_half_even_le in H.
  rewrite Zle_Qle in H.
  apply Qmult_le_compat_r with (z := / 1000) in H; [exact H | discriminate].
Qed.

Lemma round3_ge (x : Q) (k : Z) :
  inject_Z k <= x * 1000 -> inject_Z k / 1000 <= round3 x.
Proof.
  intro H. unfold round3. apply round_half_even_ge in H.
  rewrite Zle_Qle in H.
  apply Qmult_le_compat_r with (z := / 1000) in H; [exact H | discriminate].
Qed.

Lemma round3_unit (x : Q) : 0 <= x <= 1 -> 0 <= round3 x <= 1.
Proof.
  intros [L U]. split.
  - apply (Qle_trans _ (inject_Z 0 / 1000)); [discriminate |].
    apply round3_ge. change (inject_Z 0) with 0. lra.
  - apply (Qle_trans _ (inject_Z 1000 / 1000)); [| discriminate].
    apply round3_le. change (inject_Z 1000) with 1000. lra.
Qed.

Lemma round3_ge_055 (x : Q) : 0.55 <= x -> 0.55 <= round3 x.
Proof.
  intro L. apply (Qle_trans _ (inject_Z 550 / 1000)); [discriminate |].
  apply round3_ge. change (inject_Z 550) with 550. lra.
Qed.

Lemma round3_le_055 (x : Q) : x <= 0.55 -> round3 x <= 0.55.
Proof.
  intro L. apply (Qle_trans _ (inject_Z 550 / 1000)); [| discriminate].
  apply round3_le. change (inject_Z 550) with 550. lra.
Qed.


(** [max(0, min(1, x))] against a threshold inside the interval. *)
Lemma clamp_gt (c x : Q) :
  0 <= c -> c < 1 -> (c < pymax 0 (pymin 1 x) <-> c < x).
Proof.
  intros L U.
  destruct (pymin_cases 1 x) as [[L1 E1] | [L1 E1]]; rewrite E1.
  - destruct (pymax_cases 0 1) as [[L2 E2] | [L2 E2]]; rewrite E2;
      split; intro; lra.
  - destruct (pymax_cases 0 x) as [[L2 E2] | [L2 E2]]; rewrite E2;
      split; intro; lra.
Qed.


Lemma clamp_unit (x : Q) : 0 <= pymax 0 (pymin 1 x) <= 1.
Proof. exact (clamp01_unit x). Qed.

(** The score of an equity with a history, before rounding. *)
Lemma equity_score_cases (ticker : string) (raw : Q) :
  let score := Equities._clamp (0.5 + raw) 0 1 in
  let score' :=
    if PyStr.mem ticker Equities.ETF_SET
    then Equities._clamp (score + Equities.ETF_BOOST) 0 1 else score in
  0 <= score' <= 1
  /\ (0.55 < score' <-> equity_buy_threshold ticker < raw).
Proof.
  cbv zeta. unfold Equities._clamp, equity_buy_threshold, Equities.ETF_BOOST.
  pose proof (clamp_unit (0.5 + raw)) as U.
  destruct (PyStr.mem ticker Equities.ETF_SET).
  - split; [apply clamp_unit |].
    rewrite clamp_gt by lra.
    pose proof (clamp_gt 0.49 (0.5 + raw)) as G.
    split; intro H.
    + assert (H' : 0.49 < pymax 0 (pymin 1 (0.5 + raw))) by lra.
      apply G in H'; lra.
    + assert (H' : 0.49 < 0.5 + raw) by lra.
      apply G in H'; lra.
  - split; [exact U |]. rewrite clamp_gt by lra. split; intro; lra.
Qed.

(** X23.  The equities agent's signal.  Its confidence lies in [0, 1]; a BUY
    has a confidence of at least 0.55 and a HOLD of at most 0.55.  Without a
    price history the signal is HOLD at 0.5; with one, it is BUY exactly when
    the raw score (positives minus penalties) is above 0.05, or above -0.01
    for one of the four ETFs, which the boost of 0.06 lifts. *)
Theorem equity_signal_bounds_and_buy_rule
        (ticker : string) (hist : option Closes) (f : Equities.Fundamentals) :
  let sig := Equities.score_equity ticker hist f in
  0 <= confidence sig <= 1
  /\ (side sig = BUY -> 0.55 <= confidence sig)
  /\ (side sig = HOLD -> confidence sig <= 0.55)
  /\ match hist with
     | None => side sig = HOLD /\ confidence sig = 0.50
     | Some h =>
         side sig = BUY
         <-> equity_buy_threshold ticker
             < Equities.positives h f - Equities.penalties f
     end.
Proof.
  cbv zeta. destruct hist as [h |]; unfold Equities.score_equity.
  - cbv zeta.
    pose proof (equity_score_cases ticker
                  (Equities.positives h f - Equities.penalties f)) as C.
    cbv zeta in C.
    set (score := if PyStr.mem ticker Equities.ETF_SET then _ else _) in *.
    destruct C as [U B]. cbn [side confidence].
    split; [now apply round3_unit |].
    destruct (Qlt_bool 0.55 score) eqn:E.
    + apply Qlt_bool_iff in E.
      split; [intros _; apply round3_ge_055; lra |].
      split; [discriminate |].
      split; [intros _; now apply B | reflexivity].
    + apply Qlt_bool_false_iff in E.
      split; [discriminate |].
      split; [intros _; now apply round3_le_055 |].
      split; [discriminate |]. intro H. apply B in H. lra.
  - cbn [side confidence].
    split; [split; discriminate |].
    split; [discriminate |].
    split; [intros _; discriminate |]. split; reflexivity.
Qed.




Lemma sma_short (px : list Q) (window : nat) :
  (List.length px < window)%nat -> Crypto._sma px window = None.
Proof.
  intro H. unfold Crypto._sma. apply Nat.ltb_lt in H. now rewrite H.
Qed.

Lemma signals_for_raises (pxs : string -> list Q) (mads : string -> option Q)
      (syms : list string) (s : string) :
  In s syms ->
  Crypto._signal_for_symbol s (pxs s) (mads s) = None ->
  Crypto.signals_for pxs mads syms = None.
Proof.
  intros Hin Hs. induction syms as [| t rest IH]; [destruct Hin |].
  cbn [Crypto.signals_for].
  destruct (Crypto._signal_for_symbol t (pxs t) (mads t)) as [sig |] eqn:E;
    [| reflexivity].
  destruct Hin as [-> | Hin]; [congruence |].
  now rewrite (IH Hin).
Qed.

(** X25.  The crypto agent's signal for one symbol.  With no price at all it
    is HOLD at 0.3.  With prices but no ATR (fewer than 15 prices, or no
    daily return) it raises, and so does [main].  With at least 15 prices and
    an ATR it returns a signal for the symbol: BUY with a confidence of 0.7,
    0.63 or 0.55, which needs at least 50 prices, or HOLD with 0.4, 0.33 or
    0.25, the volatility penalty deciding which. *)
Theorem crypto_signal_values
        (s : string) (px : list Q) (mad : option Q) :
  (px = [] ->
   Crypto._signal_for_symbol s px mad = Some (mkAgentSignal s HOLD 0.3))
  /\ (px <> [] -> ((List.length px < 15)%nat \/ mad = None) ->
      Crypto._signal_for_symbol s px mad = None
      /\ forall pxs mads,
           In s Crypto.SYMS -> pxs s = px -> mads s = mad ->
           Crypto.main pxs mads = None)
  /\ (px <> [] -> (15 <= List.length px)%nat ->
      forall m, mad = Some m ->
      exists sig,
        Crypto._signal_for_symbol s px mad = Some sig
        /\ instrument_id sig = s
        /\ ((side sig = BUY
             /\ (confidence sig == 0.7 \/ confidence sig == 0.63
                 \/ confidence sig == 0.55)
             /\ (50 <= List.length px)%nat)
            \/ (side sig = HOLD
                /\ (confidence sig == 0.4 \/ confidence sig == 0.33
                    \/ confidence sig == 0.25)))).
Proof.
  split; [| split].
  - intros ->. reflexivity.
  - intros N H.
    assert (R : Crypto._signal_for_symbol s px mad = None).
    { unfold Crypto._signal_for_symbol.
      destruct px as [| p px']; [congruence |]. cbv zeta.
      assert (A : Crypto._atr_percent (p :: px') mad = None).
      { unfold Crypto._atr_percent. change (14 + 1)%nat with 15%nat.
        destruct H as [H | ->].
        - apply Nat.ltb_lt in H. now rewrite H.
        - now destruct (_ <? _)%nat. }
      now rewrite A. }
    split; [exact R |]. intros pxs mads Hin Hp Hm.
    apply (signals_for_raises pxs mads Crypto.SYMS s Hin).
    now rewrite Hp, Hm.
  - intros N L m ->. unfold Crypto._signal_for_symbol.
    destruct px as [| p px']; [congruence |].
    cbv beta iota zeta.
    remember (p :: px') as px eqn:Hpx.
    assert (A : Crypto._atr_percent px (Some m) = Some (m * 1.253)).
    { unfold Crypto._atr_percent. change (14 + 1)%nat with 15%nat.
      apply Nat.ltb_ge in L. now rewrite L. }
    rewrite A. cbv beta iota.
    eexists. split; [reflexivity |].
    cbn [instrument_id side confidence].
    split; [reflexivity |].
    set (a := m * 1.253).
    destruct (Qlt_bool (Crypto.or_else (Crypto._sma px 50) (last px 0))
                       (last px 0)) eqn:E1; cbn [andb].
    + destruct (Qlt_bool (Crypto.or_else (Crypto._sma px 200) (Crypto.mean px))
                         (Crypto.or_else (Crypto._sma px 50) (last px 0))) eqn:E2.
      * left. split; [reflexivity |]. split.
        -- destruct (Qlt_bool 0.08 a); [right; right; vm_compute; reflexivity |].
           destruct (Qlt_bool 0.05 a); [right; left | left];
             vm_compute; reflexivity.
        -- destruct (Nat.lt_ge_cases (List.length px) 50) as [S | S];
             [| exact S].
           rewrite (sma_short px 50 S) in E1. cbn [Crypto.or_else] in E1.
           apply Qlt_bool_iff in E1. lra.
      * right. split; [reflexivity |].
        destruct (Qlt_bool 0.08 a); [right; right; vm_compute; reflexivity |].
        destruct (Qlt_bool 0.05 a); [right; left | left];
          vm_compute; reflexivity.
    + right. split; [reflexivity |].
      destruct (Qlt_bool 0.08 a); [right; right; vm_compute; reflexivity |].
      destruct (Qlt_bool 0.05 a); [right; left | left];
        vm_compute; reflexivity.
Qed.

End AgentFacts.

(* ------------------------------------------------------------------------- *)
(** ** The crypto agent's symbols downstream *)

Section CryptoUniverse.
Import Scenarios.

(** X26.  Where the crypto agent's symbols end up.  In every plan, an
    instrument of the crypto agent's universe sits under the class crypto if
    it is BTC or ETH and under the class equities if it is SOL, ADA or DOGE,
    so that the last three share the equities target; the engine and the
    providers treat all five as crypto (fractional lots, CoinGecko
    prices). *)
Theorem crypto_universe_is_split_between_classes
        (strategy : Strategy) (signals : list Signal) (plan : Plan)
        (cls : string) (class_plan : dict Q) (inst : string) :
  build_plan strategy signals = Some plan ->
  In (cls, class_plan) (classes plan) ->
  In inst (keys class_plan) ->
  In inst Agents.Crypto.SYMS ->
  Paper.is_crypto inst = true
  /\ PyStr.mem inst Providers._CRYPTO = true
  /\ (cls = "crypto" <-> inst = "BTC" \/ inst = "ETH")
  /\ (cls = "equities" <-> inst = "SOL" \/ inst = "ADA" \/ inst = "DOGE").
Proof.
  intros Hb Hc Hi Hs.
  destruct (plan_classes_tagged _ _ _ Hb) as [_ T].
  rewrite Forall_forall in T. destruct (T _ Hc) as [_ Hcls].
  cbn [fst snd] in Hcls. rewrite <- (Hcls inst Hi).
  unfold Agents.Crypto.SYMS in Hs. cbn [In] in Hs.
  destruct Hs as [<- | [<- | [<- | [<- | [<- | []]]]]];
    (split; [reflexivity |]); (split; [reflexivity |]); cbn;
    split; split; intro H; try discriminate; auto;
    repeat (destruct H as [H | H]; try discriminate).
Qed.

Lemma crypto_universe_is_split_between_classes_witness :
  Paper.is_crypto "SOL" = true
  /\ PyStr.mem "SOL" Providers._CRYPTO = true
  /\ ("equities" = "crypto" <-> "SOL" = "BTC" \/ "SOL" = "ETH")
  /\ ("equities" = "equities"
      <-> "SOL" = "SOL" \/ "SOL" = "ADA" \/ "SOL" = "DOGE").
Proof.
  refine (crypto_universe_is_split_between_classes
            policy_60_40 signals_sol plan_sol_060 "equities"
            [("SOL", 0.600000)] "SOL" _ _ _ _).
  - vm_compute; reflexivity.
  - left; reflexivity.
  - left; reflexivity.
  - right; right; left; reflexivity.
Defined.

End CryptoUniverse.

(* ------------------------------------------------------------------------- *)
(** ** The pipeline *)

Section Pipeline.
Import Scenarios.

Lemma load_signals_four (e c f r : list Signal) :
  load_signals [Some e; Some c; Some f; Some r] = (e ++ c ++ f ++ r)%list.
Proof.
  unfold load_signals. cbn [flat_map]. now rewrite app_nil_r.
Qed.

Lemma run_stages_ok (stage : RunAll.Stage) (rest : list RunAll.Stage)
      (w w1 : RunAll.World) :
  stage w = (w1, true) ->
  RunAll.run_stages (stage :: rest) w = RunAll.run_stages rest w1.
Proof.
  intro H. cbn [RunAll.run_stages]. now rewrite H.
Qed.

Lemma run_stages_fail (stage : RunAll.Stage) (rest : list RunAll.Stage)
      (w w1 : RunAll.World) :
  stage w = (w1, false) ->
  RunAll.run_stages (stage :: rest) w = (w1, false).
Proof.
  intro H. cbn [RunAll.run_stages]. now rewrite H.
Qed.

Lemma agent_publishes (sigs : list Signal)
      (publish : list Signal -> RunAll.World -> RunAll.World)
      (w : RunAll.World) :
  RunAll.agent (Some sigs) publish w = (publish sigs w, true).
Proof. reflexivity. Qed.

Lemma orchestrator_builds (w : RunAll.World) (strat : Strategy)
      (e c f g : list Signal) (built : Plan) :
  RunAll.strategy w = Some strat ->
  RunAll.signals_equities w = Some e ->
  RunAll.signals_crypto w = Some c ->
  RunAll.signals_fixed_income w = Some f ->
  RunAll.signals_reits w = Some g ->
  build_plan strat (e ++ c ++ f ++ g) = Some built ->
  RunAll.orchestrator w
  = (RunAll.mkWorld (RunAll.strategy w) (RunAll.signals_equities w)
                    (RunAll.signals_crypto w) (RunAll.signals_fixed_income w)
                    (RunAll.signals_reits w) (Some built)
                    (RunAll.portfolio w) (RunAll.exec_log w)
                    (RunAll.validation w) (RunAll.report w),
     true).
Proof.
  intros Hs He Hc Hf Hg Hb. unfold RunAll.orchestrator, Orchestrator.main.
  cbn [strategy_file signal_files plan_file].
  rewrite Hs, He, Hc, Hf, Hg, load_signals_four, Hb. reflexivity.
Qed.

Lemma paper_trades (oracle : Paper.Oracle) (w : RunAll.World)
      (port : Paper.Portfolio) (p : Plan) :
  RunAll.portfolio w = Some port ->
  RunAll.plan w = Some p ->
  RunAll.paper oracle w
  = (RunAll.mkWorld
       (RunAll.strategy w) (RunAll.signals_equities w)
       (RunAll.signals_crypto w) (RunAll.signals_fixed_income w)
       (RunAll.signals_reits w) (RunAll.plan w)
       (Some (fst (Paper.main oracle port (plan_file_orders p))))
       (RunAll.exec_log w ++ snd (Paper.main oracle port (plan_file_orders p)))
       (RunAll.validation w) (RunAll.report w),
     true).
Proof.
  intros Hp Hl. unfold RunAll.paper. rewrite Hp, Hl.
  now destruct (Paper.main oracle port (plan_file_orders p)).
Qed.

(** X27.  The pipeline trades before it validates.  When the four agents
    publish and the Orchestrator builds a plan from the strategy and their
    signals, the run saves that plan, executes it on the portfolio, and only
    then validates it: the portfolio left is the engine's result for the plan
    whatever the validator says.  The report is written, and the run reaches
    its end, exactly when the validator's status is OK (and the report
    renders). *)
Theorem pipeline_trades_before_it_validates
        (r : RunAll.Run) (w : RunAll.World) (strat : Strategy)
        (e c f g : list Signal) (built : Plan) (port : Paper.Portfolio) :
  RunAll.equities r = Some e ->
  RunAll.crypto r = Some c ->
  RunAll.fixed_income r = Some f ->
  RunAll.reits r = Some g ->
  RunAll.strategy w = Some strat ->
  build_plan strat (e ++ c ++ f ++ g) = Some built ->
  RunAll.portfolio w = Some port ->
  let verdict :=
    Validate.main (Some strat) (Validate.PlanLoaded (Some (classes built))) in
  let traded := Paper.main (RunAll.oracle r) port (plan_file_orders built) in
  let w' := fst (RunAll.main r w) in
  RunAll.plan w' = Some built
  /\ RunAll.portfolio w' = Some (fst traded)
  /\ RunAll.exec_log w' = (RunAll.exec_log w ++ snd traded)%list
  /\ RunAll.validation w' = Some verdict
  /\ (snd (RunAll.main r w) = true
      <-> Validate.status verdict = Validate.OK /\ RunAll.report_ok r = true)
  /\ (Validate.status verdict = Validate.FAIL ->
      RunAll.report w' = RunAll.report w).
Proof.
  intros He Hc Hf Hg Hs Hb Hp. cbv zeta. unfold RunAll.main.
  rewrite He, Hc, Hf, Hg.
  rewrite (run_stages_ok _ _ _ _ (agent_publishes e _ w)).
  rewrite (run_stages_ok _ _ _ _ (agent_publishes c _ _)).
  rewrite (run_stages_ok _ _ _ _ (agent_publishes f _ _)).
  rewrite (run_stages_ok _ _ _ _ (agent_publishes g _ _)).
  set (w4 := RunAll.publish_reits g _).
  rewrite (run_stages_ok _ _ _ _
             (orchestrator_builds w4 strat e c f g built Hs eq_refl eq_refl
                                  eq_refl eq_refl Hb)).
  set (w5 := RunAll.mkWorld _ _ _ _ _ (Some built) _ _ _ _).
  rewrite (run_stages_ok _ _ _ _
             (paper_trades (RunAll.oracle r) w5 port built Hp eq_refl)).
  set (w6 := RunAll.mkWorld _ _ _ _ _ _ (Some _) _ _ _).
  cbn [RunAll.run_stages]. unfold RunAll.validate. cbv zeta.
  change (RunAll.strategy w6) with (RunAll.strategy w). rewrite Hs.
  change (RunAll.plan w6) with (Some built). cbv beta iota.
  destruct (Validate.status
              (Validate.main (Some strat)
                 (Validate.PlanLoaded (Some (classes built))))) eqn:Ev.
  - unfold RunAll.reporting. destruct (RunAll.report_ok r); cbn.
    + repeat split; auto; discriminate.
    + repeat split; auto; try discriminate; intros [_ H]; discriminate.
  - cbn. repeat split; auto; try discriminate. intros [H _]; discriminate.
Qed.

Lemma pipeline_trades_before_it_validates_witness :
  RunAll.plan
    (fst (RunAll.main
            (RunAll.mkRun (Some signals_aapl) (Some []) (Some []) (Some [])
                          oracle_down true)
            (RunAll.mkWorld (Some policy_60_40) None None None None None
                            (Some portfolio_cash_1000) [] None false)))
  = Some plan_aapl_060.
Proof.
  refine (proj1 (pipeline_trades_before_it_validates
                   (RunAll.mkRun (Some signals_aapl) (Some []) (Some [])
                                 (Some []) oracle_down true)
                   (RunAll.mkWorld (Some policy_60_40) None None None None
                                   None (Some portfolio_cash_1000) [] None
                                   false)
                   policy_60_40 signals_aapl [] [] [] plan_aapl_060
                   portfolio_cash_1000 _ _ _ _ _ _ _));
    reflexivity.
Defined.

(** X28.  The pipeline stops at the first stage that fails.  When an agent
    fails, or the Orchestrator cannot build a plan (no strategy, or a
    strategy without a position cap), the run ends there: the plan, the
    portfolio, the execution log, the validation record and the report are
    left as they were. *)
Theorem pipeline_stops_at_first_failure (r : RunAll.Run) (w : RunAll.World) :
  (RunAll.equities r = None \/ RunAll.crypto r = None
   \/ RunAll.fixed_income r = None \/ RunAll.reits r = None
   \/ RunAll.strategy w = None
   \/ (exists strat, RunAll.strategy w = Some strat
                     /\ position_max_pct strat = None)) ->
  let w' := fst (RunAll.main r w) in
  snd (RunAll.main r w) = false
  /\ RunAll.plan w' = RunAll.plan w
  /\ RunAll.portfolio w' = RunAll.portfolio w
  /\ RunAll.exec_log w' = RunAll.exec_log w
  /\ RunAll.validation w' = RunAll.validation w
  /\ RunAll.report w' = RunAll.report w.
Proof.
  intro H. cbv zeta. unfold RunAll.main.
  destruct (RunAll.equities r) as [e |];
    [| rewrite (run_stages_fail _ _ w w eq_refl); repeat split].
  rewrite (run_stages_ok _ _ _ _ (agent_publishes e _ w)).
  destruct (RunAll.crypto r) as [c |];
    [| rewrite (run_stages_fail _ _ _ _ eq_refl); repeat split].
  rewrite (run_stages_ok _ _ _ _ (agent_publishes c _ _)).
  destruct (RunAll.fixed_income r) as [f |];
    [| rewrite (run_stages_fail _ _ _ _ eq_refl); repeat split].
  rewrite (run_stages_ok _ _ _ _ (agent_publishes f _ _)).
  destruct (RunAll.reits r) as [g |];
    [| rewrite (run_stages_fail _ _ _ _ eq_refl); repeat split].
  rewrite (run_stages_ok _ _ _ _ (agent_publishes g _ _)).
  set (w4 := RunAll.publish_reits g _).
  assert (O : RunAll.orchestrator w4 = (w4, false)).
  { unfold RunAll.orchestrator, Orchestrator.main.
    cbn [strategy_file signal_files].
    change (RunAll.strategy w4) with (RunAll.strategy w).
    destruct H as [H | [H | [H | [H | [H | [strat [H1 H2]]]]]]];
      try discriminate.
    - now rewrite H.
    - rewrite H1. unfold build_plan. now rewrite H2. }
  rewrite (run_stages_fail _ _ _ _ O). repeat split.
Qed.

Lemma pipeline_stops_at_first_failure_witness :
  snd (RunAll.main
         (RunAll.mkRun (Some signals_aapl) None (Some []) (Some [])
                       oracle_down true)
         (RunAll.mkWorld (Some policy_60_40) None None None None None
                         (Some portfolio_cash_1000) [] None false))
  = false.
Proof.
  refine (proj1 (pipeline_stops_at_first_failure
                   (RunAll.mkRun (Some signals_aapl) None (Some []) (Some [])
                                 oracle_down true)
                   (RunAll.mkWorld (Some policy_60_40) None None None None
                                   None (Some portfolio_cash_1000) [] None
                                   false) _)).
  right; left; reflexivity.
Defined.

End Pipeline.

(* ------------------------------------------------------------------------- *)
(** ** When the Orchestrator's own plan passes the validator *)

Section BuiltPlanVerdict.
Import Validate Scenarios.















End BuiltPlanVerdict.

(* ------------------------------------------------------------------------- *)
(** ** What the Plan Builder reads of the policy *)

Section PolicyByLookup.
Import Scenarios.

Lemma class_plan_of_ext (ta ta' : dict Q) (pos_max : Q) (cls : string)
      (insts : dict Q) :
  dget_or cls ta 0 = dget_or cls ta' 0 ->
  class_plan_of ta pos_max cls insts = class_plan_of ta' pos_max cls insts.
Proof.
  intro E. unfold class_plan_of. now rewrite E.
Qed.

Lemma plan_loop_ext (ta ta' : dict Q) (pos_max : Q) (by_class : dict (dict Q)) :
  (forall cls, dget_or cls ta 0 = dget_or cls ta' 0) ->
  plan_loop ta pos_max by_class = plan_loop ta' pos_max by_class.
Proof.
  intro E. unfold plan_loop. generalize (mkPlan [] []).
  induction by_class as [| [cls insts] l IH]; intro plan; [reflexivity |].
  cbn [fold_left]. rewrite <- IH. f_equal. unfold plan_step.
  destruct insts as [| i insts]; [reflexivity |].
  destruct (Qle_bool _ 0); [reflexivity |].
  now rewrite (class_plan_of_ext ta ta' pos_max cls _ (E cls)).
Qed.

(** X30.  The Plan Builder reads the policy by lookup.  Two policies with the
    same position cap (or both without one) and the same target for every
    class name, an absent class counting as 0.0, give the same result on the
    same signals, the plan entry for entry or the [KeyError]: the order of
    the entries of [alloc_target], the bands and whatever else the policy
    holds play no part. *)
Theorem plan_reads_policy_by_lookup
        (strategy strategy' : Strategy) (signals : list Signal) :
  position_max_pct strategy = position_max_pct strategy' ->
  (forall cls, dget_or cls (target_alloc_of strategy) 0
               = dget_or cls (target_alloc_of strategy') 0) ->
  build_plan strategy signals = build_plan strategy' signals.
Proof.
  intros Hp Ht. unfold build_plan. rewrite Hp.
  destruct (position_max_pct strategy') as [pos_max |]; [| reflexivity].
  f_equal. now apply plan_loop_ext.
Qed.

Lemma plan_reads_policy_by_lookup_witness :
  build_plan policy_60_40 signals_aapl_btc
  = build_plan policy_60_40_reordered signals_aapl_btc.
Proof.
  refine (plan_reads_policy_by_lookup
            policy_60_40 policy_60_40_reordered signals_aapl_btc _ _).
  - reflexivity.
  - intro cls. unfold dget_or. cbn.
    destruct (String.eqb_spec cls "equities") as [-> | N1]; [reflexivity |].
    destruct (String.eqb_spec cls "crypto") as [-> | N2]; [reflexivity |].
    destruct (String.eqb_spec cls "reits") as [-> | N3]; reflexivity.
Defined.

End PolicyByLookup.
